(** * shade.openstackcloud: cache keys, staleness gating, server inventory,
      backend fallback and the wait loops of the resource verbs

    A shallow embedding of the parts of [shade/openstackcloud.py] that the
    specification talks about.  Python methods of [OpenStackCloud] become
    functions in a state-and-exception monad over the connection object, the
    outside world (backends and wall clock) and a ghost trace of the tasks
    handed to the task manager.  A second part embeds further methods of
    the class: range searches, flavors, routers, security groups, volume
    attachments, the external networks, floating IPs for a server, booting
    from volumes, object storage and image lookups. *)

From Stdlib Require Import ZArith Lia Ascii.
From stdpp Require Import base option list sorting strings gmap pretty.

Open Scope string_scope.

(** ** Python values that reach the cache key *)

(** Keyword-argument values are rendered with [%s]; the decorated list
    methods only receive booleans, strings and [None]. *)
Inductive pyval :=
| PyStr (s : string)
| PyBool (b : bool)
| PyNone.

Definition py_str (v : pyval) : string :=
  match v with
  | PyStr s => s
  | PyBool true => "True"
  | PyBool false => "False"
  | PyNone => "None"
  end.

(** [sep.join(parts)] *)
Fixpoint join (sep : string) (parts : list string) : string :=
  match parts with
  | [] => ""
  | [p] => p
  | p :: rest => p ++ sep ++ join sep rest
  end.

(** [kwargs[k]] on the keyword dictionary, kept in the order the caller
    wrote the keywords. *)
Fixpoint kw_get (k : string) (kwargs : list (string * pyval)) : option pyval :=
  match kwargs with
  | [] => None
  | (k', v) :: rest => if String.eqb k k' then Some v else kw_get k rest
  end.


(** ** Resource descriptors *)

(** A volume, image or stack as the list methods return it.  [status] is
    what the code reads as [volume['status']], [image.status] and
    [stack['stack_status']]. *)
Record resource := { id : string; rname : string; status : string }.

(** A server record: [image_id] is [None] when [server['image']] or its
    ['id'] is empty. *)
Record server := {
  server_id : string;
  server_name : string;
  server_status : string;
  image_id : option string;
  floating_address : option string;  (* the floating address it carries *)
  detail : bool  (* expanded by [meta.get_hostvars_from_server] *)
}.

Record floating_ip := {
  fip_id : string;
  floating_ip_address : string;
  attached : bool
}.

(** Result of [ImageTaskCreate] and of [ImageTaskGet]. *)
Record glance_task := { task_id : string }.
Record task_status := {
  ts_status : string;
  ts_message : string;
  ts_image_id : string  (* [status.result['image_id']] *)
}.

(** ** Exceptions, outcomes and the task gateway *)

Inductive exn :=
| OpenStackCloudException (msg : string)
| OpenStackCloudTimeout (msg : string)
| OpenStackCloudURINotFound (msg : string)
| OpenStackCloudResourceNotFound (msg : string)
| OpenStackCloudUnavailableFeature (msg : string)
| NovaNotFound
| NeutronNotFound
| NeutronClientException (status_code : Z)
| GlanceHTTPInternalServerError
| GlanceHTTPServiceUnavailable
| AttributeError (msg : string)
| TypeError (msg : string)
| IndexError (msg : string)
| EndpointNotFound (msg : string)
| BackendException (msg : string).

(** [isinstance(e, OpenStackCloudException)] *)
Definition is_cloud_exception (e : exn) : bool :=
  match e with
  | OpenStackCloudException _ | OpenStackCloudTimeout _
  | OpenStackCloudURINotFound _ | OpenStackCloudResourceNotFound _
  | OpenStackCloudUnavailableFeature _ => true
  | _ => false
  end.

(** [str(e)] *)
Definition exn_str (e : exn) : string :=
  match e with
  | OpenStackCloudException m | OpenStackCloudTimeout m
  | OpenStackCloudURINotFound m | OpenStackCloudResourceNotFound m
  | OpenStackCloudUnavailableFeature m | AttributeError m
  | TypeError m | IndexError m
  | EndpointNotFound m | BackendException m => m
  | NovaNotFound => "Not found"
  | NeutronNotFound => "Not found"
  | NeutronClientException _ => "NeutronClientException"
  | GlanceHTTPInternalServerError => "HTTPInternalServerError"
  | GlanceHTTPServiceUnavailable => "HTTPServiceUnavailable"
  end.

(** A call that does not come back: a loop that outlives the fuel of the
    model, or a blocking [acquire] on a lock some other caller holds. *)
Inductive stuck := OutOfFuel | BlockedOnLock.

Inductive result (A : Type) :=
| Ok (a : A)
| Raise (e : exn)
| Stuck (why : stuck).
Arguments Ok {A} a.
Arguments Raise {A} e.
Arguments Stuck {A} why.

(** The keyword under which [ImageDelete] receives the id: [image_id] for
    glance v2, [image] for glance v1. *)
Inductive image_ref := ByImageId (i : string) | ByImage (i : string).

(** The tasks of [_tasks] that the modelled methods submit. *)
Inductive task :=
| VolumeList
| VolumeCreate (size : Z) (kwargs : list (string * pyval))
| VolumeDelete (volume : string)
| StackList
| StackDelete (stack : string)
| GlanceImageList
| NovaImageList
| ImageDelete (ref : image_ref)
| ImageTaskCreate (import_from : string) (image_name : string)
| ImageTaskGet (task : string)
| ServerList
| ServerGet (srv : string)
| ServerDelete (srv : string)
| NeutronFloatingIPList
| NovaFloatingIPList
| NeutronFloatingIPCreate (network : string)
    (port : option (string * option string))
| NovaFloatingIPCreate (pool : string)
| NeutronFloatingIPDelete (floatingip : string)
| NovaFloatingIPDelete (floatingip : string)
| NeutronFloatingIPUpdate (floatingip : string) (port : string)
    (fixed_address : option string)
| NovaFloatingIPAttach (srv : string) (address : string)
    (fixed_address : option string).

(** What [submitTask] hands back for each task. *)
Definition answer (t : task) : Type :=
  match t with
  | VolumeList | StackList | GlanceImageList | NovaImageList => list resource
  | VolumeCreate _ _ => resource
  | ImageTaskCreate _ _ => glance_task
  | ImageTaskGet _ => task_status
  | ServerList => list server
  | ServerGet _ => option server
  | NeutronFloatingIPList | NovaFloatingIPList => list floating_ip
  | NeutronFloatingIPCreate _ _ | NovaFloatingIPCreate _
  | NeutronFloatingIPUpdate _ _ _ => floating_ip
  | VolumeDelete _ | StackDelete _ | ImageDelete _ | ServerDelete _
  | NeutronFloatingIPDelete _ | NovaFloatingIPDelete _
  | NovaFloatingIPAttach _ _ _ => unit
  end.

(** Ghost trace: what a call did that the specification counts.  [EvStore
    attr] records an assignment to the attribute [attr] of the server
    inventory, [self._servers] or [self._servers_time]. *)
Inductive event :=
| EvSubmit (t : task)
| EvYield (count : nat)
| EvLogDebug (msg : string)
| EvWarn (msg : string)
| EvAcquire (blocking : bool) (acquired : bool)
| EvRelease
| EvStore (attr : string).

(** ** The connection object *)

(** Modelled from the spec: the dogpile region behind
    [_utils.cache_on_arguments] is not part of the sources.  An entry maps a
    key to the time it was stored and the cached list; [cache_enabled] is
    false for the [dogpile.cache.null] configuration, where [__init__]
    undecorates the methods and makes [invalidate] a no-op. *)
Record cache_region := {
  cache_enabled : bool;
  expiration_time : Z;
  entries : gmap string (Z * list resource)
}.

Record cloud := {
  name : string;
  region_name : string;
  _SERVER_AGE : Z;
  _servers : list server;
  _servers_time : Z;
  _servers_lock : bool;  (* true while some caller holds the lock *)
  _cache : cache_region
}.

Record state (W : Type) := {
  self : cloud;
  world : W;
  trace : list event
}.
Arguments self {W} s.
Arguments world {W} s.
Arguments trace {W} s.

(** ** Cache keys *)

Module CacheKey.

(** [sorted(kwargs.keys())] *)
Definition sorted_keys (kwargs : list (string * pyval)) : list string :=
  merge_sort String.le (kwargs.*1).

(** ['%s:%s' % (k, kwargs[k])] *)
Definition kw_item (kwargs : list (string * pyval)) (k : string) : string :=
  k ++ ":" ++ from_option py_str "" (kw_get k kwargs).

(** [name_key] of [_make_cache_key]. *)
Definition name_key (self : cloud) (namespace : option string) : string :=
  match namespace with
  | None => name self
  | Some ns => name self ++ ":" ++ ns
  end.

(** The closure [generate_key] returned by [_make_cache_key(self, namespace,
    fn)], applied to positional [args] and keyword [kwargs]; [fname] stands
    for [fn.__name__]. *)
Definition generate_key (self : cloud) (namespace : option string)
    (fname : string) (args : list string) (kwargs : list (string * pyval))
    : string :=
  let arg_key := join "," args in
  let kw_keys := sorted_keys kwargs in
  let kwargs_key :=
    join "," (kw_item kwargs <$> filter (fun k => k ≠ "cache") kw_keys) in
  join "_" [name_key self namespace; fname; arg_key; kwargs_key].

End CacheKey.

(** ** The monad of method bodies *)

Definition M (W A : Type) : Type := state W → result A * state W.

Definition ret {W A} (a : A) : M W A := fun s => (Ok a, s).
Definition raise {W A} (e : exn) : M W A := fun s => (Raise e, s).
Definition block {W A} (why : stuck) : M W A := fun s => (Stuck why, s).

Definition bind {W A B} (m : M W A) (k : A → M W B) : M W B :=
  fun s =>
    match m s with
    | (Ok a, s') => k a s'
    | (Raise e, s') => (Raise e, s')
    | (Stuck w, s') => (Stuck w, s')
    end.

Notation "'let!' x ':=' m 'in' k" := (bind m (fun x => k))
  (at level 10, x name, m at level 100, k at level 200, only parsing).
Notation "'run!' m 'in' k" := (bind m (fun _ => k))
  (at level 10, m at level 100, k at level 200, only parsing).

(** [try: m  except ... as e: h e] *)
Definition catch {W A} (m : M W A) (h : exn → M W A) : M W A :=
  fun s =>
    match m s with
    | (Raise e, s') => h e s'
    | r => r
    end.

(** [try: m  finally: f] *)
Definition finally {W A} (m : M W A) (f : M W unit) : M W A :=
  fun s =>
    match m s with
    | (r, s') =>
      match f s' with
      | (Ok _, s'') => (r, s'')
      | (Raise e, s'') => (Raise e, s'')
      | (Stuck w, s'') => (Stuck w, s'')
      end
    end.

Definition get_self {W} : M W cloud := fun s => (Ok (self s), s).
Definition put_self {W} (c : cloud) : M W unit :=
  fun s => (Ok (), {| self := c; world := world s; trace := trace s |}).
Definition emit {W} (e : event) : M W unit :=
  fun s => (Ok (), {| self := self s; world := world s;
                      trace := trace s ++ [e] |}).

(** [self.log.debug(msg)] *)
Definition log_debug {W} (msg : string) : M W unit := emit (EvLogDebug msg).

(** ** What the methods need from outside this file

    [W] is the outside world: the backends behind the task manager and the
    wall clock.  The remaining fields are the helpers of [_utils], [meta] and
    [os_client_config], and a few methods of the class that the modelled
    ones call and that are kept abstract here. *)
Inductive fip_query := ById (i : string) | ByAddress (a : string).

Class Env (W : Type) := {
  (** [time.time()] and [time.sleep(seconds)] *)
  time_time : W → Z;
  time_sleep : Z → W → W;
  (** what running a task yields *)
  respond : ∀ t : task, W → result (answer t) * W;
  (** [cloud_config.config.get('has_' + key, True)],
      [cloud_config.get_session_endpoint(key)] and
      [cloud_config.get_api_version(service)] *)
  config_has : string → bool;
  session_endpoint : string → W → result (option string);
  get_api_version : string → string;
  (** the exception that leaves [with _utils.shade_exceptions(msg)] and
      [with _utils.neutron_exceptions(msg)] when [e] is raised inside *)
  shade_exceptions_exit : option string → exn → exn;
  neutron_exceptions_exit : string → exn → exn;
  (** [_utils._filter_list] on the three kinds of records, and what
      [_utils._get_entity] makes of the list its search function returned *)
  _filter_list : list resource → string → list resource;
  _filter_servers : list server → string → list server;
  _filter_floating_ips : list floating_ip → fip_query → list floating_ip;
  _get_entity_of : ∀ A : Type, string → list A → result (option A);
  (** [_utils.normalize_*] *)
  normalize_volumes : list resource → list resource;
  normalize_servers : list server → list server;
  normalize_server : option server → option server;
  normalize_neutron_floating_ips : list floating_ip → list floating_ip;
  normalize_nova_floating_ips : list floating_ip → list floating_ip;
  (** [meta.get_server_ip(server, ext_tag='floating')] and
      [meta.get_hostvars_from_server(self, server)] *)
  get_server_ip : server → option string;
  get_hostvars_from_server : server → M W server;
  (** methods of the class kept abstract: the id of a network, the ids of
      the external networks, the free port and fixed address of a server,
      the names of the floating-IP pools, whether [get_volume(server)] finds
      something, [create_object] and [update_image_properties] *)
  get_network : string → M W (option string);
  get_external_networks : M W (list string);
  _get_free_fixed_port : server → option string →
                         M W (option string * option string);
  list_floating_ip_pools : M W (list string);
  get_volume_of_server : server → M W bool;
  create_object : string → string → M W unit;
  update_image_properties : resource → M W unit;
  _get_volume_kwargs : list (string * pyval) → list (string * pyval);
  (** the exception built by the name [OpenStackException], which
      [_delete_server] raises and [shade.exc] would have to define *)
  OpenStackException : string → exn
}.

Section Methods.
Context {W : Type} `{Env W}.

(** [time.time()] *)
Definition now : M W Z := fun s => (Ok (time_time (world s)), s).

(** [time.sleep(seconds)] *)
Definition sleep (seconds : Z) : M W unit :=
  fun s => (Ok (), {| self := self s; world := time_sleep seconds (world s);
                      trace := trace s |}).

(** [self.manager.submitTask(t)] *)
Definition submitTask (t : task) : M W (answer t) :=
  fun s =>
    let '(r, w) := respond t (world s) in
    (r, {| self := self s; world := w; trace := trace s ++ [EvSubmit t] |}).

(** [with _utils.shade_exceptions(msg): m] *)
Definition shade_exceptions {A} (msg : option string) (m : M W A) : M W A :=
  catch m (fun e => raise (shade_exceptions_exit msg e)).

(** [with _utils.neutron_exceptions(msg): m] *)
Definition neutron_exceptions {A} (msg : string) (m : M W A) : M W A :=
  catch m (fun e => raise (neutron_exceptions_exit msg e)).

(** *** Staleness predicates *)

(** [s in (a, b, c)] on a tuple of strings *)
Definition in_tuple (s : string) (t : list string) : bool :=
  existsb (String.eqb s) t.

(** [needle in hay] on strings *)
Fixpoint contains (needle hay : string) : bool :=
  if String.prefix needle hay then true
  else match hay with
       | EmptyString => false
       | String _ rest => contains needle rest
       end.

Fixpoint _no_pending_volumes (volumes : list resource) : bool :=
  match volumes with
  | [] => true
  | volume :: rest =>
    if negb (in_tuple (status volume) ["available"; "error"; "in-use"])
    then false
    else _no_pending_volumes rest
  end.

Fixpoint _no_pending_images (images : list resource) : bool :=
  match images with
  | [] => true
  | image :: rest =>
    if negb (in_tuple (status image) ["active"; "deleted"; "killed"])
    then false
    else _no_pending_images rest
  end.

Fixpoint _no_pending_stacks (stacks : list resource) : bool :=
  match stacks with
  | [] => true
  | stack :: rest =>
    let status := status stack in
    if negb (contains "_COMPLETE" status) && negb (contains "_FAILED" status)
    then false
    else _no_pending_stacks rest
  end.

(** *** The cache layer *)

Definition set_cache (c : cloud) (r : cache_region) : cloud :=
  {| name := name c; region_name := region_name c;
     _SERVER_AGE := _SERVER_AGE c; _servers := _servers c;
     _servers_time := _servers_time c; _servers_lock := _servers_lock c;
     _cache := r |}.

Definition set_entries (r : cache_region)
    (e : gmap string (Z * list resource)) : cache_region :=
  {| cache_enabled := cache_enabled r;
     expiration_time := expiration_time r; entries := e |}.

(** An entry stored at [created] is live at [t] inside the TTL window. *)
Definition live (r : cache_region) (t : Z) (key : string)
    : option (list resource) :=
  match entries r !! key with
  | Some (created, v) =>
    if (t - created <? expiration_time r)%Z then Some v else None
  | None => None
  end.

(** Modelled from the spec: the miss path of section 4.2, [compute_fn] then
    [staleness_predicate]; the value is stored only when the predicate
    accepts it. *)
Definition cache_miss (should_cache_fn : list resource → bool)
    (key : string) (compute : M W (list resource)) : M W (list resource) :=
  let! v := compute in
  if should_cache_fn v then
    let! t := now in
    let! c := get_self in
    run! put_self
           (set_cache c (set_entries (_cache c)
                           (<[key := (t, v)]> (entries (_cache c))))) in
    ret v
  else ret v.

(** Modelled from the spec: [_utils.cache_on_arguments(should_cache_fn=...)]
    around a method called with [args] and [kwargs] (section 4.2,
    [cached_read]); the decorator itself is not part of the sources.  With
    caching disabled the method runs undecorated. *)
Definition cache_on_arguments (should_cache_fn : list resource → bool)
    (fname : string) (args : list string) (kwargs : list (string * pyval))
    (compute : M W (list resource)) : M W (list resource) :=
  let! c := get_self in
  if negb (cache_enabled (_cache c)) then compute
  else
    let key := CacheKey.generate_key c None fname args kwargs in
    let! t := now in
    match live (_cache c) t key with
    | Some v => ret v
    | None => cache_miss should_cache_fn key compute
    end.

(** Modelled from the spec: [self.<fname>.invalidate(self)], which removes
    the entry of the call without arguments (section 4.2, [invalidate]). *)
Definition invalidate (fname : string) : M W unit :=
  let! c := get_self in
  if negb (cache_enabled (_cache c)) then ret ()
  else
    let key := CacheKey.generate_key c None fname [] [] in
    put_self (set_cache c (set_entries (_cache c)
                             (delete key (entries (_cache c))))).

(** Modelled from the spec: [self._cache.invalidate()] on the whole
    region. *)
Definition invalidate_region : M W unit :=
  let! c := get_self in
  if negb (cache_enabled (_cache c)) then ret ()
  else put_self (set_cache c (set_entries (_cache c) ∅)).

(** *** Cached list methods *)

(** The keyword dictionary of a call that passes [k=v] or leaves it out. *)
Definition kw_opt (k : string) (v : option pyval) : list (string * pyval) :=
  match v with
  | Some v => [(k, v)]
  | None => []
  end.

Definition list_volumes_body (cache : option bool) : M W (list resource) :=
  run! (if negb (default true cache)
        then emit (EvWarn "cache argument to list_volumes is deprecated. Use invalidate instead.")
        else ret ()) in
  shade_exceptions (Some "Error fetching volume list")
    (let! raw := submitTask VolumeList in
     ret (normalize_volumes raw)).

Definition list_volumes (cache : option bool) : M W (list resource) :=
  cache_on_arguments _no_pending_volumes "list_volumes" []
    (kw_opt "cache" (PyBool <$> cache)) (list_volumes_body cache).

Definition list_stacks_body : M W (list resource) :=
  let! stacks := shade_exceptions (Some "Error fetching stack list")
                   (submitTask StackList) in
  ret stacks.

Definition list_stacks : M W (list resource) :=
  cache_on_arguments _no_pending_stacks "list_stacks" [] [] list_stacks_body.

(** The loop over [image_list] at the end of [list_images]. *)
Fixpoint filter_images (filter_deleted : bool) (image_list : list resource)
    : list resource :=
  match image_list with
  | [] => []
  | image :: rest =>
    if negb filter_deleted then image :: filter_images filter_deleted rest
    else if negb (String.eqb (status image) "DELETED")
         then image :: filter_images filter_deleted rest
         else filter_images filter_deleted rest
  end.

Definition list_images_body (filter_deleted : option bool)
    : M W (list resource) :=
  let! image_list :=
    catch (submitTask GlanceImageList)
      (fun e =>
         match e with
         | GlanceHTTPInternalServerError =>
           shade_exceptions (Some "Error fetching image list")
             (submitTask NovaImageList)
         | _ =>
           if is_cloud_exception e then raise e
           else raise (OpenStackCloudException
                         ("Error fetching image list: " ++ exn_str e))
         end) in
  ret (filter_images (default true filter_deleted) image_list).

Definition list_images (filter_deleted : option bool) : M W (list resource) :=
  cache_on_arguments _no_pending_images "list_images" []
    (kw_opt "filter_deleted" (PyBool <$> filter_deleted))
    (list_images_body filter_deleted).

(** *** The server inventory *)

Definition set_servers (c : cloud) (l : list server) : cloud :=
  {| name := name c; region_name := region_name c;
     _SERVER_AGE := _SERVER_AGE c; _servers := l;
     _servers_time := _servers_time c; _servers_lock := _servers_lock c;
     _cache := _cache c |}.

Definition set_servers_time (c : cloud) (t : Z) : cloud :=
  {| name := name c; region_name := region_name c;
     _SERVER_AGE := _SERVER_AGE c; _servers := _servers c;
     _servers_time := t; _servers_lock := _servers_lock c;
     _cache := _cache c |}.

Definition set_servers_lock (c : cloud) (held : bool) : cloud :=
  {| name := name c; region_name := region_name c;
     _SERVER_AGE := _SERVER_AGE c; _servers := _servers c;
     _servers_time := _servers_time c; _servers_lock := held;
     _cache := _cache c |}.

(** [self._servers_lock.acquire(blocking)]: a free lock is taken; a held one
    makes the non-blocking caller go on with [False] and the blocking caller
    wait for whoever holds it. *)
Definition acquire (blocking : bool) : M W bool :=
  let! c := get_self in
  if _servers_lock c then
    run! emit (EvAcquire blocking false) in
    if blocking then block BlockedOnLock else ret false
  else
    run! put_self (set_servers_lock c true) in
    run! emit (EvAcquire blocking true) in
    ret true.

(** [self._servers_lock.release()] *)
Definition release : M W unit :=
  let! c := get_self in
  run! put_self (set_servers_lock c false) in
  emit EvRelease.

(** [[f(x) for x in l]] *)
Fixpoint for_each {A B} (f : A → M W B) (l : list A) : M W (list B) :=
  match l with
  | [] => ret []
  | x :: rest =>
    let! y := f x in
    let! ys := for_each f rest in
    ret (y :: ys)
  end.

Definition _list_servers (detailed : bool) : M W (list server) :=
  let! c := get_self in
  shade_exceptions
    (Some ("Error fetching server list on " ++ name c ++ ":"
           ++ region_name c ++ ":"))
    (let! raw := submitTask ServerList in
     let servers := normalize_servers raw in
     if detailed then for_each get_hostvars_from_server servers
     else ret servers).

Definition list_servers (detailed : bool) : M W (list server) :=
  let! t := now in
  let! c := get_self in
  run! (if (_SERVER_AGE c <=? t - _servers_time c)%Z then
          let! got := acquire (Nat.eqb (length (_servers c)) 0) in
          if got then
            finally
              (let! l := _list_servers detailed in
               let! c := get_self in
               run! put_self (set_servers c l) in
               run! emit (EvStore "_servers") in
               let! t := now in
               let! c := get_self in
               run! put_self (set_servers_time c t) in
               emit (EvStore "_servers_time"))
              release
          else ret ()
        else ret ()) in
  let! c := get_self in
  ret (_servers c).

(** *** Service catalogue *)

Definition get_session_endpoint (service_key : string)
    : M W (option string) :=
  let! c := get_self in
  fun s =>
    match session_endpoint service_key (world s) with
    | Ok endpoint => ret endpoint s
    | Raise (EndpointNotFound m) =>
      (run! log_debug ("Endpoint not found in " ++ name c ++ " cloud: " ++ m)
       in ret None) s
    | Raise e =>
      if is_cloud_exception e then raise e s
      else raise (OpenStackCloudException
                    ("Error getting " ++ service_key ++ " endpoint on "
                     ++ name c ++ ":" ++ region_name c ++ ": "
                     ++ exn_str e)) s
    | Stuck w => block w s
    end.

(** [if endpoint:] *)
Definition truthy (endpoint : option string) : bool :=
  match endpoint with
  | Some (String _ _) => true
  | _ => false
  end.

Definition has_service (service_key : string) : M W bool :=
  if negb (config_has service_key) then
    run! log_debug ("Disabling " ++ service_key
                    ++ " entry in catalog per config") in
    ret false
  else
    catch (let! endpoint := get_session_endpoint service_key in
           ret (truthy endpoint))
          (fun e => if is_cloud_exception e then ret false else raise e).

(** *** search and get *)

(** [_utils._get_entity(search, name_or_id, filters)]: the search function
    is called and the helper decides on its list. *)
Definition _get_entity {A} (search : string → M W (list A))
    (name_or_id : string) : M W (option A) :=
  let! found := search name_or_id in
  fun s => (_get_entity_of A name_or_id found, s).

Definition search_volumes (name_or_id : string) : M W (list resource) :=
  let! volumes := list_volumes None in
  ret (_filter_list volumes name_or_id).

Definition get_volume (name_or_id : string) : M W (option resource) :=
  _get_entity search_volumes name_or_id.

Definition search_images (name_or_id : string) : M W (list resource) :=
  let! images := list_images None in
  ret (_filter_list images name_or_id).

Definition get_image (name_or_id : string) : M W (option resource) :=
  _get_entity search_images name_or_id.

Definition search_stacks (name_or_id : string) : M W (list resource) :=
  let! stacks := list_stacks in
  ret (_filter_list stacks name_or_id).

Definition get_stack (name_or_id : string) : M W (option resource) :=
  _get_entity search_stacks name_or_id.

Definition search_servers (detailed : bool) (name_or_id : string)
    : M W (list server) :=
  let! servers := list_servers detailed in
  ret (_filter_servers servers name_or_id).

Definition get_server (name_or_id : string) (detailed : bool)
    : M W (option server) :=
  _get_entity (search_servers detailed) name_or_id.

Definition get_server_by_id (i : string) : M W (option server) :=
  let! raw := submitTask (ServerGet i) in
  ret (normalize_server raw).

(** *** The wait loop *)

(** How one pass through the body of a [for] loop ends: [continue] (or the
    end of the body) with the loop variables [st], [break], or [return a]. *)
Inductive ctl (S A : Type) :=
| Continue (st : S)
| Break (st : S)
| Return (a : A).
Arguments Continue {S A} st.
Arguments Break {S A} st.
Arguments Return {S A} a.

(** [time.time() < start + timeout] fails *)
Definition expired (deadline : option Z) (t : Z) : bool :=
  match deadline with
  | None => false
  | Some d => (d <=? t)%Z
  end.

(** Modelled from the spec: [for count in _utils._iterate_timeout(timeout,
    message, wait): body], the polling loop of section 4.1.  The generator is
    not part of the sources: while the deadline has not passed it yields the
    next count, and it sleeps [wait] seconds before the following check; past
    the deadline it raises the timeout error; a [timeout] of [None] never
    expires.  [fuel] bounds the passes the model follows. *)
Fixpoint iterate_timeout_from {S A} (fuel : nat) (count : nat)
    (deadline : option Z) (message : string) (wait : Z)
    (body : nat → S → M W (ctl S A)) (st : S) : M W (S + A) :=
  match fuel with
  | O => block OutOfFuel
  | Datatypes.S fuel' =>
    let! t := now in
    if expired deadline t then raise (OpenStackCloudTimeout message)
    else
      run! emit (EvYield (Datatypes.S count)) in
      let! c := body (Datatypes.S count) st in
      match c with
      | Return a => ret (inr a)
      | Break st' => ret (inl st')
      | Continue st' =>
        run! sleep wait in
        iterate_timeout_from fuel' (Datatypes.S count) deadline message wait
          body st'
      end
  end.

Definition _iterate_timeout {S A} (fuel : nat) (timeout : option Z)
    (message : string) (wait : Z) (body : nat → S → M W (ctl S A)) (st : S)
    : M W (S + A) :=
  let! start := now in
  iterate_timeout_from fuel 0 (Z.add start <$> timeout) message wait body st.

(** *** Floating IPs on two backends *)

(** The message logged before the nova attempt. *)
Definition trying_with_nova (e : exn) : string :=
  "Something went wrong talking to neutron API: '" ++ exn_str e
  ++ "'. Trying with Nova.".

(** [try: return primary  except OpenStackCloudURINotFound as e:
    self.log.debug(...)]: [Some r] when the primary returned [r], [None] when
    control falls through to what follows the [if]. *)
Definition try_neutron {A} (primary : M W A) : M W (option A) :=
  catch (let! r := primary in ret (Some r))
        (fun e =>
           match e with
           | OpenStackCloudURINotFound _ =>
             run! log_debug (trying_with_nova e) in ret None
           | _ => raise e
           end).

(** [l[0]] *)
Definition first {A} (l : list A) : M W A :=
  match l with
  | x :: _ => ret x
  | [] => raise (IndexError "list index out of range")
  end.

Definition _neutron_list_floating_ips : M W (list floating_ip) :=
  neutron_exceptions "error fetching floating IPs list"
    (submitTask NeutronFloatingIPList).

Definition _nova_list_floating_ips : M W (list floating_ip) :=
  shade_exceptions (Some "Error fetching floating IPs list")
    (submitTask NovaFloatingIPList).

Definition list_floating_ips : M W (list floating_ip) :=
  let! net := has_service "network" in
  let! done :=
    (if net then
       try_neutron (let! l := _neutron_list_floating_ips in
                    ret (normalize_neutron_floating_ips l))
     else ret None) in
  match done with
  | Some r => ret r
  | None =>
    let! floating_ips := _nova_list_floating_ips in
    ret (normalize_nova_floating_ips floating_ips)
  end.

Definition search_floating_ips (q : fip_query) : M W (list floating_ip) :=
  let! floating_ips := list_floating_ips in
  ret (_filter_floating_ips floating_ips q).

Definition get_floating_ip (i : string) : M W (option floating_ip) :=
  _get_entity (fun i => search_floating_ips (ById i)) i.

Definition _neutron_create_floating_ip (network_name_or_id : option string)
    (srv : option server) : M W floating_ip :=
  neutron_exceptions
    ("unable to create floating IP for net "
     ++ default "None" network_name_or_id)
    (let! network_id :=
       match network_name_or_id with
       | Some (String a rest) =>
         let! net := get_network (String a rest) in
         match net with
         | Some i => ret i
         | None => raise (TypeError "'NoneType' object is not subscriptable")
         end
       | _ =>
         let! networks := get_external_networks in
         match networks with
         | [] => raise (OpenStackCloudResourceNotFound
                          "Unable to find an external network in this cloud which makes getting a floating IP impossible")
         | i :: _ => ret i
         end
       end in
     let! port :=
       match srv with
       | Some sv =>
         let! pf := _get_free_fixed_port sv None in
         match pf with
         | (Some p, fixed_address) => ret (Some (p, fixed_address))
         | (None, _) => ret None
         end
       | None => ret None
       end in
     submitTask (NeutronFloatingIPCreate network_id port)).

Definition _nova_create_floating_ip (pool : option string) : M W floating_ip :=
  shade_exceptions
    (Some ("Unable to create floating IP in pool " ++ default "None" pool))
    (let! pool :=
       match pool with
       | Some p => ret p
       | None =>
         let! pools := list_floating_ip_pools in
         match pools with
         | [] => raise (OpenStackCloudResourceNotFound
                          "unable to find a floating ip pool")
         | p :: _ => ret p
         end
       end in
     submitTask (NovaFloatingIPCreate pool)).

Definition create_floating_ip (network : option string) (srv : option server)
    : M W floating_ip :=
  let! net := has_service "network" in
  let! done :=
    (if net then
       try_neutron
         (let! f := _neutron_create_floating_ip network srv in
          first (normalize_neutron_floating_ips [f]))
     else ret None) in
  match done with
  | Some r => ret r
  | None =>
    let! f := _nova_create_floating_ip network in
    first (normalize_nova_floating_ips [f])
  end.

Definition _neutron_delete_floating_ip (floating_ip_id : string) : M W bool :=
  catch
    (run! neutron_exceptions "unable to delete floating IP"
            (submitTask (NeutronFloatingIPDelete floating_ip_id)) in
     ret true)
    (fun e =>
       match e with
       | OpenStackCloudResourceNotFound _ => ret false
       | _ => raise e
       end).

Definition _nova_delete_floating_ip (floating_ip_id : string) : M W bool :=
  catch
    (run! submitTask (NovaFloatingIPDelete floating_ip_id) in ret true)
    (fun e =>
       match e with
       | NovaNotFound => ret false
       | _ =>
         if is_cloud_exception e then raise e
         else raise (OpenStackCloudException
                       ("Unable to delete floating IP id " ++ floating_ip_id
                        ++ ": " ++ exn_str e))
       end).

Definition delete_floating_ip (floating_ip_id : string) : M W bool :=
  let! net := has_service "network" in
  let! done :=
    (if net then try_neutron (_neutron_delete_floating_ip floating_ip_id)
     else ret None) in
  match done with
  | Some r => ret r
  | None => _nova_delete_floating_ip floating_ip_id
  end.

(** *** Attaching a floating IP *)

Definition _neutron_attach_ip_to_server (srv : server) (fip : floating_ip)
    (fixed_address : option string) : M W floating_ip :=
  neutron_exceptions
    ("unable to bind a floating ip to server " ++ server_id srv)
    (let! pf := _get_free_fixed_port srv fixed_address in
     match pf with
     | (None, _) =>
       raise (OpenStackCloudException
                ("unable to find a port for server " ++ server_id srv))
     | (Some port, fixed_address) =>
       submitTask (NeutronFloatingIPUpdate (fip_id fip) port fixed_address)
     end).

Definition _nova_attach_ip_to_server (srv_id : string)
    (floating_ip_id : string) (fixed_address : option string) : M W unit :=
  shade_exceptions
    (Some ("Error attaching IP " ++ floating_ip_id ++ " to instance "
           ++ srv_id))
    (let! f_ip := get_floating_ip floating_ip_id in
     match f_ip with
     | None => raise (TypeError "'NoneType' object is not subscriptable")
     | Some f =>
       submitTask (NovaFloatingIPAttach srv_id (floating_ip_address f)
                     fixed_address)
     end).

(** The body of the wait loop of [_attach_ip_to_server]. *)
Definition attach_wait_body (srv_id : string) (fip : floating_ip)
    (count : nat) (st : unit) : M W (ctl unit (option server)) :=
  let! srv := get_server_by_id srv_id in
  match srv with
  | None => raise (TypeError "'NoneType' object is not subscriptable")
  | Some sv =>
    if bool_decide (get_server_ip sv = Some (floating_ip_address fip))
    then ret (Return (Some sv))
    else ret (Continue tt)
  end.

Definition _attach_ip_to_server (fuel : nat) (srv : server)
    (fip : floating_ip) (fixed_address : option string) (wait : bool)
    (timeout : option Z) (skip_attach : bool) : M W (option server) :=
  let ext_ip := get_server_ip srv in
  if bool_decide (ext_ip = Some (floating_ip_address fip)) then
    ret (Some srv)
  else
    let! net := has_service "network" in
    run! (if net then
            if negb skip_attach then
              catch
                (run! _neutron_attach_ip_to_server srv fip fixed_address in
                 ret ())
                (fun e =>
                   match e with
                   | OpenStackCloudURINotFound _ =>
                     log_debug (trying_with_nova e)
                   | _ => raise e
                   end)
            else ret ()
          else
            _nova_attach_ip_to_server (server_id srv) (fip_id fip)
              fixed_address) in
    if wait then
      let! r := _iterate_timeout fuel timeout
                  "Timeout waiting for the floating IP to be attached." 2
                  (attach_wait_body (server_id srv) fip) tt in
      match r with
      | inr found => ret found
      | inl _ => ret (Some srv)
      end
    else ret (Some srv).

(** *** Volumes *)

(** [kwargs[k] = v] *)
Fixpoint kw_set (k : string) (v : pyval) (kwargs : list (string * pyval))
    : list (string * pyval) :=
  match kwargs with
  | [] => [(k, v)]
  | (k', v') :: rest =>
    if String.eqb k k' then (k, v) :: rest else (k', v') :: kw_set k v rest
  end.

(** The body of the wait loop of [create_volume]. *)
Definition create_volume_wait_body (vol_id : string) (count : nat)
    (st : unit) : M W (ctl unit resource) :=
  let! volume := get_volume vol_id in
  match volume with
  | None => ret (Continue tt)
  | Some volume =>
    if String.eqb (status volume) "available" then ret (Return volume)
    else if String.eqb (status volume) "error" then
      raise (OpenStackCloudException
               "Error in creating volume, please check logs")
    else ret (Continue tt)
  end.

Definition create_volume (fuel : nat) (size : Z) (wait : bool)
    (timeout : option Z) (image : option string)
    (kwargs : list (string * pyval)) : M W resource :=
  let! kwargs :=
    match image with
    | Some (String a rest) =>
      let image := String a rest in
      let! image_obj := get_image image in
      match image_obj with
      | None =>
        raise (OpenStackCloudException
                 ("Image " ++ image ++ " was requested as the basis for a new"
                  ++ " volume, but was not found on the cloud"))
      | Some image_obj => ret (kw_set "imageRef" (PyStr (id image_obj)) kwargs)
      end
    | _ => ret kwargs
    end in
  let kwargs := _get_volume_kwargs kwargs in
  let! volume := shade_exceptions (Some "Error in creating volume")
                   (submitTask (VolumeCreate size kwargs)) in
  run! invalidate "list_volumes" in
  if String.eqb (status volume) "error" then
    raise (OpenStackCloudException "Error in creating volume")
  else
    let! waited :=
      (if wait then
         _iterate_timeout fuel timeout
           "Timeout waiting for the volume to be available." 2
           (create_volume_wait_body (id volume)) tt
       else ret (inl tt)) in
    match waited with
    | inr v => ret v
    | inl _ => first (normalize_volumes [volume])
    end.

(** The body of the wait loop of [delete_volume]. *)
Definition delete_volume_wait_body (vol_id : string) (count : nat)
    (st : unit) : M W (ctl unit unit) :=
  let! volume := get_volume vol_id in
  match volume with
  | None => ret (Break tt)
  | Some _ => ret (Continue tt)
  end.

Definition delete_volume (fuel : nat) (name_or_id : string) (wait : bool)
    (timeout : option Z) : M W bool :=
  run! invalidate "list_volumes" in
  let! volume := get_volume name_or_id in
  match volume with
  | None =>
    run! log_debug ("Volume " ++ name_or_id ++ " does not exist") in
    ret false
  | Some volume =>
    run! shade_exceptions (Some "Error in deleting volume")
           (submitTask (VolumeDelete (id volume))) in
    run! invalidate "list_volumes" in
    run! (if wait then
            run! _iterate_timeout fuel timeout
                   "Timeout waiting for the volume to be deleted." 2
                   (delete_volume_wait_body (id volume)) tt in
            ret ()
          else ret ()) in
    ret true
  end.

(** *** Stacks *)

Definition delete_stack (name_or_id : string) : M W bool :=
  let! stack := get_stack name_or_id in
  match stack with
  | None =>
    run! log_debug ("Stack " ++ name_or_id ++ " not found for deleting") in
    ret false
  | Some stack =>
    run! shade_exceptions (Some ("Failed to delete stack " ++ id stack))
           (submitTask (StackDelete (id stack))) in
    ret true
  end.

(** *** Images *)

(** [image.id], which fails on [None] *)
Definition attr_id (image : option resource) : M W string :=
  match image with
  | Some image => ret (id image)
  | None => raise (AttributeError "'NoneType' object has no attribute 'id'")
  end.

(** The body of the wait loop of [delete_image]. *)
Definition delete_image_wait_body (image : option resource) (count : nat)
    (st : unit) : M W (ctl unit unit) :=
  run! invalidate_region in
  let! i := attr_id image in
  let! found := get_image i in
  match found with
  | None => ret (Return tt)
  | Some _ => ret (Continue tt)
  end.

(** [delete_image] has no [return] with a value: the result is Python's
    [None] on every path that returns, here [None : option bool]. *)
Definition delete_image (fuel : nat) (name_or_id : string) (wait : bool)
    (timeout : option Z) : M W (option bool) :=
  let! image := get_image name_or_id in
  run! shade_exceptions (Some "Error in deleting image")
         (let glance_api_version := get_api_version "image" in
          run! (if String.eqb glance_api_version "2" then
                  let! i := attr_id image in
                  submitTask (ImageDelete (ByImageId i))
                else if String.eqb glance_api_version "1" then
                  let! i := attr_id image in
                  submitTask (ImageDelete (ByImage i))
                else ret ()) in
          invalidate "list_images") in
  if wait then
    run! _iterate_timeout fuel timeout
           "Timeout waiting for the image to be deleted." 2
           (delete_image_wait_body image) tt in
    ret None
  else ret None.

Definition IMAGE_ERROR_396 : string :=
  "Image cannot be imported. Error code: '396'".

(** The loop variables of the import wait loop: [glance_task], [image_id]
    and [status] (unbound before the first successful poll). *)
Record import_vars := {
  iv_glance_task : glance_task;
  iv_image_id : option string;
  iv_status : option task_status
}.

(** [except glanceclient.exc.HTTPServiceUnavailable: continue] *)
Definition or_continue {A} (vars : import_vars) (m : M W A)
    (k : A → M W (ctl import_vars (option resource)))
    : M W (ctl import_vars (option resource)) :=
  fun s =>
    match m s with
    | (Ok a, s') => k a s'
    | (Raise GlanceHTTPServiceUnavailable, s') => (Ok (Continue vars), s')
    | (Raise e, s') => (Raise e, s')
    | (Stuck w, s') => (Stuck w, s')
    end.

(** The body of the wait loop of [_upload_image_task]. *)
Definition upload_wait_body (container image_name : string) (count : nat)
    (vars : import_vars) : M W (ctl import_vars (option resource)) :=
  or_continue vars
    (match iv_image_id vars with
     | None =>
       let! st := submitTask (ImageTaskGet (task_id (iv_glance_task vars))) in
       ret (Some st)
     | Some _ => ret (iv_status vars)
     end)
    (fun status =>
       match status with
       | None => raise (BackendException "status is not bound")
       | Some status =>
         let vars := {| iv_glance_task := iv_glance_task vars;
                        iv_image_id := iv_image_id vars;
                        iv_status := Some status |} in
         if String.eqb (ts_status status) "success" then
           let vars := {| iv_glance_task := iv_glance_task vars;
                          iv_image_id := Some (ts_image_id status);
                          iv_status := Some status |} in
           or_continue vars (get_image (ts_image_id status))
             (fun image =>
                match image with
                | None => ret (Continue vars)
                | Some image =>
                  run! update_image_properties image in
                  let! final := get_image (ts_image_id status) in
                  ret (Return final)
                end)
         else if String.eqb (ts_status status) "failure" then
           if String.eqb (ts_message status) IMAGE_ERROR_396 then
             let! glance_task :=
               submitTask (ImageTaskCreate (container ++ "/" ++ image_name)
                             image_name) in
             run! invalidate "list_images" in
             ret (Continue {| iv_glance_task := glance_task;
                              iv_image_id := iv_image_id vars;
                              iv_status := Some status |})
           else
             raise (OpenStackCloudException
                      ("Image creation failed: " ++ ts_message status))
         else ret (Continue vars)
       end).

(** [_upload_image_task]; the reset of [_swift_client] under its lock has no
    counterpart here.  With [wait] the image is returned, without it the
    glance task. *)
Definition _upload_image_task (fuel : nat) (image_name : string)
    (container : string) (current_image : option resource) (wait : bool)
    (timeout : option Z) : M W (glance_task + option resource) :=
  run! create_object container image_name in
  let! current_image :=
    match current_image with
    | None => get_image image_name
    | Some i => ret (Some i)
    end in
  let! glance_task :=
    submitTask (ImageTaskCreate (container ++ "/" ++ image_name)
                  image_name) in
  run! invalidate "list_images" in
  if wait then
    let! r := _iterate_timeout fuel timeout
                "Timeout waiting for the image to import." 2
                (upload_wait_body container image_name)
                {| iv_glance_task := glance_task; iv_image_id := None;
                   iv_status := None |} in
    match r with
    | inr image => ret (inr image)
    | inl _ => ret (inr None)
    end
  else ret (inl glance_task).

(** *** Deleting a server *)

(** The body of the wait loop of [_delete_server]; the loop variable is
    [server], rebound by every poll. *)
Definition delete_server_wait_body (count : nat) (srv : option server)
    : M W (ctl (option server) unit) :=
  match srv with
  | None => raise (TypeError "'NoneType' object is not subscriptable")
  | Some sv =>
    catch
      (let! found := get_server_by_id (server_id sv) in
       match found with
       | None => ret (Break None)
       | Some sv' => ret (Continue (Some sv'))
       end)
      (fun e =>
         match e with
         | NovaNotFound => ret (Break (Some sv))
         | _ =>
           if is_cloud_exception e then raise e
           else raise (OpenStackCloudException
                         ("Error in deleting server: " ++ exn_str e))
         end)
  end.

Definition _delete_server (fuel : nat) (srv : option server) (wait : bool)
    (timeout : option Z) (delete_ips : bool) : M W bool :=
  match srv with
  | None => ret false
  | Some sv =>
    run! (if delete_ips then
            match get_server_ip sv with
            | Some (String a rest) =>
              let floating_ip := String a rest in
              let! ips := search_floating_ips (ByAddress floating_ip) in
              match ips with
              | [ip] =>
                run! delete_floating_ip (fip_id ip) in ret ()
              | _ =>
                raise (OpenStackException
                         ("Tried to delete floating ip " ++ floating_ip
                          ++ " associated with server " ++ server_id sv
                          ++ " but there was an error finding it."
                          ++ " Something is exceptionally broken."))
              end
            | _ => ret ()
            end
          else ret ()) in
    let! deleted :=
      catch
        (run! submitTask (ServerDelete (server_id sv)) in ret true)
        (fun e =>
           match e with
           | NovaNotFound => ret false
           | _ =>
             if is_cloud_exception e then raise e
             else raise (OpenStackCloudException
                           ("Error in deleting server: " ++ exn_str e))
           end) in
    if negb deleted then ret false
    else if negb wait then ret true
    else
      let! c := get_self in
      let! r := _iterate_timeout fuel timeout
                  "Timed out waiting for server to get deleted."
                  (_SERVER_AGE c) delete_server_wait_body (Some sv) in
      let srv := match r with inl srv => srv | inr _ => Some sv end in
      let! vol := has_service "volume" in
      run! (if vol then
              match srv with
              | None =>
                raise (TypeError "'NoneType' object is not subscriptable")
              | Some sv =>
                let! attached :=
                  match image_id sv with
                  | None => ret true
                  | Some _ => get_volume_of_server sv
                  end in
                if attached then invalidate "list_volumes" else ret ()
              end
            else ret ()) in
      let! c := get_self in
      run! put_self
             (set_servers_time c (_servers_time c - _SERVER_AGE c)%Z) in
      run! emit (EvStore "_servers_time") in
      ret true
  end.

Definition delete_server (fuel : nat) (name_or_id : string) (wait : bool)
    (timeout : option Z) (delete_ips : bool) : M W bool :=
  let! srv := get_server name_or_id false in
  match srv with
  | None => ret false
  | Some sv => _delete_server fuel (Some sv) wait timeout delete_ips
  end.

End Methods.

Arguments Continue {S A} st.
Arguments Break {S A} st.
Arguments Return {S A} a.

(** ** Concrete connections used in the examples *)

Module Fixtures.

Definition fresh_cache (enabled : bool) (ttl : Z) : cache_region :=
  {| cache_enabled := enabled; expiration_time := ttl; entries := ∅ |}.

(** A connection as [__init__] leaves it: no servers fetched yet, the lock
    free, nothing cached, the default server age of 5 seconds. *)
Definition connect (cloud_name region : string) : cloud :=
  {| name := cloud_name; region_name := region;
     _SERVER_AGE := 5; _servers := []; _servers_time := 0;
     _servers_lock := false; _cache := fresh_cache true 60 |}.

Definition region_one : cloud := connect "mycloud" "RegionOne".
Definition region_two : cloud := connect "mycloud" "RegionTwo".

(** *** A scripted world

    Backends that answer from a script: the list tasks read the current
    collections, a volume of size 0 or less is refused, [VolumeList] and [ImageTaskGet] go through their scripts one
    answer per call (the last answer stays), deletions remove what they
    name, and neutron is up, answers 404 to everything, or is not in the
    catalogue.  Sleeping moves the clock. *)
Inductive neutron_mode := NeutronUp | Neutron404 | NeutronAbsent.

Record fake := {
  clock : Z;
  volume_polls : list (list resource);
  stacks : list resource;
  images : list resource;
  task_polls : list task_status;
  server_list : list server;
  floating_ips : list floating_ip;
  neutron : neutron_mode
}.

Definition set_clock (w : fake) (t : Z) : fake :=
  {| clock := t; volume_polls := volume_polls w; stacks := stacks w;
     images := images w; task_polls := task_polls w;
     server_list := server_list w; floating_ips := floating_ips w;
     neutron := neutron w |}.

Definition set_volume_polls (w : fake) (p : list (list resource)) : fake :=
  {| clock := clock w; volume_polls := p; stacks := stacks w;
     images := images w; task_polls := task_polls w;
     server_list := server_list w; floating_ips := floating_ips w;
     neutron := neutron w |}.

Definition set_stacks (w : fake) (l : list resource) : fake :=
  {| clock := clock w; volume_polls := volume_polls w; stacks := l;
     images := images w; task_polls := task_polls w;
     server_list := server_list w; floating_ips := floating_ips w;
     neutron := neutron w |}.

Definition set_images (w : fake) (l : list resource) : fake :=
  {| clock := clock w; volume_polls := volume_polls w; stacks := stacks w;
     images := l; task_polls := task_polls w;
     server_list := server_list w; floating_ips := floating_ips w;
     neutron := neutron w |}.

Definition set_task_polls (w : fake) (l : list task_status) : fake :=
  {| clock := clock w; volume_polls := volume_polls w; stacks := stacks w;
     images := images w; task_polls := l;
     server_list := server_list w; floating_ips := floating_ips w;
     neutron := neutron w |}.

Definition set_server_list (w : fake) (l : list server) : fake :=
  {| clock := clock w; volume_polls := volume_polls w; stacks := stacks w;
     images := images w; task_polls := task_polls w;
     server_list := l; floating_ips := floating_ips w;
     neutron := neutron w |}.

Definition set_floating_ips (w : fake) (l : list floating_ip) : fake :=
  {| clock := clock w; volume_polls := volume_polls w; stacks := stacks w;
     images := images w; task_polls := task_polls w;
     server_list := server_list w; floating_ips := l;
     neutron := neutron w |}.

Definition has_id (i : string) (r : resource) : bool :=
  String.eqb (id r) i || String.eqb (rname r) i.

(** One step of a script: the head answers, and stays when it is the last. *)
Definition script_next {A} (d : A) (l : list A) : A * list A :=
  match l with
  | [] => (d, [])
  | [x] => (x, [x])
  | x :: rest => (x, rest)
  end.

(** What a neutron task answers in each mode. *)
Definition neutron_answer {A} (w : fake) (ok : result A * fake)
    : result A * fake :=
  match neutron w with
  | NeutronUp => ok
  | Neutron404 => (Raise (NeutronClientException 404), w)
  | NeutronAbsent => (Raise (BackendException "no network endpoint"), w)
  end.

Definition fake_respond (t : task) (w : fake) : result (answer t) * fake :=
  match t return result (answer t) * fake with
  | VolumeList =>
    let '(l, rest) := script_next [] (volume_polls w) in
    (Ok l, set_volume_polls w rest)
  | VolumeCreate size kwargs =>
    if (size <=? 0)%Z then
      (Raise (BackendException "Invalid input for field/attribute size"), w)
    else (Ok {| id := "vol-1"; rname := "vol-1"; status := "creating" |}, w)
  | VolumeDelete v =>
    (Ok (), set_volume_polls w
              (List.map (List.filter (fun r => negb (has_id v r)))
                        (volume_polls w)))
  | StackList => (Ok (stacks w), w)
  | StackDelete i =>
    if existsb (has_id i) (stacks w) then
      (Ok (), set_stacks w
                (List.filter (fun r => negb (has_id i r)) (stacks w)))
    else (Raise (BackendException "404 stack not found"), w)
  | GlanceImageList => (Ok (images w), w)
  | NovaImageList => (Ok (images w), w)
  | ImageDelete (ByImageId i) | ImageDelete (ByImage i) =>
    (Ok (), set_images w (List.filter (fun r => negb (has_id i r)) (images w)))
  | ImageTaskCreate _ _ => (Ok {| task_id := "task-1" |}, w)
  | ImageTaskGet _ =>
    let '(st, rest) :=
      script_next {| ts_status := "queued"; ts_message := "";
                     ts_image_id := "" |} (task_polls w) in
    (Ok st, set_task_polls w rest)
  | ServerList => (Ok (server_list w), w)
  | ServerGet i =>
    match List.find (fun sv => String.eqb (server_id sv) i) (server_list w)
    with
    | Some sv => (Ok (Some sv), w)
    | None => (Raise NovaNotFound, w)
    end
  | ServerDelete i =>
    if existsb (fun sv => String.eqb (server_id sv) i) (server_list w) then
      (Ok (), set_server_list w
                (List.filter (fun sv => negb (String.eqb (server_id sv) i))
                             (server_list w)))
    else (Raise NovaNotFound, w)
  | NeutronFloatingIPList => neutron_answer w (Ok (floating_ips w), w)
  | NovaFloatingIPList => (Ok (floating_ips w), w)
  | NeutronFloatingIPCreate _ _ =>
    neutron_answer w
      (Ok {| fip_id := "fip-neutron"; floating_ip_address := "203.0.113.7";
             attached := false |}, w)
  | NovaFloatingIPCreate _ =>
    (Ok {| fip_id := "fip-nova"; floating_ip_address := "203.0.113.9";
           attached := false |}, w)
  | NeutronFloatingIPDelete i =>
    neutron_answer w
      (if existsb (fun f => String.eqb (fip_id f) i) (floating_ips w) then
         (Ok (), set_floating_ips w
                   (List.filter (fun f => negb (String.eqb (fip_id f) i))
                                (floating_ips w)))
       else (Raise NeutronNotFound, w))
  | NovaFloatingIPDelete i =>
    if existsb (fun f => String.eqb (fip_id f) i) (floating_ips w) then
      (Ok (), set_floating_ips w
                (List.filter (fun f => negb (String.eqb (fip_id f) i))
                             (floating_ips w)))
    else (Raise NovaNotFound, w)
  | NeutronFloatingIPUpdate i _ _ =>
    neutron_answer w
      (Ok {| fip_id := i; floating_ip_address := "203.0.113.7";
             attached := true |}, w)
  | NovaFloatingIPAttach _ _ _ => (Ok (), w)
  end.

#[global] Instance fake_env : Env fake := {|
  time_time := clock;
  time_sleep := fun d w => set_clock w (clock w + d)%Z;
  respond := fake_respond;
  config_has := fun _ => true;
  session_endpoint := fun key w =>
    if String.eqb key "network" then
      match neutron w with
      | NeutronAbsent => Raise (EndpointNotFound "network")
      | _ => Ok (Some "http://network.example")
      end
    else Ok (Some "http://service.example");
  get_api_version := fun _ => "2";
  shade_exceptions_exit := fun msg e =>
    if is_cloud_exception e then e
    else OpenStackCloudException (default (exn_str e) msg);
  neutron_exceptions_exit := fun msg e =>
    match e with
    | NeutronNotFound =>
      OpenStackCloudResourceNotFound (msg ++ ": " ++ exn_str e)
    | NeutronClientException 404 =>
      OpenStackCloudURINotFound (msg ++ ": " ++ exn_str e)
    | _ => OpenStackCloudException (msg ++ ": " ++ exn_str e)
    end;
  _filter_list := fun l i => List.filter (has_id i) l;
  _filter_servers := fun l i =>
    List.filter (fun sv => String.eqb (server_id sv) i
                           || String.eqb (server_name sv) i) l;
  _filter_floating_ips := fun l q =>
    match q with
    | ById i => List.filter (fun f => String.eqb (fip_id f) i) l
    | ByAddress a =>
      List.filter (fun f => String.eqb (floating_ip_address f) a) l
    end;
  _get_entity_of := fun A i l =>
    match l with
    | [] => Ok None
    | [x] => Ok (Some x)
    | _ => Raise (OpenStackCloudException ("Multiple matches found for " ++ i))
    end;
  normalize_volumes := fun l => l;
  normalize_servers := fun l => l;
  normalize_server := fun sv => sv;
  normalize_neutron_floating_ips := fun l => l;
  normalize_nova_floating_ips := fun l => l;
  get_server_ip := floating_address;
  get_hostvars_from_server := fun sv =>
    ret {| server_id := server_id sv; server_name := server_name sv;
           server_status := server_status sv; image_id := image_id sv;
           floating_address := floating_address sv; detail := true |};
  get_network := fun n => ret (Some n);
  get_external_networks := ret ["ext-net"];
  _get_free_fixed_port := fun sv fixed => ret (Some "port-1", fixed);
  list_floating_ip_pools := ret ["pool"];
  get_volume_of_server := fun _ => ret false;
  create_object := fun _ _ => ret ();
  update_image_properties := fun _ => ret ();
  _get_volume_kwargs := fun kw => kw;
  OpenStackException := BackendException
|}.

(** An empty world at time [t] with neutron in mode [n]. *)
Definition quiet (t : Z) (n : neutron_mode) : fake :=
  {| clock := t; volume_polls := []; stacks := []; images := [];
     task_polls := []; server_list := []; floating_ips := [];
     neutron := n |}.

Definition start (c : cloud) (w : fake) : state fake :=
  {| self := c; world := w; trace := [] |}.

(** The volume [vol-1] in a given status, and a world where [VolumeList]
    reports it as [creating] once and as [available] from then on. *)
Definition volume (st : string) : resource :=
  {| id := "vol-1"; rname := "vol-1"; status := st |}.

Definition creating_then_available (t : Z) : fake :=
  set_volume_polls (quiet t NeutronUp)
    [[volume "creating"]; [volume "available"]].

(** An active image, a finished stack, and worlds that hold them. *)
Definition cirros : resource :=
  {| id := "img-1"; rname := "cirros"; status := "active" |}.

Definition app_stack : resource :=
  {| id := "stack-1"; rname := "app"; status := "CREATE_COMPLETE" |}.

Definition with_image (t : Z) : fake := set_images (quiet t NeutronUp) [cirros].

Definition with_stack (t : Z) : fake :=
  set_stacks (quiet t NeutronUp) [app_stack].

Definition with_volume (t : Z) : fake :=
  set_volume_polls (quiet t NeutronUp) [[volume "available"]].


(** Answers of [ImageTaskGet]: the transient failure, another failure, and
    success for the image [img-1]. *)
Definition failed_396 : task_status :=
  {| ts_status := "failure"; ts_message := IMAGE_ERROR_396;
     ts_image_id := "" |}.

Definition failed_other : task_status :=
  {| ts_status := "failure"; ts_message := "Image cannot be imported.";
     ts_image_id := "" |}.

Definition imported : task_status :=
  {| ts_status := "success"; ts_message := ""; ts_image_id := "img-1" |}.

(** A world that holds the image and answers the task polls from
    [polls]. *)
Definition importing (t : Z) (polls : list task_status) : fake :=
  set_task_polls (with_image t) polls.

(** A server that carries the floating address 203.0.113.7, and the
    floating IP with that address. *)
Definition web : server :=
  {| server_id := "srv-1"; server_name := "web"; server_status := "ACTIVE";
     image_id := Some "img-1"; floating_address := Some "203.0.113.7";
     detail := false |}.

Definition web_ip : floating_ip :=
  {| fip_id := "fip-1"; floating_ip_address := "203.0.113.7";
     attached := true |}.

(** A server without a floating address. *)
Definition db : server :=
  {| server_id := "srv-2"; server_name := "db"; server_status := "ACTIVE";
     image_id := Some "img-1"; floating_address := None; detail := false |}.


End Fixtures.

(** ** Notions used to state the properties *)

Section Notions.
Context {W : Type} `{Env W}.

(** The state in which the refresh of [list_servers] starts: the lock has
    been taken, with the blocking flag the snapshot asks for. *)
Definition acquired (s : state W) : state W :=
  {| self := set_servers_lock (self s) true; world := world s;
     trace := trace s
              ++ [EvAcquire (Nat.eqb (length (_servers (self s))) 0) true] |}.


(** The cached list methods that carry a staleness predicate. *)
Inductive list_op :=
| OpVolumes (cache : option bool)
| OpImages (filter_deleted : option bool)
| OpStacks.

Definition run_op (op : list_op) : M W (list resource) :=
  match op with
  | OpVolumes cache => list_volumes cache
  | OpImages filter_deleted => list_images filter_deleted
  | OpStacks => list_stacks
  end.

(** The undecorated method: the full fetch. *)
Definition op_body (op : list_op) : M W (list resource) :=
  match op with
  | OpVolumes cache => list_volumes_body cache
  | OpImages filter_deleted => list_images_body filter_deleted
  | OpStacks => list_stacks_body
  end.

(** The task the fetch submits first. *)
Definition op_task (op : list_op) : task :=
  match op with
  | OpVolumes _ => VolumeList
  | OpImages _ => GlanceImageList
  | OpStacks => StackList
  end.

(** The key of the call on connection [c]. *)
Definition op_key (c : cloud) (op : list_op) : string :=
  match op with
  | OpVolumes cache =>
    CacheKey.generate_key c None "list_volumes" []
      (kw_opt "cache" (PyBool <$> cache))
  | OpImages filter_deleted =>
    CacheKey.generate_key c None "list_images" []
      (kw_opt "filter_deleted" (PyBool <$> filter_deleted))
  | OpStacks => CacheKey.generate_key c None "list_stacks" [] []
  end.

(** The terminal statuses of each kind, in the words of the specification:
    a fixed set for volumes and images, the statuses that say [_COMPLETE] or
    [_FAILED] for stacks. *)
Definition terminal (op : list_op) (st : string) : bool :=
  match op with
  | OpVolumes _ => bool_decide (st ∈ ["available"; "error"; "in-use"])
  | OpImages _ => bool_decide (st ∈ ["active"; "deleted"; "killed"])
  | OpStacks => contains "_COMPLETE" st || contains "_FAILED" st
  end.

(** The staleness predicate the decorator of each method names. *)
Definition op_should_cache (op : list_op) : list resource → bool :=
  match op with
  | OpVolumes _ => _no_pending_volumes
  | OpImages _ => _no_pending_images
  | OpStacks => _no_pending_stacks
  end.

(** The state after [self.log.debug(msg)]. *)
Definition logged (s : state W) (msg : string) : state W :=
  {| self := self s; world := world s;
     trace := trace s ++ [EvLogDebug msg] |}.

(** The state in which the body of pass [count] of a wait loop starts, and
    the state in which the next check of the clock happens. *)
Definition yielded (s : state W) (count : nat) : state W :=
  {| self := self s; world := world s;
     trace := trace s ++ [EvYield count] |}.

Definition slept (s : state W) (seconds : Z) : state W :=
  {| self := self s; world := time_sleep seconds (world s);
     trace := trace s |}.

(** The wait loop of [create_volume] for the volume [vol_id], entered with
    [count] passes behind it. *)
Definition create_volume_poll (fuel count : nat) (deadline : option Z)
    (vol_id : string) : M W (unit + resource) :=
  iterate_timeout_from fuel count deadline
    "Timeout waiting for the volume to be available." 2
    (create_volume_wait_body vol_id) tt.

(** What becomes of the keyword arguments of [create_volume] before the
    create task is built: a non-empty [image] is looked up, was found, and
    its id is passed as [imageRef], leaving the state [sr]; without an image
    nothing happens. *)
Definition image_resolved (image : option string)
    (kwargs kwargs' : list (string * pyval)) (s sr : state W) : Prop :=
  match image with
  | Some (String a rest) =>
    ∃ image_obj,
      get_image (String a rest) s = (Ok (Some image_obj), sr)
      ∧ kwargs' = kw_set "imageRef" (PyStr (id image_obj)) kwargs
  | _ => kwargs' = kwargs ∧ sr = s
  end.

(** A poll of the wait loop of [create_volume] that settles nothing: the
    volume is missing, or its status is neither [available] nor [error]. *)
Definition unsettled (found : option resource) : Prop :=
  ∀ v, found = Some v → status v ≠ "available" ∧ status v ≠ "error".

(** [pending_passes deadline vol_id count s n s']: entered in [s] with
    [count] passes behind it, the wait loop of [create_volume] finds the
    deadline not reached and the volume unsettled [n] times in a row, and
    [s'] is the state after the sleep that follows the last of these. *)
Inductive pending_passes (deadline : option Z) (vol_id : string)
    : nat → state W → nat → state W → Prop :=
| pending_none (count : nat) (s : state W) :
    pending_passes deadline vol_id count s 0 s
| pending_more (count : nat) (s sa : state W) (found : option resource)
    (n : nat) (s' : state W) :
    expired deadline (time_time (world s)) = false →
    get_volume vol_id (yielded s (S count)) = (Ok found, sa) →
    unsettled found →
    pending_passes deadline vol_id (S count) (slept sa 2) n s' →
    pending_passes deadline vol_id count s (S n) s'.




(** The key under which [invalidate fname] looks. *)
Definition invalidated_key (c : cloud) (fname : string) : string :=
  CacheKey.generate_key c None fname [] [].

(** The wait loop of [_upload_image_task], entered with [count] passes
    behind it and the loop variables [vars]. *)
Definition upload_poll (fuel count : nat) (deadline : option Z)
    (container image_name : string) (vars : import_vars)
    : M W (import_vars + option resource) :=
  iterate_timeout_from fuel count deadline
    "Timeout waiting for the image to import." 2
    (upload_wait_body container image_name) vars.

(** The state after the tasks [ts] have been submitted and left the world
    [w]. *)
Definition submitted (s : state W) (ts : list task) (w : W) : state W :=
  {| self := self s; world := w; trace := trace s ++ (EvSubmit <$> ts) |}.

(** The import tasks submitted so far. *)
Definition is_import (e : event) : bool :=
  match e with
  | EvSubmit (ImageTaskCreate _ _) => true
  | _ => false
  end.

Definition imports (evs : list event) : nat :=
  length (filter (fun e => is_import e = true) evs).

End Notions.

(** * Further methods of the connection *)

(** ** Range searches *)

Section RangeSearch.
Context {D : Type} `{EqDecision D}.

(** [_utils.range_filter(data, key, range_value)], which is not part of the
    sources: the members of [data] whose [key] satisfies the range
    expression, or the exception an invalid expression raises. *)
Variable range_filter : list D → string → string → exn + list D.

(** [[r for r in results for f in filtered if r == f]] *)
Definition common (results filtered : list D) : list D :=
  results ≫= (fun r =>
    filtered ≫= (fun f => if bool_decide (r = f) then [r] else [])).

(** The loop of [range_search] over [filters.items()], entered with the
    list [filtered]. *)
Fixpoint range_search_from (data filtered : list D)
    (filters : list (string * string)) : exn + list D :=
  match filters with
  | [] => inr filtered
  | (key, range_value) :: rest =>
    match range_filter data key range_value with
    | inl e => inl e
    | inr results =>
      range_search_from data
        (match filtered with
         | [] => results
         | _ => common results filtered
         end)
        rest
    end
  end.

Definition range_search (data : list D) (filters : list (string * string))
    : exn + list D :=
  range_search_from data [] filters.

End RangeSearch.

(** ** A range filter for the examples *)

Module Samples.

(** A dictionary with integer values, such as a flavor. *)
Definition dict := list (string * Z).

Fixpoint dict_get (k : string) (d : dict) : option Z :=
  match d with
  | [] => None
  | (k', v) :: rest => if String.eqb k k' then Some v else dict_get k rest
  end.

Definition digit (a : Ascii.ascii) : option Z :=
  let n := Z.of_nat (Ascii.nat_of_ascii a) in
  if (48 <=? n)%Z && (n <=? 57)%Z then Some (n - 48)%Z else None.

Fixpoint number_from (s : string) (acc : Z) : option Z :=
  match s with
  | EmptyString => Some acc
  | String a rest =>
    match digit a with
    | Some d => number_from rest (acc * 10 + d)%Z
    | None => None
    end
  end.

Definition number (s : string) : option Z :=
  match s with
  | EmptyString => None
  | _ => number_from s 0
  end.

(** A range expression: digits, with one of [<], [>], [<=], [>=] in front
    or nothing for an exact match. *)
Definition range_expr (s : string) : option (Z → bool) :=
  match s with
  | String "<"%char (String "="%char rest) =>
    (fun n v => (v <=? n)%Z) <$> number rest
  | String ">"%char (String "="%char rest) =>
    (fun n v => (n <=? v)%Z) <$> number rest
  | String "<"%char rest => (fun n v => (v <? n)%Z) <$> number rest
  | String ">"%char rest => (fun n v => (n <? v)%Z) <$> number rest
  | _ => (fun n v => (v =? n)%Z) <$> number s
  end.

(** A stand-in for [_utils.range_filter] on these dictionaries: a member
    without the key does not match, an expression that does not parse
    raises. *)
Definition range_filter (data : list dict) (key range_value : string)
    : exn + list dict :=
  match range_expr range_value with
  | None =>
    inl (OpenStackCloudException ("Invalid range value: " ++ range_value))
  | Some matches =>
    inr (List.filter
           (fun d => match dict_get key d with
                     | Some v => matches v
                     | None => false
                     end)
           data)
  end.

Definition small : dict := [("vcpus", 1); ("ram", 512)]%Z.
Definition medium : dict := [("vcpus", 2); ("ram", 2048)]%Z.
Definition large : dict := [("vcpus", 8); ("ram", 8192)]%Z.

End Samples.

(** ** Tasks outside [task] *)

(** [self.manager.submitTask(t)] for a task that is not in [task]: the
    backend answers from the world, which moves on; the connection is not
    touched. *)
Definition run {W A} (respond : W → result A * W) : M W A :=
  fun s =>
    let '(r, w) := respond (world s) in
    (r, {| self := self s; world := w; trace := trace s |}).

(** ** Flavors *)

Record flavor := { flavor_id : string; flavor_name : string; flavor_ram : Z }.

(** [list_flavors] is cached by [_utils.cache_on_arguments()] and kept
    abstract. *)
Class Nova (W : Type) := {
  list_flavors : M W (list flavor);
  (** [meta.get_server_external_ipv4(self, server)] *)
  get_server_public_ip : server → M W (option string)
}.

(** [sorted(l, key=key)]: ascending in the key, and stable. *)
Fixpoint insert_by {A} (key : A → Z) (x : A) (l : list A) : list A :=
  match l with
  | [] => [x]
  | y :: rest =>
    if (key x <=? key y)%Z then x :: y :: rest
    else y :: insert_by key x rest
  end.

Definition sorted {A} (key : A → Z) (l : list A) : list A :=
  foldr (insert_by key) [] l.

Section Flavors.
Context {W : Type} `{Env W} `{Nova W}.

(** [flavor['ram'] >= ram and (not include or include in flavor['name'])] *)
Definition fits (ram : Z) (include : option string) (f : flavor) : bool :=
  (ram <=? flavor_ram f)%Z
  && (negb (truthy include) || contains (default "" include) (flavor_name f)).

Definition get_flavor_by_ram (ram : Z) (include : option string)
    : M W flavor :=
  let! flavors := list_flavors in
  match List.find (fits ram include) (sorted flavor_ram flavors) with
  | Some f => ret f
  | None =>
    raise (OpenStackCloudException
             ("Could not find a flavor with " ++ pretty ram ++ " and '"
              ++ default "None" include ++ "'"))
  end.

End Flavors.

(** ** Routers *)

(** An entry of [fixed_ips] or [external_fixed_ips]. *)
Record fixed_ip := { subnet_id : string; ip_address : string }.

(** [a == b] on two such entries *)
Definition fixed_ip_eqb (a b : fixed_ip) : bool :=
  String.eqb (subnet_id a) (subnet_id b)
  && String.eqb (ip_address a) (ip_address b).

Record port := { port_id : string; fixed_ips : list fixed_ip }.

(** A router as neutron returns it; [external_gateway_info] is [None] when
    the router has none, and the [external_fixed_ips] of the gateway
    otherwise. *)
Record router := {
  router_id : string;
  external_gateway_info : option (list fixed_ip)
}.

(** The dictionary [_build_external_gateway_info] fills; a key that was not
    set is [None]. *)
Record gateway_info := {
  gi_network_id : option string;
  gi_enable_snat : option bool;
  gi_external_fixed_ips : option (list fixed_ip)
}.

(** The [router] dictionary of [create_router] and [update_router]. *)
Record router_body := {
  rb_name : option string;
  rb_admin_state_up : option bool;
  rb_external_gateway_info : option gateway_info
}.

Class Neutron (W : Type) := {
  (** [search_ports(filters=...)] and [get_router(name_or_id)] *)
  search_ports : list (string * string) → M W (list port);
  get_router : string → M W (option router);
  (** [_tasks.RouterCreate(body=dict(router=body))] and
      [_tasks.RouterUpdate(router=id, body=dict(router=body))] *)
  respond_RouterCreate : router_body → W → result router * W;
  respond_RouterUpdate : string → router_body → W → result router * W
}.

Section Routers.
Context {W : Type} `{Env W} `{Neutron W}.

Definition _build_external_gateway_info (ext_gateway_net_id : option string)
    (enable_snat : option bool) (ext_fixed_ips : option (list fixed_ip))
    : option gateway_info :=
  let network_id :=
    if truthy ext_gateway_net_id then ext_gateway_net_id else None in
  let snat :=
    match enable_snat with
    | Some false => Some false
    | _ => None
    end in
  let fixed :=
    match ext_fixed_ips with
    | Some (ip :: rest) => Some (ip :: rest)
    | _ => None
    end in
  match network_id, snat, fixed with
  | None, None, None => None
  | _, _, _ =>
    Some {| gi_network_id := network_id; gi_enable_snat := snat;
            gi_external_fixed_ips := fixed |}
  end.

Definition create_router (name : option string) (admin_state_up : bool)
    (ext_gateway_net_id : option string) (enable_snat : option bool)
    (ext_fixed_ips : option (list fixed_ip)) : M W router :=
  let router :=
    {| rb_name := if truthy name then name else None;
       rb_admin_state_up := Some admin_state_up;
       rb_external_gateway_info :=
         _build_external_gateway_info ext_gateway_net_id enable_snat
           ext_fixed_ips |} in
  neutron_exceptions ("Error creating router " ++ default "None" name)
    (run (respond_RouterCreate router)).

(** [update_router] returns [None] when there is nothing to update. *)
Definition update_router (name_or_id : string) (name : option string)
    (admin_state_up : option bool) (ext_gateway_net_id : option string)
    (enable_snat : option bool) (ext_fixed_ips : option (list fixed_ip))
    : M W (option router) :=
  let router :=
    {| rb_name := if truthy name then name else None;
       rb_admin_state_up := admin_state_up;
       rb_external_gateway_info :=
         _build_external_gateway_info ext_gateway_net_id enable_snat
           ext_fixed_ips |} in
  match rb_name router, rb_admin_state_up router,
        rb_external_gateway_info router with
  | None, None, None =>
    run! log_debug "No router data to update" in
    ret None
  | _, _, _ =>
    let! curr_router := get_router name_or_id in
    match curr_router with
    | None =>
      raise (OpenStackCloudException
               ("Router " ++ name_or_id ++ " not found."))
    | Some curr_router =>
      let! new_router :=
        neutron_exceptions ("Error updating router " ++ name_or_id)
          (run (respond_RouterUpdate (router_id curr_router) router)) in
      ret (Some new_router)
    end
  end.

(** [matched_ext] for one port of [list_router_interfaces] *)
Definition matched_ext (ext_fixed : list fixed_ip) (p : port) : bool :=
  existsb (fun port_subnet => existsb (fixed_ip_eqb port_subnet) ext_fixed)
          (fixed_ips p).

(** The loop over [ports] that fills [filtered_ports]. *)
Fixpoint filtered_ports (interface_type : string)
    (ext_fixed : list fixed_ip) (ports : list port) : list port :=
  match ports with
  | [] => []
  | p :: rest =>
    if String.eqb interface_type "internal" && negb (matched_ext ext_fixed p)
    then p :: filtered_ports interface_type ext_fixed rest
    else if String.eqb interface_type "external" && matched_ext ext_fixed p
    then p :: filtered_ports interface_type ext_fixed rest
    else filtered_ports interface_type ext_fixed rest
  end.

Definition list_router_interfaces (r : router)
    (interface_type : option string) : M W (list port) :=
  let! ports := search_ports [("device_id", router_id r)] in
  match interface_type with
  | Some (String a t) =>
    let ext_fixed := default [] (external_gateway_info r) in
    ret (filtered_ports (String a t) ext_fixed ports)
  | _ => ret ports
  end.

End Routers.

(** ** Flavors, ports and routers for the examples *)

Module MoreFixtures.

Definition tiny : flavor :=
  {| flavor_id := "1"; flavor_name := "m1.tiny"; flavor_ram := 512 |}.
Definition small : flavor :=
  {| flavor_id := "2"; flavor_name := "m1.small"; flavor_ram := 2048 |}.
Definition general : flavor :=
  {| flavor_id := "3"; flavor_name := "general-2G"; flavor_ram := 2048 |}.
Definition big : flavor :=
  {| flavor_id := "4"; flavor_name := "m1.xlarge"; flavor_ram := 16384 |}.

#[global] Instance fake_nova : Nova Fixtures.fake := {|
  list_flavors := ret [big; small; tiny; general];
  get_server_public_ip := fun sv => ret (floating_address sv)
|}.

(** A router with one address on the external network, a port on that
    address and a port on an internal subnet. *)
Definition gateway_ip : fixed_ip :=
  {| subnet_id := "ext-subnet"; ip_address := "203.0.113.2" |}.

Definition edge : router :=
  {| router_id := "router-1"; external_gateway_info := Some [gateway_ip] |}.

Definition gateway_port : port :=
  {| port_id := "port-gw"; fixed_ips := [gateway_ip] |}.

Definition inside_port : port :=
  {| port_id := "port-in";
     fixed_ips := [{| subnet_id := "int-subnet";
                      ip_address := "10.0.0.1" |}] |}.

#[global] Instance fake_neutron : Neutron Fixtures.fake := {|
  search_ports := fun filters => ret [inside_port; gateway_port];
  get_router := fun name_or_id =>
    if String.eqb name_or_id "router-1" then ret (Some edge) else ret None;
  respond_RouterCreate := fun body w =>
    (Ok {| router_id := "router-2";
           external_gateway_info :=
             (fun gw => default [] (gi_external_fixed_ips gw))
               <$> rb_external_gateway_info body |}, w);
  respond_RouterUpdate := fun i body w =>
    (Ok {| router_id := i;
           external_gateway_info :=
             (fun gw => default [] (gi_external_fixed_ips gw))
               <$> rb_external_gateway_info body |}, w)
|}.

End MoreFixtures.

(** ** Security groups *)

(** The body of [NeutronSecurityGroupRuleCreate] and the arguments of
    [NovaSecurityGroupRuleCreate]. *)
Record rule_def := {
  security_group_id : string;
  port_range_min : option Z;
  port_range_max : option Z;
  protocol : option string;
  remote_ip_prefix : option string;
  remote_group_id : option string;
  direction : string;
  ethertype : string
}.

Record nova_rule := {
  parent_group_id : string;
  ip_protocol : string;
  from_port : option Z;
  to_port : option Z;
  cidr : option string;
  group_id : option string
}.

Record secgroup_rule := { rule_id : string }.

Class SecurityGroups (W : Type) := {
  (** [self.secgroup_source], read from the configuration by [__init__] *)
  secgroup_source : string;
  respond_NeutronSecurityGroupList : W → result (list resource) * W;
  respond_NovaSecurityGroupList : W → result (list resource) * W;
  respond_NeutronSecurityGroupDelete : string → W → result unit * W;
  respond_NovaSecurityGroupDelete : string → W → result unit * W;
  respond_NeutronSecurityGroupRuleCreate :
    rule_def → W → result secgroup_rule * W;
  respond_NovaSecurityGroupRuleCreate :
    nova_rule → W → result secgroup_rule * W;
  respond_NeutronSecurityGroupRuleDelete : string → W → result unit * W;
  respond_NovaSecurityGroupRuleDelete : string → W → result unit * W;
  (** [_utils.normalize_nova_secgroups] and
      [_utils.normalize_nova_secgroup_rules] *)
  normalize_nova_secgroups : list resource → list resource;
  normalize_nova_secgroup_rules : list secgroup_rule → list secgroup_rule
}.

Section SecurityGroupMethods.
Context {W : Type} `{Env W} `{SecurityGroups W}.

Definition unavailable_security_groups {A} : M W A :=
  raise (OpenStackCloudUnavailableFeature
           "Unavailable feature: security groups").

Definition list_security_groups : M W (list resource) :=
  if String.eqb secgroup_source "neutron" then
    neutron_exceptions "Error fetching security group list"
      (run respond_NeutronSecurityGroupList)
  else if String.eqb secgroup_source "nova" then
    let! groups := shade_exceptions (Some "Error fetching security group list")
                     (run respond_NovaSecurityGroupList) in
    ret (normalize_nova_secgroups groups)
  else unavailable_security_groups.

Definition search_security_groups (name_or_id : string)
    : M W (list resource) :=
  let! groups := list_security_groups in
  ret (_filter_list groups name_or_id).

Definition get_security_group (name_or_id : string) : M W (option resource) :=
  _get_entity search_security_groups name_or_id.

Definition delete_security_group (name_or_id : string) : M W bool :=
  let! secgroup := get_security_group name_or_id in
  match secgroup with
  | None =>
    run! log_debug ("Security group " ++ name_or_id
                    ++ " not found for deleting") in
    ret false
  | Some secgroup =>
    if String.eqb secgroup_source "neutron" then
      run! neutron_exceptions ("Error deleting security group " ++ name_or_id)
             (run (respond_NeutronSecurityGroupDelete (id secgroup))) in
      ret true
    else if String.eqb secgroup_source "nova" then
      run! shade_exceptions
             (Some ("Failed to delete security group '" ++ name_or_id ++ "'"))
             (run (respond_NovaSecurityGroupDelete (id secgroup))) in
      ret true
    else unavailable_security_groups
  end.

(** [None if port == -1 else port] *)
Definition neutron_port (p : option Z) : option Z :=
  match p with
  | Some (-1)%Z => None
  | _ => p
  end.

Definition create_security_group_rule (secgroup_name_or_id : string)
    (port_range_min port_range_max : option Z) (protocol : option string)
    (remote_ip_prefix remote_group_id : option string)
    (direction ethertype : string) : M W secgroup_rule :=
  let! secgroup := get_security_group secgroup_name_or_id in
  match secgroup with
  | None =>
    raise (OpenStackCloudException
             ("Security group " ++ secgroup_name_or_id ++ " not found."))
  | Some secgroup =>
    if String.eqb secgroup_source "neutron" then
      let rule_def :=
        {| security_group_id := id secgroup;
           port_range_min := neutron_port port_range_min;
           port_range_max := neutron_port port_range_max;
           protocol := protocol;
           remote_ip_prefix := remote_ip_prefix;
           remote_group_id := remote_group_id;
           direction := direction;
           ethertype := ethertype |} in
      neutron_exceptions "Error creating security group rule"
        (run (respond_NeutronSecurityGroupRuleCreate rule_def))
    else if String.eqb secgroup_source "nova" then
      match protocol with
      | None => raise (OpenStackCloudException "Protocol must be specified")
      | Some protocol =>
        if String.eqb direction "egress" then
          run! log_debug
                 "Rule creation failed: Nova does not support egress rules" in
          raise (OpenStackCloudException "No support for egress rules")
        else
          let '(port_range_min, port_range_max) :=
            if String.eqb protocol "icmp" then
              (Some (default (-1)%Z port_range_min),
               Some (default (-1)%Z port_range_max))
            else if in_tuple protocol ["tcp"; "udp"] then
              match port_range_min, port_range_max with
              | None, None => (Some 1%Z, Some 65535%Z)
              | _, _ => (port_range_min, port_range_max)
              end
            else (port_range_min, port_range_max) in
          let! rule :=
            shade_exceptions (Some "Failed to create security group rule")
              (run (respond_NovaSecurityGroupRuleCreate
                      {| parent_group_id := id secgroup;
                         ip_protocol := protocol;
                         from_port := port_range_min;
                         to_port := port_range_max;
                         cidr := remote_ip_prefix;
                         group_id := remote_group_id |})) in
          first (normalize_nova_secgroup_rules [rule])
      end
    else unavailable_security_groups
  end.

(** [delete_security_group_rule]: a rule that is not there gives [False]. *)
Definition delete_security_group_rule (rule : string) : M W bool :=
  if String.eqb secgroup_source "neutron" then
    catch
      (run! neutron_exceptions ("Error deleting security group rule " ++ rule)
              (run (respond_NeutronSecurityGroupRuleDelete rule)) in
       ret true)
      (fun e =>
         match e with
         | OpenStackCloudResourceNotFound _ => ret false
         | _ => raise e
         end)
  else if String.eqb secgroup_source "nova" then
    catch
      (run! run (respond_NovaSecurityGroupRuleDelete rule) in ret true)
      (fun e =>
         match e with
         | NovaNotFound => ret false
         | _ =>
           if is_cloud_exception e then raise e
           else raise (OpenStackCloudException
                         ("Failed to delete security group rule " ++ rule
                          ++ ": " ++ exn_str e))
         end)
  else unavailable_security_groups.

End SecurityGroupMethods.

(** ** Security groups for the examples *)

Module SecurityGroupFixtures.

Definition web_group : resource :=
  {| id := "sg-1"; rname := "web"; status := "" |}.

(** A cloud whose security groups come from [source]; the one group is
    [web], and a rule task answers with a rule that spells out the ports it
    was given. *)
Definition port_text (p : option Z) : string :=
  match p with
  | Some n => pretty n
  | None => "None"
  end.

Definition groups_from (source : string) : SecurityGroups Fixtures.fake := {|
  secgroup_source := source;
  respond_NeutronSecurityGroupList := fun w => (Ok [web_group], w);
  respond_NovaSecurityGroupList := fun w => (Ok [web_group], w);
  respond_NeutronSecurityGroupDelete := fun _ w => (Ok (), w);
  respond_NovaSecurityGroupDelete := fun _ w => (Ok (), w);
  respond_NeutronSecurityGroupRuleCreate := fun r w =>
    (Ok {| rule_id := port_text (port_range_min r) ++ "-"
                      ++ port_text (port_range_max r) |}, w);
  respond_NovaSecurityGroupRuleCreate := fun r w =>
    (Ok {| rule_id := port_text (from_port r) ++ "-"
                      ++ port_text (to_port r) |}, w);
  respond_NeutronSecurityGroupRuleDelete := fun _ w =>
    (Raise NeutronNotFound, w);
  respond_NovaSecurityGroupRuleDelete := fun _ w => (Raise NovaNotFound, w);
  normalize_nova_secgroups := fun l => l;
  normalize_nova_secgroup_rules := fun l => l
|}.

Definition nova_groups : SecurityGroups Fixtures.fake := groups_from "nova".
Definition neutron_groups : SecurityGroups Fixtures.fake :=
  groups_from "neutron".
Definition no_groups : SecurityGroups Fixtures.fake := groups_from "none".

Definition quiet_start : state Fixtures.fake :=
  Fixtures.start Fixtures.region_one (Fixtures.quiet 100 Fixtures.NeutronUp).

End SecurityGroupFixtures.

(** ** A world with failing tasks *)

Module FlakyFixtures.

(** The scripted world of [Fixtures] behind a gateway that fails the tasks
    [failing] names, each with the exception given, and passes the others
    on. *)
Record flaky := {
  failing : task → option exn;
  base : Fixtures.fake
}.

Definition flaky_respond (t : task) (w : flaky)
    : result (answer t) * flaky :=
  match failing w t with
  | Some e => (Raise e, w)
  | None =>
    let '(r, b) := Fixtures.fake_respond t (base w) in
    (r, {| failing := failing w; base := b |})
  end.

#[global] Instance flaky_env : Env flaky := {|
  time_time := fun w => Fixtures.clock (base w);
  time_sleep := fun d w =>
    {| failing := failing w;
       base := Fixtures.set_clock (base w) (Fixtures.clock (base w) + d)%Z |};
  respond := flaky_respond;
  config_has := fun _ => true;
  session_endpoint := fun key w => Ok (Some "http://service.example");
  get_api_version := fun _ => "2";
  shade_exceptions_exit := fun msg e =>
    if is_cloud_exception e then e
    else OpenStackCloudException (default (exn_str e) msg);
  neutron_exceptions_exit := fun msg e =>
    match e with
    | NeutronNotFound =>
      OpenStackCloudResourceNotFound (msg ++ ": " ++ exn_str e)
    | NeutronClientException 404 =>
      OpenStackCloudURINotFound (msg ++ ": " ++ exn_str e)
    | _ => OpenStackCloudException (msg ++ ": " ++ exn_str e)
    end;
  _filter_list := fun l i => List.filter (Fixtures.has_id i) l;
  _filter_servers := fun l i =>
    List.filter (fun sv => String.eqb (server_id sv) i
                           || String.eqb (server_name sv) i) l;
  _filter_floating_ips := fun l q =>
    match q with
    | ById i => List.filter (fun f => String.eqb (fip_id f) i) l
    | ByAddress a =>
      List.filter (fun f => String.eqb (floating_ip_address f) a) l
    end;
  _get_entity_of := fun A i l =>
    match l with
    | [] => Ok None
    | [x] => Ok (Some x)
    | _ => Raise (OpenStackCloudException ("Multiple matches found for " ++ i))
    end;
  normalize_volumes := fun l => l;
  normalize_servers := fun l => l;
  normalize_server := fun sv => sv;
  normalize_neutron_floating_ips := fun l => l;
  normalize_nova_floating_ips := fun l => l;
  get_server_ip := floating_address;
  get_hostvars_from_server := fun sv => ret sv;
  get_network := fun n => ret (Some n);
  get_external_networks := ret ["ext-net"];
  _get_free_fixed_port := fun sv fixed => ret (Some "port-1", fixed);
  list_floating_ip_pools := ret ["pool"];
  get_volume_of_server := fun _ => ret false;
  create_object := fun _ _ => ret ();
  update_image_properties := fun _ => ret ();
  _get_volume_kwargs := fun kw => kw;
  OpenStackException := BackendException
|}.

(** Glance answers every image listing with an internal server error, or
    with a gateway timeout. *)
Definition glance_500 (t : task) : option exn :=
  match t with
  | GlanceImageList => Some GlanceHTTPInternalServerError
  | _ => None
  end.

Definition glance_504 (t : task) : option exn :=
  match t with
  | GlanceImageList => Some (BackendException "504 Gateway Timeout")
  | _ => None
  end.


Definition start (failing : task → option exn) (b : Fixtures.fake)
    : state flaky :=
  {| self := Fixtures.region_one;
     world := {| failing := failing; base := b |};
     trace := [] |}.

End FlakyFixtures.

(** ** Volumes and servers *)

(** An entry of [volume['attachments']]. *)
Record attachment := { att_server_id : string; att_device : string }.

Class Cinder (W : Type) := {
  (** [volume['attachments']] *)
  volume_attachments : resource → list attachment;
  (** [_tasks.VolumeAttach(volume_id, server_id, device)] and
      [_tasks.VolumeDetach(attachment_id, server_id)] *)
  respond_VolumeAttach :
    string → string → option string → W → result resource * W;
  respond_VolumeDetach : string → string → W → result unit * W
}.

Section VolumeAttachments.
Context {W : Type} `{Env W} `{Cinder W}.

(** The loop of [get_volume_attach_device] over the attachments. *)
Fixpoint attach_device (attachments : list attachment) (server_id : string)
    : option string :=
  match attachments with
  | [] => None
  | attach :: rest =>
    if String.eqb server_id (att_server_id attach)
    then Some (att_device attach)
    else attach_device rest server_id
  end.

Definition get_volume_attach_device (volume : resource) (server_id : string)
    : option string :=
  attach_device (volume_attachments volume) server_id.

(** The inner loop of [get_volumes]: one copy of the volume for each of its
    attachments to the server. *)
Fixpoint copies (volume : resource) (attachments : list attachment)
    (server_id : string) : list resource :=
  match attachments with
  | [] => []
  | attach :: rest =>
    if String.eqb (att_server_id attach) server_id
    then volume :: copies volume rest server_id
    else copies volume rest server_id
  end.

Definition get_volumes (srv : server) (cache : bool) : M W (list resource) :=
  let! listed := list_volumes (Some cache) in
  ret (listed ≫= (fun volume =>
         copies volume (volume_attachments volume) (server_id srv))).

(** [try: vol = self.get_volume(id)  except Exception: log; continue], then
    the rest of the body on the volume found. *)
Definition poll_volume {S A} (vol_id : string) (st : S)
    (k : option resource → M W (ctl S A)) : M W (ctl S A) :=
  fun s =>
    match get_volume vol_id s with
    | (Ok vol, s') => k vol s'
    | (Raise _, s') =>
      (run! log_debug ("Error getting volume info " ++ vol_id) in
       ret (Continue st)) s'
    | (Stuck w, s') => (Stuck w, s')
    end.

(** [vol['status']], which fails on [None] *)
Definition item_status (vol : option resource) : M W string :=
  match vol with
  | Some vol => ret (status vol)
  | None => raise (TypeError "'NoneType' object is not subscriptable")
  end.

(** The body of the wait loop of [detach_volume]. *)
Definition detach_wait_body (vol_id : string) (count : nat) (st : unit)
    : M W (ctl unit unit) :=
  poll_volume vol_id st (fun vol =>
    let! st := item_status vol in
    if String.eqb st "available" then ret (Return tt)
    else if String.eqb st "error" then
      raise (OpenStackCloudException ("Error in detaching volume " ++ vol_id))
    else ret (Continue tt)).

Definition detach_volume (fuel : nat) (srv : server) (volume : resource)
    (wait : bool) (timeout : option Z) : M W unit :=
  let dev := get_volume_attach_device volume (server_id srv) in
  if negb (truthy dev) then
    raise (OpenStackCloudException
             ("Volume " ++ id volume ++ " is not attached to server "
              ++ server_id srv))
  else
    run! shade_exceptions
           (Some ("Error detaching volume " ++ id volume ++ " from server "
                  ++ server_id srv))
           (run (respond_VolumeDetach (id volume) (server_id srv))) in
    if wait then
      run! _iterate_timeout fuel timeout
             ("Timeout waiting for volume " ++ id volume ++ " to detach.") 2
             (detach_wait_body (id volume)) tt in
      ret ()
    else ret ().

(** The body of the wait loop of [attach_volume]; the loop variable is
    [vol]. *)
Definition attach_volume_wait_body (vol_id server_id : string) (count : nat)
    (vol : resource) : M W (ctl resource unit) :=
  poll_volume vol_id vol (fun found =>
    match found with
    | None => raise (TypeError "'NoneType' object is not subscriptable")
    | Some vol =>
      if truthy (get_volume_attach_device vol server_id)
      then ret (Break vol)
      else if String.eqb (status vol) "error" then
        raise (OpenStackCloudException
                 ("Error in attaching volume " ++ vol_id))
      else ret (Continue vol)
    end).

Definition attach_volume (fuel : nat) (srv : server) (volume : resource)
    (device : option string) (wait : bool) (timeout : option Z)
    : M W resource :=
  match get_volume_attach_device volume (server_id srv) with
  | Some (String a t) =>
    raise (OpenStackCloudException
             ("Volume " ++ id volume ++ " already attached to server "
              ++ server_id srv ++ " on device " ++ String a t))
  | _ =>
    if negb (String.eqb (status volume) "available") then
      raise (OpenStackCloudException
               ("Volume " ++ id volume ++ " is not available. Status is '"
                ++ status volume ++ "'"))
    else
      let! vol :=
        shade_exceptions
          (Some ("Error attaching volume " ++ id volume ++ " to server "
                 ++ server_id srv))
          (run (respond_VolumeAttach (id volume) (server_id srv) device)) in
      if wait then
        let! r := _iterate_timeout fuel timeout
                    ("Timeout waiting for volume " ++ id volume
                     ++ " to attach.") 2
                    (attach_volume_wait_body (id volume) (server_id srv))
                    vol in
        match r with
        | inl vol => ret vol
        | inr _ => ret vol
        end
      else ret vol
  end.

End VolumeAttachments.

(** ** Volume attachments for the examples *)

Module VolumeFixtures.

(** The volume [vol-1] is attached to the server [srv-1] as [/dev/vdb]; no
    other volume is attached. *)
#[global] Instance fake_cinder : Cinder Fixtures.fake := {|
  volume_attachments := fun v =>
    if String.eqb (id v) "vol-1"
    then [{| att_server_id := "srv-1"; att_device := "/dev/vdb" |}]
    else [];
  respond_VolumeAttach := fun v sv dev w =>
    (Ok {| id := v; rname := v; status := "attaching" |}, w);
  respond_VolumeDetach := fun v sv w => (Ok (), w)
|}.

Definition data : resource :=
  {| id := "vol-2"; rname := "data"; status := "creating" |}.

(** A world whose volume list holds [vol-1] in use and [vol-2]. *)
Definition two_volumes (t : Z) : Fixtures.fake :=
  Fixtures.set_volume_polls (Fixtures.quiet t Fixtures.NeutronUp)
    [[Fixtures.volume "in-use"; data]].

End VolumeFixtures.

(** ** The external and internal networks of the connection *)

Class Networks (W : Type) := {
  (** [search_networks(filters={'router:external': external})] *)
  search_networks : bool → M W (list resource)
}.

(** The attributes of the connection that [get_external_networks] and
    [get_internal_networks] read and write, passed explicitly:
    [_external_network_name_or_id] and [_use_external_network] from the
    configuration, the remembered list [_external_networks] and
    [_external_network_stamp] (and the same four for the internal
    networks). *)
Record network_memo := {
  nm_name_or_id : option string;
  nm_use : bool;
  nm_networks : list resource;
  nm_stamp : bool
}.

Module NetworkMemo.
Section Methods.
Context {W : Type} `{Env W} `{Networks W}.

Definition _get_network (name_or_id : option string) (use_network : bool)
    (network_cache : list resource) (network_stamp : bool) (external : bool)
    : M W (list resource) :=
  if negb use_network then ret []
  else
    match network_cache with
    | _ :: _ => ret network_cache
    | [] =>
      if network_stamp then ret []
      else
        let! net := has_service "network" in
        if negb net then ret []
        else
          match name_or_id with
          | Some (String a t) =>
            let! ext_net := get_network (String a t) in
            match ext_net with
            | None =>
              raise (OpenStackCloudException
                       ("Network " ++ String a t ++ " was provided for"
                        ++ " external access and that network could not be"
                        ++ " found"))
            | Some _ => ret []
            end
          | _ =>
            catch (search_networks external)
                  (fun e => if is_cloud_exception e then ret [] else raise e)
          end
    end.

(** The caller's attributes after the call come back with the answer. *)
Definition get_external_networks (m : network_memo)
    : M W (list resource * network_memo) :=
  let! networks := _get_network (nm_name_or_id m) (nm_use m) (nm_networks m)
                     (nm_stamp m) true in
  ret (networks,
       {| nm_name_or_id := nm_name_or_id m; nm_use := nm_use m;
          nm_networks := networks; nm_stamp := true |}).

Definition get_internal_networks (m : network_memo)
    : M W (list resource * network_memo) :=
  let! networks := _get_network (nm_name_or_id m) (nm_use m) (nm_networks m)
                     (nm_stamp m) false in
  ret (networks,
       {| nm_name_or_id := nm_name_or_id m; nm_use := nm_use m;
          nm_networks := networks; nm_stamp := true |}).

End Methods.
End NetworkMemo.

Module NetworkFixtures.

Definition public : resource :=
  {| id := "ext-net"; rname := "public"; status := "ACTIVE" |}.

(** The search for external networks fails with a cloud exception. *)
#[global] Instance failing_search : Networks Fixtures.fake := {|
  search_networks := fun external =>
    raise (OpenStackCloudException "Error fetching network list")
|}.

(** The attributes as [__init__] leaves them, with the external network
    named in the configuration or not. *)
Definition fresh (name_or_id : option string) : network_memo :=
  {| nm_name_or_id := name_or_id; nm_use := true; nm_networks := [];
     nm_stamp := false |}.

End NetworkFixtures.

(** ** Floating IPs for a server *)

Class FloatingIPs (W : Type) := {
  (** [self.keystone_session.get_project_id()] *)
  get_project_id : M W string;
  (** [_utils._filter_list(floating_ips, None, filters)] with the filters
      of [_neutron_available_floating_ips] (no port, the network, the
      project) and of [_nova_available_floating_ips] (no instance, the
      pool) *)
  filter_free_neutron : list floating_ip → string → string → list floating_ip;
  filter_free_nova : list floating_ip → string → list floating_ip;
  (** [_tasks.NeutronFloatingIPUpdate] with [port_id] set to [None], and
      [_tasks.NovaFloatingIPDetach(server, address)] *)
  respond_NeutronFloatingIPDetach : string → W → result floating_ip * W;
  respond_NovaFloatingIPDetach : string → string → W → result unit * W;
  (** [isinstance(e, nova_exceptions.Conflict)] *)
  is_nova_conflict : exn → bool;
  (** [server['fault']['message']] when both keys are there, and whether
      [server['addresses']] is there and not empty *)
  server_fault_message : server → option string;
  server_has_addresses : server → bool
}.

(** The [ips] argument: a list of addresses or a single address. *)
Inductive ips_arg := IpList (l : list string) | OneIp (a : string).

Section ServerAddresses.
Context {W : Type} `{Env W} `{Nova W} `{FloatingIPs W}.

Definition _neutron_available_floating_ips (network project_id : option string)
    (srv : option server) : M W (list floating_ip) :=
  let! project_id :=
    match project_id with
    | Some p => ret p
    | None => get_project_id
    end in
  neutron_exceptions "unable to get available floating IPs"
    (let! networks := get_external_networks in
     match networks with
     | [] =>
       raise (OpenStackCloudResourceNotFound
                "unable to find an external network")
     | net :: _ =>
       let! floating_ips := _neutron_list_floating_ips in
       match filter_free_neutron floating_ips net project_id with
       | ip :: rest => ret (ip :: rest)
       | [] =>
         let! f_ip := _neutron_create_floating_ip (Some net) srv in
         ret [f_ip]
       end
     end).

Definition _nova_available_floating_ips (pool : option string)
    : M W (list floating_ip) :=
  shade_exceptions
    (Some ("Unable to create floating IP in pool " ++ default "None" pool))
    (let! pool :=
       match pool with
       | Some p => ret p
       | None =>
         let! pools := list_floating_ip_pools in
         match pools with
         | [] => raise (OpenStackCloudResourceNotFound
                          "unable to find a floating ip pool")
         | p :: _ => ret p
         end
       end in
     let! floating_ips := _nova_list_floating_ips in
     match filter_free_nova floating_ips pool with
     | ip :: rest => ret (ip :: rest)
     | [] =>
       let! f_ip := _nova_create_floating_ip (Some pool) in
       ret [f_ip]
     end).

Definition available_floating_ip (network : option string)
    (srv : option server) : M W floating_ip :=
  let! net := has_service "network" in
  let! done :=
    (if net then
       try_neutron
         (let! f_ips := _neutron_available_floating_ips network None srv in
          first (normalize_neutron_floating_ips f_ips))
     else ret None) in
  match done with
  | Some r => ret r
  | None =>
    let! f_ips := _nova_available_floating_ips network in
    first (normalize_nova_floating_ips f_ips)
  end.

Definition _neutron_detach_ip_from_server (srv_id floating_ip_id : string)
    : M W bool :=
  neutron_exceptions
    ("unable to detach a floating ip from server " ++ srv_id)
    (let! f_ip := get_floating_ip floating_ip_id in
     match f_ip with
     | None => ret false
     | Some f =>
       if negb (attached f) then ret false
       else
         run! run (respond_NeutronFloatingIPDetach floating_ip_id) in
         ret true
     end).

Definition _nova_detach_ip_from_server (srv_id floating_ip_id : string)
    : M W bool :=
  catch
    (let! f_ip := get_floating_ip floating_ip_id in
     match f_ip with
     | None =>
       raise (OpenStackCloudException
                ("unable to find floating IP " ++ floating_ip_id))
     | Some f =>
       run! run (respond_NovaFloatingIPDetach srv_id
                   (floating_ip_address f)) in
       ret true
     end)
    (fun e =>
       if is_nova_conflict e then
         run! log_debug ("nova floating IP detach failed: " ++ exn_str e) in
         ret false
       else if is_cloud_exception e then raise e
       else raise (OpenStackCloudException
                     ("Error detaching IP " ++ floating_ip_id
                      ++ " from instance " ++ srv_id ++ ": " ++ exn_str e))).

(** [detach_ip_from_server]: the neutron branch returns what
    [_neutron_detach_ip_from_server] returns; the nova branch has no
    [return], so its result is Python's [None]. *)
Definition detach_ip_from_server (srv_id floating_ip_id : string)
    : M W (option bool) :=
  let! net := has_service "network" in
  let! done :=
    (if net then
       try_neutron (_neutron_detach_ip_from_server srv_id floating_ip_id)
     else ret None) in
  match done with
  | Some r => ret (Some r)
  | None =>
    run! _nova_detach_ip_from_server srv_id floating_ip_id in
    ret None
  end.

End ServerAddresses.

Section AddIPs.
Context {W : Type} `{Env W} `{Nova W} `{FloatingIPs W}.

Definition _add_ip_from_pool (fuel : nat) (srv : server)
    (network : option string) (fixed_address : option string) (reuse : bool)
    (wait : bool) (timeout : option Z) : M W (option server) :=
  let! f_ip :=
    (if reuse then available_floating_ip network None
     else create_floating_ip network None) in
  _attach_ip_to_server fuel srv f_ip fixed_address wait timeout false.

(** [add_ip_list]; [get_floating_ip(id=None, filters=...)] may find nothing,
    and [_attach_ip_to_server] then fails on
    [floating_ip['floating_ip_address']]. *)
Definition add_ip_list (fuel : nat) (srv : server) (ips : ips_arg)
    (wait : bool) (timeout : option Z) (fixed_address : option string)
    : M W (option server) :=
  let! ip :=
    match ips with
    | IpList l => first l
    | OneIp a => ret a
    end in
  let! f_ip := _get_entity (fun _ => search_floating_ips (ByAddress ip))
                 "None" in
  match f_ip with
  | None => raise (TypeError "'NoneType' object is not subscriptable")
  | Some f_ip =>
    _attach_ip_to_server fuel srv f_ip fixed_address wait timeout false
  end.

Definition _add_auto_ip (fuel : nat) (srv : server) (wait : bool)
    (timeout : option Z) (reuse : bool) : M W (option server) :=
  let! chosen :=
    (if reuse then
       let! f_ip := available_floating_ip None None in
       ret (f_ip, false)
     else
       let! f_ip := create_floating_ip None (Some srv) in
       ret (f_ip, true)) in
  let '(f_ip, skip_attach) := chosen in
  _attach_ip_to_server fuel srv f_ip None wait timeout skip_attach.

Definition add_ips_to_server (fuel : nat) (srv : server) (auto_ip : bool)
    (ips : option ips_arg) (ip_pool : option string) (wait : bool)
    (timeout : option Z) (reuse : bool) (fixed_address : option string)
    : M W (option server) :=
  if truthy ip_pool then
    _add_ip_from_pool fuel srv ip_pool fixed_address reuse wait timeout
  else
    match ips with
    | Some (IpList (a :: l)) =>
      add_ip_list fuel srv (IpList (a :: l)) wait timeout fixed_address
    | Some (OneIp (String a t)) =>
      add_ip_list fuel srv (OneIp (String a t)) wait timeout fixed_address
    | _ =>
      if auto_ip then
        let! public_ip := get_server_public_ip srv in
        if negb (truthy public_ip) then
          _add_auto_ip fuel srv wait timeout reuse
        else ret (Some srv)
      else ret (Some srv)
    end.

(** [try: self._delete_server(...)  except Exception as e: raise
    OpenStackCloudException(... could not be deleted ...)] *)
Definition delete_or_complain (fuel : nat) (srv : server) (wait : bool)
    (timeout : option Z) : M W unit :=
  catch
    (run! _delete_server fuel (Some srv) wait timeout false in ret ())
    (fun e =>
       raise (OpenStackCloudException
                ("Server reached ACTIVE state without being"
                 ++ " allocated an IP address AND then could not"
                 ++ " be deleted: " ++ exn_str e))).

Definition get_active_server (fuel : nat) (srv : server) (auto_ip : bool)
    (ips : option ips_arg) (ip_pool : option string) (reuse : bool)
    (wait : bool) (timeout : option Z) : M W (option server) :=
  if String.eqb (server_status srv) "ERROR" then
    match server_fault_message srv with
    | Some reason =>
      raise (OpenStackCloudException
               ("Error in creating the server: " ++ reason))
    | None => raise (OpenStackCloudException "Error in creating the server")
    end
  else if String.eqb (server_status srv) "ACTIVE" then
    if server_has_addresses srv then
      add_ips_to_server fuel srv auto_ip ips ip_pool wait (Some 60%Z) reuse
        None
    else
      run! log_debug ("Server " ++ server_id srv
                      ++ " reached ACTIVE state without"
                      ++ " being allocated an IP address."
                      ++ " Deleting server.") in
      run! delete_or_complain fuel srv wait timeout in
      raise (OpenStackCloudException
               ("Server reached ACTIVE state without being"
                ++ " allocated an IP address."))
  else ret None.

End AddIPs.

Module AddressFixtures.

(** Free addresses are those that are not attached; the project is
    [demo]; no exception is a conflict; a server has addresses when it
    carries a floating address or is named [db]; faults have no message. *)
#[global] Instance fake_floating_ips : FloatingIPs Fixtures.fake := {|
  get_project_id := ret "demo";
  filter_free_neutron := fun l net project =>
    List.filter (fun f => negb (attached f)) l;
  filter_free_nova := fun l pool =>
    List.filter (fun f => negb (attached f)) l;
  respond_NeutronFloatingIPDetach := fun i w =>
    (Ok {| fip_id := i; floating_ip_address := "203.0.113.7";
           attached := false |}, w);
  respond_NovaFloatingIPDetach := fun sv a w => (Ok (), w);
  is_nova_conflict := fun e => false;
  server_fault_message := fun sv => None;
  server_has_addresses := fun sv =>
    match floating_address sv with
    | Some _ => true
    | None => String.eqb (server_name sv) "db"
    end
|}.

Definition free_ip : floating_ip :=
  {| fip_id := "fip-2"; floating_ip_address := "203.0.113.8";
     attached := false |}.

(** A world with the attached address of [web] and a free one. *)
Definition with_ips (t : Z) (n : Fixtures.neutron_mode) : Fixtures.fake :=
  Fixtures.set_floating_ips (Fixtures.quiet t n) [Fixtures.web_ip; free_ip].

(** A server that came up without any address. *)
Definition bare : server :=
  {| server_id := "srv-3"; server_name := "bare"; server_status := "ACTIVE";
     image_id := Some "img-1"; floating_address := None; detail := false |}.

Definition with_bare (t : Z) : Fixtures.fake :=
  Fixtures.set_server_list (Fixtures.quiet t Fixtures.NeutronUp) [bare].

End AddressFixtures.

(** ** Booting a server from volumes *)




Section BootFromVolume.
Context {W : Type} `{Env W}.






End BootFromVolume.

(** ** Object storage *)

Definition OBJECT_MD5_KEY : string := "x-object-meta-x-shade-md5".
Definition OBJECT_SHA256_KEY : string := "x-object-meta-x-shade-sha256".
Definition DEFAULT_OBJECT_SEGMENT_SIZE : Z := 1073741824.
Definition DEFAULT_MAX_FILE_SIZE : Z := (5 * 1024 * 1024 * 1024 + 2) / 2.

(** [OBJECT_CONTAINER_ACLS], in the order of the dictionary literal. *)
Definition OBJECT_CONTAINER_ACLS : list (string * string) :=
  [("public", ".r:*,.rlistings"); ("private", "")].

(** The headers of a container or of an object. *)
Definition headers := gmap string string.

Class Swift (W : Type) := {
  (** [e.http_status] when [e] is a [swift_exceptions.ClientException], and
      the text ["%s (%s/%s)" % (e.http_reason, e.http_host, e.http_path)] *)
  swift_http_status : exn → option Z;
  swift_error_text : exn → string;
  (** [get_object_capabilities()], cached by [_utils.cache_on_arguments()];
      the answer is what the capabilities hold under
      [swift.max_file_size] *)
  get_object_capabilities : M W (option Z);
  (** [_get_file_hashes(filename)]: the md5 and the sha256 of the file *)
  _get_file_hashes : string → M W (string * string);
  respond_ObjectMetadata : string → string → W → result headers * W;
  respond_ContainerGet : string → W → result headers * W;
  respond_ContainerUpdate : string → headers → W → result unit * W
}.

Section ObjectStorage.
Context {W : Type} `{Env W} `{Swift W}.

(** [try: m  except swift_exceptions.ClientException as e: h status e] *)
Definition except_swift {A} (m : M W A) (h : Z → exn → M W A) : M W A :=
  catch m (fun e =>
    match swift_http_status e with
    | Some status => h status e
    | None => raise e
    end).

(** [get_object_segment_size]; the [log.info] call has no counterpart in
    the trace. *)
Definition get_object_segment_size (segment_size : option Z) : M W Z :=
  let segment_size := default DEFAULT_OBJECT_SEGMENT_SIZE segment_size in
  let! server_max_file_size :=
    except_swift
      (let! caps := get_object_capabilities in
       ret (default 0%Z caps))
      (fun status e =>
         if (status =? 412)%Z then ret DEFAULT_MAX_FILE_SIZE
         else raise (OpenStackCloudException
                       "Could not determine capabilities")) in
  if (server_max_file_size <? segment_size)%Z then ret server_max_file_size
  else ret segment_size.

(** [get_object_metadata] returns [None] for an object that is not
    there. *)
Definition get_object_metadata (container name : string)
    : M W (option headers) :=
  except_swift
    (let! metadata := run (respond_ObjectMetadata container name) in
     ret (Some metadata))
    (fun status e =>
       if (status =? 404)%Z then ret None
       else raise (OpenStackCloudException
                     ("Object metadata fetch failed: "
                      ++ swift_error_text e))).

(** [if not metadata] *)
Definition no_headers (metadata : option headers) : bool :=
  match metadata with
  | None => true
  | Some m => bool_decide (m = ∅)
  end.

Definition is_object_stale (container name filename : string)
    (file_md5 file_sha256 : option string) : M W bool :=
  let! metadata := get_object_metadata container name in
  if no_headers metadata then
    run! log_debug ("swift stale check, no object: " ++ container ++ "/"
                    ++ name) in
    ret true
  else
    let metadata := default ∅ metadata in
    let! hashes :=
      match file_md5, file_sha256 with
      | Some md5, Some sha256 => ret (md5, sha256)
      | _, _ => _get_file_hashes filename
      end in
    let '(file_md5, file_sha256) := hashes in
    if negb (String.eqb (default "" (metadata !! OBJECT_MD5_KEY)) file_md5)
    then
      run! log_debug ("swift md5 mismatch: " ++ filename ++ "!=" ++ container
                      ++ "/" ++ name) in
      ret true
    else if negb (String.eqb (default "" (metadata !! OBJECT_SHA256_KEY))
                    file_sha256)
    then
      run! log_debug ("swift sha256 mismatch: " ++ filename ++ "!="
                      ++ container ++ "/" ++ name) in
      ret true
    else
      run! log_debug ("swift object up to date: " ++ container ++ "/"
                      ++ name) in
      ret false.

(** [get_container]; the dictionary [_container_cache] of the connection
    is passed in and comes back with the answer. *)
Definition get_container (name : string) (skip_cache : bool)
    (_container_cache : gmap string headers)
    : M W (option headers * gmap string headers) :=
  if skip_cache || bool_decide (_container_cache !! name = None) then
    except_swift
      (let! container := run (respond_ContainerGet name) in
       ret (Some container, <[name := container]> _container_cache))
      (fun status e =>
         if (status =? 404)%Z then ret (None, _container_cache)
         else raise (OpenStackCloudException
                       ("Container fetch failed: " ++ swift_error_text e)))
  else ret (_container_cache !! name, _container_cache).

Definition update_container (name : string) (h : headers) : M W unit :=
  except_swift (run (respond_ContainerUpdate name h))
    (fun status e =>
       raise (OpenStackCloudException
                ("Container update failed: " ++ swift_error_text e))).

(** [OBJECT_CONTAINER_ACLS[access]], when the key is there *)
Fixpoint acl_of (acls : list (string * string)) (access : string)
    : option string :=
  match acls with
  | [] => None
  | (p, a) :: rest =>
    if String.eqb access p then Some a else acl_of rest access
  end.

Definition set_container_access (name access : string) : M W unit :=
  match acl_of OBJECT_CONTAINER_ACLS access with
  | None =>
    raise (OpenStackCloudException
             ("Invalid container access specified: " ++ access
              ++ ".  Must be one of ['public', 'private']"))
  | Some acl => update_container name {[ "x-container-read" := acl ]}
  end.

(** [[p for p, a in OBJECT_CONTAINER_ACLS.items() if acl == a].pop()] *)
Definition access_of (acls : list (string * string)) (acl : string)
    : option string :=
  last (List.map fst (List.filter (fun pa => String.eqb acl pa.2) acls)).

Definition get_container_access (name : string)
    (_container_cache : gmap string headers)
    : M W (string * gmap string headers) :=
  let! found := get_container name true _container_cache in
  let '(container, _container_cache) := found in
  if no_headers container then
    raise (OpenStackCloudException ("Container not found: " ++ name))
  else
    let acl := default "" (default ∅ container !! "x-container-read") in
    match access_of OBJECT_CONTAINER_ACLS acl with
    | Some access => ret (access, _container_cache)
    | None =>
      raise (OpenStackCloudException
               ("Could not determine container access for ACL: " ++ acl
                ++ "."))
    end.

End ObjectStorage.

Module SwiftFixtures.

(** Swift holds one object, whose hashes are [d41d] and [e3b0], in a public
    container; the server takes files of up to 5 GB; no exception is a
    swift exception. *)
Definition stored : headers :=
  {[ OBJECT_MD5_KEY := "d41d"; OBJECT_SHA256_KEY := "e3b0" ]}.

Definition public_container : headers :=
  {[ "x-container-read" := ".r:*,.rlistings" ]}.

#[global] Instance fake_swift : Swift Fixtures.fake := {|
  swift_http_status := fun e => None;
  swift_error_text := exn_str;
  get_object_capabilities := ret (Some 5368709122%Z);
  _get_file_hashes := fun filename => ret ("d41d", "e3b0");
  respond_ObjectMetadata := fun container name w => (Ok stored, w);
  respond_ContainerGet := fun name w => (Ok public_container, w);
  respond_ContainerUpdate := fun name h w => (Ok (), w)
|}.

End SwiftFixtures.

(** ** Keyword arguments of the volume tasks *)

Module VolumeKwargs.
Section Methods.
Context {W : Type} `{Env W}.

(** [if v:] on a keyword value *)
Definition py_truthy (v : pyval) : bool :=
  match v with
  | PyStr (String _ _) => true
  | PyBool b => b
  | _ => false
  end.

(** The dictionary without the key [k]. *)
Fixpoint kw_del (k : string) (kwargs : list (string * pyval))
    : list (string * pyval) :=
  match kwargs with
  | [] => []
  | (k', v) :: rest =>
    if String.eqb k k' then kw_del k rest else (k', v) :: kw_del k rest
  end.

(** [kwargs.pop(k, d)]: the value and the dictionary that is left. *)
Definition kw_pop (k : string) (d : pyval) (kwargs : list (string * pyval))
    : pyval * list (string * pyval) :=
  (default d (kw_get k kwargs), kw_del k kwargs).

(** [_get_volume_kwargs]: the inner [pop] of each pair runs first. *)
Definition _get_volume_kwargs (kwargs : list (string * pyval))
    : list (string * pyval) :=
  let '(display_name, kwargs) := kw_pop "display_name" PyNone kwargs in
  let '(name, kwargs) := kw_pop "name" display_name kwargs in
  let '(display_description, kwargs) :=
    kw_pop "display_description" PyNone kwargs in
  let '(description, kwargs) :=
    kw_pop "description" display_description kwargs in
  let v2 := String.prefix "2" (get_api_version "volume") in
  let kwargs :=
    if py_truthy name then
      if v2 then kw_set "name" name kwargs
      else kw_set "display_name" name kwargs
    else kwargs in
  if py_truthy description then
    if v2 then kw_set "description" description kwargs
    else kw_set "display_description" description kwargs
  else kwargs.

End Methods.
End VolumeKwargs.

(** ** Images by name, with an exclusion *)

Section ImageLookup.
Context {W : Type} `{Env W}.

(** The test of the loop of [get_image_exclude]: with an [exclude] that is
    not empty, the image is taken when [exclude not in image.name]. *)
Definition not_excluded (exclude : option string) (image : resource) : bool :=
  if truthy exclude then negb (contains (default "" exclude) (rname image))
  else true.

Definition get_image_exclude (name_or_id : string) (exclude : option string)
    : M W (option resource) :=
  let! images := search_images name_or_id in
  ret (List.find (not_excluded exclude) images).

Definition get_image_name (image_id : string) (exclude : option string)
    : M W (option string) :=
  let! image := get_image_exclude image_id exclude in
  ret (rname <$> image).

Definition get_image_id (image_name : string) (exclude : option string)
    : M W (option string) :=
  let! image := get_image_exclude image_name exclude in
  ret (id <$> image).

End ImageLookup.

Module ImageFixtures.

(** Two images that answer to [cirros]: a test build by its id, and the
    release by its name. *)
Definition cirros_test : resource :=
  {| id := "cirros"; rname := "cirros-test"; status := "active" |}.

Definition two_images (t : Z) : Fixtures.fake :=
  Fixtures.set_images (Fixtures.quiet t Fixtures.NeutronUp)
    [cirros_test; Fixtures.cirros].

End ImageFixtures.

(** * Properties *)

(** ** Cache keys *)

Module CacheKeyFacts.
Import CacheKey.

Lemma kw_get_Some (kwargs : list (string * pyval)) k v :
  NoDup (kwargs.*1) → (k, v) ∈ kwargs → kw_get k kwargs = Some v.
Proof.
  induction kwargs as [|[k' v'] rest IH]; simpl; intros Hnd Hin.
  - by apply elem_of_nil in Hin.
  - apply NoDup_cons in Hnd as [Hk' Hnd].
    apply elem_of_cons in Hin as [Heq|Hin].
    + injection Heq as -> ->. by rewrite String.eqb_refl.
    + destruct (String.eqb_spec k k') as [->|_]; [|by apply IH].
      exfalso. apply Hk'. apply list_elem_of_fmap. by exists (k', v).
Qed.

Lemma kw_get_elem (kwargs : list (string * pyval)) k :
  k ∈ kwargs.*1 → ∃ v, (k, v) ∈ kwargs.
Proof.
  intros Hin. apply list_elem_of_fmap in Hin as [[k' v] [-> Hin]].
  by exists v.
Qed.

Lemma keys_filter (kwargs : list (string * pyval)) :
  filter (fun k => k ≠ "cache") (kwargs.*1)
  = (filter (fun kv => kv.1 ≠ "cache") kwargs).*1.
Proof.
  induction kwargs as [|[k v] rest IH]; [done|].
  rewrite fmap_cons, !filter_cons. simpl.
  destruct (decide (k ≠ "cache")); simpl; by rewrite IH.
Qed.

End CacheKeyFacts.

Module CacheKeyOrder.
Import CacheKey.

Lemma StronglySorted_filter_le (P : string → Prop) `{∀ x, Decision (P x)}
    (l : list string) :
  StronglySorted String.le l → StronglySorted String.le (filter P l).
Proof.
  induction 1 as [|x l Hs IH Hall]; [constructor|].
  rewrite filter_cons. destruct (decide (P x)); [|done].
  constructor; [done|].
  apply Forall_forall. intros y Hy.
  apply list_elem_of_filter in Hy as [_ Hy].
  by eapply Forall_forall in Hall.
Qed.

Lemma sorted_keys_filter (kw1 kw2 : list (string * pyval)) :
  filter (fun kv => kv.1 ≠ "cache") kw1
    ≡ₚ filter (fun kv => kv.1 ≠ "cache") kw2 →
  filter (fun k => k ≠ "cache") (sorted_keys kw1)
  = filter (fun k => k ≠ "cache") (sorted_keys kw2).
Proof.
  intros Hperm. unfold sorted_keys.
  apply (StronglySorted_unique String.le).
  - apply StronglySorted_filter_le, StronglySorted_merge_sort; apply _.
  - apply StronglySorted_filter_le, StronglySorted_merge_sort; apply _.
  - rewrite !merge_sort_Permutation, !CacheKeyFacts.keys_filter.
    by rewrite Hperm.
Qed.

Lemma kw_item_agree (kw1 kw2 : list (string * pyval)) k :
  NoDup (kw1.*1) → NoDup (kw2.*1) →
  filter (fun kv => kv.1 ≠ "cache") kw1
    ≡ₚ filter (fun kv => kv.1 ≠ "cache") kw2 →
  k ≠ "cache" → k ∈ kw1.*1 →
  kw_item kw1 k = kw_item kw2 k.
Proof.
  intros Hnd1 Hnd2 Hperm Hk Hin.
  destruct (CacheKeyFacts.kw_get_elem _ _ Hin) as [v Hv].
  assert ((k, v) ∈ kw2) as Hv2.
  { assert ((k, v) ∈ filter (fun kv => kv.1 ≠ "cache") kw2) as Hf.
    { rewrite <- Hperm. apply list_elem_of_filter. by split. }
    by apply list_elem_of_filter in Hf as [_ Hf]. }
  unfold kw_item.
  by rewrite (CacheKeyFacts.kw_get_Some kw1 k v),
             (CacheKeyFacts.kw_get_Some kw2 k v).
Qed.

End CacheKeyOrder.

(** C8, as stated, fails on the region: two connections to the same cloud
    name in different regions build the same key for the same call, so the
    region is no part of the key. *)
Lemma make_cache_key_ignores_region :
  region_name Fixtures.region_one ≠ region_name Fixtures.region_two ∧
  CacheKey.generate_key Fixtures.region_one None "list_volumes" [] []
  = CacheKey.generate_key Fixtures.region_two None "list_volumes" [] [].
Proof. split; [discriminate|reflexivity]. Qed.

(** C8 (amended): the key built by [_make_cache_key] is determined by the
    cloud name of the connection (not its region), the namespace, the
    function name, the positional arguments and the keyword arguments other
    than [cache], whatever order the keywords were given in. *)
Theorem make_cache_key_canonical (c1 c2 : cloud) (namespace : option string)
    (fname : string) (args : list string) (kw1 kw2 : list (string * pyval)) :
  name c1 = name c2 →
  NoDup (kw1.*1) → NoDup (kw2.*1) →
  filter (fun kv => kv.1 ≠ "cache") kw1
    ≡ₚ filter (fun kv => kv.1 ≠ "cache") kw2 →
  CacheKey.generate_key c1 namespace fname args kw1
  = CacheKey.generate_key c2 namespace fname args kw2.
Proof.
  intros Hname Hnd1 Hnd2 Hperm. unfold CacheKey.generate_key.
  assert (CacheKey.name_key c1 namespace = CacheKey.name_key c2 namespace)
    as -> by (unfold CacheKey.name_key; by rewrite Hname).
  rewrite <- (CacheKeyOrder.sorted_keys_filter kw1 kw2 Hperm).
  set (keys := filter (fun k => k ≠ "cache") (CacheKey.sorted_keys kw1)).
  assert (CacheKey.kw_item kw1 <$> keys = CacheKey.kw_item kw2 <$> keys)
    as ->; [|done].
  apply list_eq_Forall2, Forall2_fmap, Forall_Forall2_diag, Forall_forall.
  intros k Hk. apply list_elem_of_filter in Hk as [Hne Hk].
  apply CacheKeyOrder.kw_item_agree; [done..|].
  unfold CacheKey.sorted_keys in Hk. by rewrite merge_sort_Permutation in Hk.
Qed.

(** The same call written as [f(filter_deleted=False, cache=True)] on one
    region and as [f(filter_deleted=False)] on the other has one key. *)
Lemma make_cache_key_canonical_witness :
  CacheKey.generate_key Fixtures.region_one None "list_images" []
    [("filter_deleted", PyBool false); ("cache", PyBool true)]
  = CacheKey.generate_key Fixtures.region_two None "list_images" []
      [("filter_deleted", PyBool false)].
Proof.
  apply make_cache_key_canonical.
  - reflexivity.
  - simpl. by apply (bool_decide_unpack _).
  - simpl. by apply (bool_decide_unpack _).
  - vm_compute. reflexivity.
Defined.

(** ** Attaching an address the server already carries *)

Section AttachShortCircuit.
Context {W : Type} `{Env W}.

(** C9: when the floating address of the server already is the address of
    the floating IP, [_attach_ip_to_server] returns the server at once: the
    state, and with it the trace of submitted tasks, is untouched. *)
Theorem attach_ip_already_attached (fuel : nat) (srv : server)
    (fip : floating_ip) (fixed_address : option string) (wait : bool)
    (timeout : option Z) (skip_attach : bool) (s : state W) :
  get_server_ip srv = Some (floating_ip_address fip) →
  _attach_ip_to_server fuel srv fip fixed_address wait timeout skip_attach s
  = (Ok (Some srv), s).
Proof.
  intros Hip. unfold _attach_ip_to_server.
  rewrite bool_decide_eq_true_2 by done. reflexivity.
Qed.

End AttachShortCircuit.

(** The server [web] and the floating IP it already carries, on a cloud with
    neutron, with [wait=True]: no task is submitted. *)
Lemma attach_ip_already_attached_witness :
  _attach_ip_to_server 10 Fixtures.web Fixtures.web_ip None true (Some 60%Z)
    false (Fixtures.start Fixtures.region_one
             (Fixtures.quiet 100 Fixtures.NeutronUp))
  = (Ok (Some Fixtures.web),
     Fixtures.start Fixtures.region_one
       (Fixtures.quiet 100 Fixtures.NeutronUp)).
Proof.
  apply (attach_ip_already_attached 10 Fixtures.web Fixtures.web_ip None true
           (Some 60%Z) false).
  reflexivity.
Defined.

(** ** The server inventory *)

(** Unfolding the monad down to state transformers. *)
Ltac unfold_monad :=
  unfold shade_exceptions, neutron_exceptions, log_debug in *;
  unfold bind, ret, raise, block, catch, finally, get_self, put_self, emit,
    now, sleep, submitTask in *.

Section ServerInventory.
Context {W : Type} `{Env W}.

Lemma list_servers_fresh (detailed : bool) (s : state W) :
  (time_time (world s) - _servers_time (self s) < _SERVER_AGE (self s))%Z →
  list_servers detailed s = (Ok (_servers (self s)), s).
Proof.
  intros Hage. unfold list_servers. unfold_monad. simpl.
  destruct (Z.leb_spec (_SERVER_AGE (self s))
              (time_time (world s) - _servers_time (self s))); [lia|].
  reflexivity.
Qed.

Lemma list_servers_busy (detailed : bool) (s : state W) :
  (_SERVER_AGE (self s) ≤ time_time (world s) - _servers_time (self s))%Z →
  _servers_lock (self s) = true →
  _servers (self s) ≠ [] →
  list_servers detailed s
  = (Ok (_servers (self s)),
     {| self := self s; world := world s;
        trace := trace s ++ [EvAcquire false false] |}).
Proof.
  intros Hage Hlock Hne. unfold list_servers, acquire. unfold_monad. simpl.
  destruct (Z.leb_spec (_SERVER_AGE (self s))
              (time_time (world s) - _servers_time (self s))); [|lia].
  rewrite Hlock. simpl.
  destruct (_servers (self s)) as [|sv rest] eqn:Hs; [done|]. simpl.
  by rewrite Hs.
Qed.







End ServerInventory.

Section ServerInventoryClaims.
Context {W : Type} `{Env W}.


(** C10: whenever [list_servers] serves the stored snapshot, the answer is
    the stored list whatever [detailed] the caller passes. *)
Theorem list_servers_detail_ignored (d1 d2 : bool) (s : state W) :
  (time_time (world s) - _servers_time (self s) < _SERVER_AGE (self s))%Z
  ∨ (_servers_lock (self s) = true ∧ _servers (self s) ≠ []) →
  list_servers d1 s = list_servers d2 s
  ∧ (list_servers d1 s).1 = Ok (_servers (self s)).
Proof.
  intros [Hfresh|[Hlock Hne]].
  - by rewrite !list_servers_fresh.
  - destruct (Z.lt_ge_cases (time_time (world s) - _servers_time (self s))
                (_SERVER_AGE (self s))) as [Hfresh|Hage].
    + by rewrite !list_servers_fresh.
    + by rewrite !list_servers_busy.
Qed.

End ServerInventoryClaims.


(** After a refresh with [detailed=False], a call with [detailed=True]
    inside the age limit gets the list without details. *)
Lemma list_servers_detail_ignored_witness :
  list_servers true
    (list_servers false
       (Fixtures.start Fixtures.region_one
          (Fixtures.set_server_list (Fixtures.quiet 100 Fixtures.NeutronUp)
             [Fixtures.web; Fixtures.db]))).2
  = list_servers false
      (list_servers false
         (Fixtures.start Fixtures.region_one
            (Fixtures.set_server_list (Fixtures.quiet 100 Fixtures.NeutronUp)
               [Fixtures.web; Fixtures.db]))).2
  ∧ (list_servers true
       (list_servers false
          (Fixtures.start Fixtures.region_one
             (Fixtures.set_server_list
                (Fixtures.quiet 100 Fixtures.NeutronUp)
                [Fixtures.web; Fixtures.db]))).2).1
    = Ok [Fixtures.web; Fixtures.db].
Proof.
  apply (list_servers_detail_ignored true false). left. simpl. lia.
Defined.

(** ** Staleness gating of the cached list methods *)

Section Staleness.
Context {W : Type} `{Env W}.

Lemma in_tuple_elem (st : string) (t : list string) :
  in_tuple st t = bool_decide (st ∈ t).
Proof.
  unfold in_tuple. induction t as [|x t IH].
  - symmetry. apply bool_decide_eq_false_2, not_elem_of_nil.
  - change (existsb (String.eqb st) (x :: t))
      with (String.eqb st x || existsb (String.eqb st) t).
    rewrite IH. destruct (String.eqb_spec st x) as [->|Hne].
    + symmetry. apply bool_decide_eq_true_2. left.
    + apply bool_decide_ext. rewrite elem_of_cons.
      split; [by right|]. by intros [?|?].
Qed.

Lemma no_pending_forall (P : string → bool) (f : list resource → bool) :
  f [] = true →
  (∀ r l, f (r :: l) = if negb (P (status r)) then false else f l) →
  ∀ l, f l = true ↔ ∀ r, r ∈ l → P (status r) = true.
Proof.
  intros Hnil Hcons. induction l as [|r l IH].
  - split; [|done]. intros _ x Hx. by apply elem_of_nil in Hx.
  - rewrite Hcons. destruct (P (status r)) eqn:Hr; simpl.
    + rewrite IH. split.
      * intros Hl x Hx. apply elem_of_cons in Hx as [->|Hx]; auto.
      * intros Hl x Hx. apply Hl. by right.
    + split; [done|]. intros Hl. rewrite <- Hr. apply Hl. left.
Qed.

(** Each predicate of the source accepts a list exactly when every member
    has a terminal status. *)
Lemma op_should_cache_terminal (op : list_op) (l : list resource) :
  op_should_cache op l = true ↔ ∀ r, r ∈ l → terminal op (status r) = true.
Proof.
  destruct op as [c|f|]; unfold op_should_cache, terminal.
  - rewrite (no_pending_forall
               (fun st => in_tuple st ["available"; "error"; "in-use"]));
      [|reflexivity|reflexivity].
    by setoid_rewrite in_tuple_elem.
  - rewrite (no_pending_forall
               (fun st => in_tuple st ["active"; "deleted"; "killed"]));
      [|reflexivity|reflexivity].
    by setoid_rewrite in_tuple_elem.
  - apply (no_pending_forall
             (fun st => contains "_COMPLETE" st || contains "_FAILED" st));
      [reflexivity|].
    intros r l'. cbn [_no_pending_stacks].
    by rewrite negb_orb.
Qed.

(** The fetch of each method leaves the connection object alone and
    submits its list task. *)
Lemma op_body_effect (op : list_op) (s : state W) :
  self (op_body op s).2 = self s
  ∧ ∃ evs : list event, trace (op_body op s).2 = (trace s ++ evs)%list
                        ∧ EvSubmit (op_task op) ∈ evs.
Proof.
  destruct op as [c|f|]; simpl;
    unfold list_volumes_body, list_images_body, list_stacks_body;
    unfold_monad; simpl.
  - destruct (negb (default true c)); simpl;
      destruct (respond VolumeList (world s)) as [[l|e|w] w']; simpl;
      (split; [done|]); eexists; rewrite <- ?app_assoc;
      (split; [reflexivity|]); set_solver.
  - destruct (respond GlanceImageList (world s)) as [[l|e|w] w']; simpl;
      [split; [done|]; eexists; split; [reflexivity|]; set_solver| |
       split; [done|]; eexists; split; [reflexivity|]; set_solver].
    destruct e; simpl;
      try (split; [done|]; eexists; split; [reflexivity|]; set_solver).
    destruct (respond NovaImageList _) as [[l|e|w] w'']; simpl;
      (split; [done|]); eexists; rewrite <- ?app_assoc;
      (split; [reflexivity|]); set_solver.
  - destruct (respond StackList (world s)) as [[l|e|w] w']; simpl;
      (split; [done|]); eexists; (split; [reflexivity|]); set_solver.
Qed.

Lemma run_op_hit (op : list_op) (s : state W) (v : list resource) :
  cache_enabled (_cache (self s)) = true →
  live (_cache (self s)) (time_time (world s)) (op_key (self s) op) = Some v →
  run_op op s = (Ok v, s).
Proof.
  intros Hen Hlive.
  destruct op as [c|f|]; simpl in *;
    unfold list_volumes, list_images, list_stacks, cache_on_arguments;
    unfold_monad; simpl; rewrite Hen; simpl; by rewrite Hlive.
Qed.

Lemma run_op_miss (op : list_op) (s : state W) :
  cache_enabled (_cache (self s)) = true →
  live (_cache (self s)) (time_time (world s)) (op_key (self s) op) = None →
  run_op op s
  = cache_miss (op_should_cache op) (op_key (self s) op) (op_body op) s.
Proof.
  intros Hen Hlive.
  destruct op as [c|f|]; simpl in *;
    unfold list_volumes, list_images, list_stacks, cache_on_arguments;
    unfold_monad; simpl; rewrite Hen; simpl; by rewrite Hlive.
Qed.

(** The miss path returns what the fetch returned; it stores the value,
    stamped with the time after the fetch, exactly when the predicate
    accepts it. *)
Lemma cache_miss_outcome (f : list resource → bool) (key : string)
    (compute : M W (list resource)) (s s1 : state W) (v : list resource) :
  compute s = (Ok v, s1) →
  cache_miss f key compute s
  = (Ok v,
     if f v then
       {| self := set_cache (self s1)
                    (set_entries (_cache (self s1))
                       (<[key := (time_time (world s1), v)]>
                          (entries (_cache (self s1)))));
          world := world s1; trace := trace s1 |}
     else s1).
Proof.
  intros Hc. unfold cache_miss. unfold_monad. rewrite Hc.
  destruct (f v); reflexivity.
Qed.

(** Whatever the fetch does, the miss path does to the world and the
    trace. *)
Lemma cache_miss_fetches (f : list resource → bool) (key : string)
    (compute : M W (list resource)) (s : state W) :
  trace (cache_miss f key compute s).2 = trace (compute s).2
  ∧ world (cache_miss f key compute s).2 = world (compute s).2.
Proof.
  unfold cache_miss. unfold_monad.
  destruct (compute s) as [[v|e|w] s1]; simpl; [|done..].
  destruct (f v); done.
Qed.

(** An entry that is not live stays so as the clock advances. *)
Lemma live_None_later (r : cache_region) (t t' : Z) (key : string) :
  live r t key = None → (t ≤ t')%Z → live r t' key = None.
Proof.
  unfold live. destruct (entries r !! key) as [[created v]|]; [|done].
  destruct (Z.ltb_spec (t - created) (expiration_time r)); [done|].
  intros _ Hle.
  destruct (Z.ltb_spec (t' - created) (expiration_time r)); [lia|done].
Qed.

(** C1: with caching enabled, take a read of [list_volumes], [list_images]
    or [list_stacks] that is not served from the cache and whose fetch
    returns [v].  If some member of [v] has a status outside the terminal
    set of its kind, [v] is returned, no entry is stored, and a later read
    on the unchanged connection submits the list task again.  If every member
    is terminal, [v] is returned and stored, and a read inside the TTL window
    returns [v] without touching the backend. *)
Theorem staleness_gating (op : list_op) (s s1 : state W) (v : list resource) :
  cache_enabled (_cache (self s)) = true →
  live (_cache (self s)) (time_time (world s)) (op_key (self s) op) = None →
  op_body op s = (Ok v, s1) →
  ((∃ r, r ∈ v ∧ terminal op (status r) = false) →
   run_op op s = (Ok v, s1)
   ∧ entries (_cache (self s1)) = entries (_cache (self s))
   ∧ ∀ s2 : state W,
       self s2 = self s1 →
       (time_time (world s) ≤ time_time (world s2))%Z →
       ∃ evs : list event,
         trace (run_op op s2).2 = (trace s2 ++ evs)%list
         ∧ EvSubmit (op_task op) ∈ evs)
  ∧ ((∀ r, r ∈ v → terminal op (status r) = true) →
     ∃ s1' : state W,
       run_op op s = (Ok v, s1')
       ∧ entries (_cache (self s1')) !! op_key (self s) op
         = Some (time_time (world s1), v)
       ∧ ∀ s2 : state W,
           self s2 = self s1' →
           (time_time (world s2) - time_time (world s1)
            < expiration_time (_cache (self s)))%Z →
           run_op op s2 = (Ok v, s2)).
Proof.
  intros Hen Hlive Hbody.
  assert (self s1 = self s) as Hself.
  { pose proof (proj1 (op_body_effect op s)) as Hs. by rewrite Hbody in Hs. }
  split.
  - intros (r & Hr & Hterm).
    assert (op_should_cache op v = false) as Hno.
    { destruct (op_should_cache op v) eqn:Hyes; [|done].
      rewrite op_should_cache_terminal in Hyes.
      rewrite (Hyes r Hr) in Hterm. done. }
    split; [|split].
    + rewrite run_op_miss by done.
      rewrite (cache_miss_outcome _ _ _ s s1 v Hbody). by rewrite Hno.
    + by rewrite Hself.
    + intros s2 Hs2 Htime.
      rewrite Hself in Hs2.
      rewrite run_op_miss.
      * destruct (cache_miss_fetches (op_should_cache op)
                    (op_key (self s2) op) (op_body op) s2) as [-> _].
        apply op_body_effect.
      * by rewrite Hs2.
      * rewrite Hs2. by eapply live_None_later.
  - intros Hterm.
    assert (op_should_cache op v = true) as Hyes
      by (by apply op_should_cache_terminal).
    eexists. split; [|split].
    + rewrite run_op_miss by done.
      rewrite (cache_miss_outcome _ _ _ s s1 v Hbody). by rewrite Hyes.
    + simpl. apply lookup_insert_eq.
    + intros s2 Hs2 Htime.
      assert (op_key (self s2) op = op_key (self s) op) as Hkey.
      { rewrite Hs2. simpl. rewrite Hself. by destruct op. }
      apply run_op_hit.
      * rewrite Hs2. simpl. by rewrite Hself.
      * rewrite Hkey, Hs2. unfold live. simpl.
        rewrite lookup_insert_eq. rewrite Hself.
        destruct (Z.ltb_spec (time_time (world s2) - time_time (world s1))
                    (expiration_time (_cache (self s)))); [done|lia].
Qed.

End Staleness.

(** On the scripted world the first [list_volumes] returns the volume in
    status [creating], and the read that follows submits [VolumeList]
    again. *)
Lemma staleness_gating_witness :
  run_op (OpVolumes None)
    (Fixtures.start Fixtures.region_one
       (Fixtures.creating_then_available 100))
  = (Ok [Fixtures.volume "creating"],
     (op_body (OpVolumes None)
        (Fixtures.start Fixtures.region_one
           (Fixtures.creating_then_available 100))).2)
  ∧ ∃ evs : list event,
      trace (run_op (OpVolumes None)
               (op_body (OpVolumes None)
                  (Fixtures.start Fixtures.region_one
                     (Fixtures.creating_then_available 100))).2).2
      = (trace (op_body (OpVolumes None)
                  (Fixtures.start Fixtures.region_one
                     (Fixtures.creating_then_available 100))).2
         ++ evs)%list
      ∧ EvSubmit VolumeList ∈ evs.
Proof.
  destruct (staleness_gating (OpVolumes None)
              (Fixtures.start Fixtures.region_one
                 (Fixtures.creating_then_available 100))
              (op_body (OpVolumes None)
                 (Fixtures.start Fixtures.region_one
                    (Fixtures.creating_then_available 100))).2
              [Fixtures.volume "creating"])
    as [Hpending _]; [reflexivity..|].
  destruct Hpending as (Hrun & _ & Hagain).
  { exists (Fixtures.volume "creating"). split; [left|reflexivity]. }
  split; [exact Hrun|].
  apply Hagain; [reflexivity|simpl; lia].
Defined.

(** ** Falling back from neutron to nova *)

Section Fallback.
Context {W : Type} `{Env W}.

Lemma try_neutron_ok {A} (primary : M W A) (s s' : state W) (r : A) :
  primary s = (Ok r, s') → try_neutron primary s = (Ok (Some r), s').
Proof. intros Hp. unfold try_neutron. unfold_monad. by rewrite Hp. Qed.

Lemma try_neutron_not_found {A} (primary : M W A) (s s' : state W)
    (m : string) :
  primary s = (Raise (OpenStackCloudURINotFound m), s') →
  try_neutron primary s
  = (Ok None, logged s' (trying_with_nova (OpenStackCloudURINotFound m))).
Proof. intros Hp. unfold try_neutron. unfold_monad. by rewrite Hp. Qed.

Lemma try_neutron_other {A} (primary : M W A) (s s' : state W) (e : exn) :
  primary s = (Raise e, s') →
  (∀ m, e ≠ OpenStackCloudURINotFound m) →
  try_neutron primary s = (Raise e, s').
Proof.
  intros Hp Hne. unfold try_neutron. unfold_monad. rewrite Hp.
  destruct e; try reflexivity. by destruct (Hne msg).
Qed.

(** [list_floating_ips], [create_floating_ip] and [delete_floating_ip] on a
    cloud with the network service: a not-found signal from neutron is
    logged and the nova path runs from the state neutron left; any other
    error of neutron is the error of the call. *)
Lemma list_floating_ips_fallback (s s1 s2 : state W) (m : string) :
  has_service "network" s = (Ok true, s1) →
  _neutron_list_floating_ips s1 = (Raise (OpenStackCloudURINotFound m), s2) →
  list_floating_ips s
  = (let! floating_ips := _nova_list_floating_ips in
     ret (normalize_nova_floating_ips floating_ips))
      (logged s2 (trying_with_nova (OpenStackCloudURINotFound m))).
Proof.
  intros Hnet Hprim. unfold list_floating_ips.
  unfold bind at 1. rewrite Hnet. unfold bind at 1.
  erewrite try_neutron_not_found; [reflexivity|].
  unfold bind. by rewrite Hprim.
Qed.

Lemma list_floating_ips_other (s s1 s2 : state W) (e : exn) :
  has_service "network" s = (Ok true, s1) →
  _neutron_list_floating_ips s1 = (Raise e, s2) →
  (∀ m, e ≠ OpenStackCloudURINotFound m) →
  list_floating_ips s = (Raise e, s2).
Proof.
  intros Hnet Hprim Hne. unfold list_floating_ips.
  unfold bind at 1. rewrite Hnet. unfold bind at 1.
  erewrite try_neutron_other; [reflexivity| |done].
  unfold bind. by rewrite Hprim.
Qed.

Lemma create_floating_ip_fallback (network : option string)
    (srv : option server) (s s1 s2 : state W) (m : string) :
  has_service "network" s = (Ok true, s1) →
  _neutron_create_floating_ip network srv s1
  = (Raise (OpenStackCloudURINotFound m), s2) →
  create_floating_ip network srv s
  = (let! f := _nova_create_floating_ip network in
     first (normalize_nova_floating_ips [f]))
      (logged s2 (trying_with_nova (OpenStackCloudURINotFound m))).
Proof.
  intros Hnet Hprim. unfold create_floating_ip.
  unfold bind at 1. rewrite Hnet. unfold bind at 1.
  erewrite try_neutron_not_found; [reflexivity|].
  unfold bind. by rewrite Hprim.
Qed.

Lemma create_floating_ip_other (network : option string)
    (srv : option server) (s s1 s2 : state W) (e : exn) :
  has_service "network" s = (Ok true, s1) →
  _neutron_create_floating_ip network srv s1 = (Raise e, s2) →
  (∀ m, e ≠ OpenStackCloudURINotFound m) →
  create_floating_ip network srv s = (Raise e, s2).
Proof.
  intros Hnet Hprim Hne. unfold create_floating_ip.
  unfold bind at 1. rewrite Hnet. unfold bind at 1.
  erewrite try_neutron_other; [reflexivity| |done].
  unfold bind. by rewrite Hprim.
Qed.

Lemma delete_floating_ip_fallback (i : string) (s s1 s2 : state W)
    (m : string) :
  has_service "network" s = (Ok true, s1) →
  _neutron_delete_floating_ip i s1
  = (Raise (OpenStackCloudURINotFound m), s2) →
  delete_floating_ip i s
  = _nova_delete_floating_ip i
      (logged s2 (trying_with_nova (OpenStackCloudURINotFound m))).
Proof.
  intros Hnet Hprim. unfold delete_floating_ip.
  unfold bind at 1. rewrite Hnet. unfold bind at 1.
  by erewrite try_neutron_not_found.
Qed.

Lemma delete_floating_ip_other (i : string) (s s1 s2 : state W) (e : exn) :
  has_service "network" s = (Ok true, s1) →
  _neutron_delete_floating_ip i s1 = (Raise e, s2) →
  (∀ m, e ≠ OpenStackCloudURINotFound m) →
  delete_floating_ip i s = (Raise e, s2).
Proof.
  intros Hnet Hprim Hne. unfold delete_floating_ip.
  unfold bind at 1. rewrite Hnet. unfold bind at 1.
  by erewrite try_neutron_other.
Qed.

(** [_attach_ip_to_server] without [wait]: the not-found signal of neutron
    is logged in the same words, and then the call returns the server.  The
    nova attachment sits in the [else] of [has_service('network')] and is not
    tried. *)
Lemma attach_ip_not_found_no_retry (fuel : nat) (srv : server)
    (fip : floating_ip) (fixed_address : option string) (timeout : option Z)
    (s s1 s2 : state W) (m : string) :
  get_server_ip srv ≠ Some (floating_ip_address fip) →
  has_service "network" s = (Ok true, s1) →
  _neutron_attach_ip_to_server srv fip fixed_address s1
  = (Raise (OpenStackCloudURINotFound m), s2) →
  _attach_ip_to_server fuel srv fip fixed_address false timeout false s
  = (Ok (Some srv),
     logged s2 (trying_with_nova (OpenStackCloudURINotFound m))).
Proof.
  intros Hip Hnet Hprim. unfold _attach_ip_to_server.
  rewrite bool_decide_eq_false_2 by done.
  unfold bind at 1. rewrite Hnet. simpl.
  unfold bind, catch. rewrite Hprim. reflexivity.
Qed.

End Fallback.

(** C3 fails for the attachment: on a cloud whose neutron answers 404,
    attaching [web_ip] to the server [db] logs that nova will be tried and
    returns the server, and the only task ever submitted is the neutron
    update; [delete_floating_ip] in the same world does go on to nova. *)
Theorem attach_ip_fallback_missing :
  (_attach_ip_to_server 10 Fixtures.db Fixtures.web_ip None false None false
     (Fixtures.start Fixtures.region_one
        (Fixtures.quiet 100 Fixtures.Neutron404))).1
  = Ok (Some Fixtures.db)
  ∧ trace
      (_attach_ip_to_server 10 Fixtures.db Fixtures.web_ip None false None
         false
         (Fixtures.start Fixtures.region_one
            (Fixtures.quiet 100 Fixtures.Neutron404))).2
    = [EvSubmit (NeutronFloatingIPUpdate "fip-1" "port-1" None);
       EvLogDebug
         (trying_with_nova
            (OpenStackCloudURINotFound
               "unable to bind a floating ip to server srv-2: NeutronClientException"))]
  ∧ trace
      (delete_floating_ip "fip-1"
         (Fixtures.start Fixtures.region_one
            (Fixtures.quiet 100 Fixtures.Neutron404))).2
    = [EvSubmit (NeutronFloatingIPDelete "fip-1");
       EvLogDebug
         (trying_with_nova
            (OpenStackCloudURINotFound
               "unable to delete floating IP: NeutronClientException"));
       EvSubmit (NovaFloatingIPDelete "fip-1")].
Proof. split; [|split]; vm_compute; reflexivity. Qed.

(** ** The wait loop *)

Section WaitLoop.
Context {W : Type} `{Env W} {S A : Type}.
Implicit Types (body : nat → S → M W (ctl S A)) (s : state W).

Lemma iterate_timeout_expired fuel count deadline message wait body st s :
  expired deadline (time_time (world s)) = true →
  iterate_timeout_from (Datatypes.S fuel) count deadline message wait body
    st s
  = (Raise (OpenStackCloudTimeout message), s).
Proof. intros Hexp. simpl. unfold_monad. by rewrite Hexp. Qed.

Lemma iterate_timeout_return fuel count deadline message wait body st s s'
    (a : A) :
  expired deadline (time_time (world s)) = false →
  body (Datatypes.S count) st (yielded s (Datatypes.S count))
  = (Ok (Return a), s') →
  iterate_timeout_from (Datatypes.S fuel) count deadline message wait body
    st s
  = (Ok (inr a), s').
Proof.
  intros Hexp Hbody. simpl. unfold_monad. rewrite Hexp.
  unfold yielded in Hbody. by rewrite Hbody.
Qed.

Lemma iterate_timeout_break fuel count deadline message wait body st s s'
    (st' : S) :
  expired deadline (time_time (world s)) = false →
  body (Datatypes.S count) st (yielded s (Datatypes.S count))
  = (Ok (Break st'), s') →
  iterate_timeout_from (Datatypes.S fuel) count deadline message wait body
    st s
  = (Ok (inl st'), s').
Proof.
  intros Hexp Hbody. simpl. unfold_monad. rewrite Hexp.
  unfold yielded in Hbody. by rewrite Hbody.
Qed.

Lemma iterate_timeout_raise fuel count deadline message wait body st s s'
    (e : exn) :
  expired deadline (time_time (world s)) = false →
  body (Datatypes.S count) st (yielded s (Datatypes.S count))
  = (Raise e, s') →
  iterate_timeout_from (Datatypes.S fuel) count deadline message wait body
    st s
  = (Raise e, s').
Proof.
  intros Hexp Hbody. simpl. unfold_monad. rewrite Hexp.
  unfold yielded in Hbody. by rewrite Hbody.
Qed.

Lemma iterate_timeout_continue fuel count deadline message wait body st s s'
    (st' : S) :
  expired deadline (time_time (world s)) = false →
  body (Datatypes.S count) st (yielded s (Datatypes.S count))
  = (Ok (Continue st'), s') →
  iterate_timeout_from (Datatypes.S fuel) count deadline message wait body
    st s
  = iterate_timeout_from fuel (Datatypes.S count) deadline message wait body
      st' (slept s' wait).
Proof.
  intros Hexp Hbody. simpl. unfold_monad. rewrite Hexp.
  unfold yielded in Hbody. by rewrite Hbody.
Qed.

End WaitLoop.

(** ** Waiting for a created volume *)

Section CreateVolume.
Context {W : Type} `{Env W}.

Lemma create_volume_body_available vol_id count (s s' : state W) v :
  get_volume vol_id s = (Ok (Some v), s') →
  status v = "available" →
  create_volume_wait_body vol_id count tt s = (Ok (Return v), s').
Proof.
  intros Hget Hst. unfold create_volume_wait_body.
  unfold bind. rewrite Hget, Hst. reflexivity.
Qed.

Lemma create_volume_body_error vol_id count (s s' : state W) v :
  get_volume vol_id s = (Ok (Some v), s') →
  status v = "error" →
  create_volume_wait_body vol_id count tt s
  = (Raise (OpenStackCloudException
              "Error in creating volume, please check logs"), s').
Proof.
  intros Hget Hst. unfold create_volume_wait_body.
  unfold bind. rewrite Hget, Hst. reflexivity.
Qed.

Lemma create_volume_body_pending vol_id count (s s' : state W) found :
  get_volume vol_id s = (Ok found, s') →
  (∀ v, found = Some v → status v ≠ "available" ∧ status v ≠ "error") →
  create_volume_wait_body vol_id count tt s = (Ok (Continue tt), s').
Proof.
  intros Hget Hst. unfold create_volume_wait_body.
  unfold bind. rewrite Hget. destruct found as [v|]; [|reflexivity].
  destruct (Hst v eq_refl) as [Hav Herr].
  apply String.eqb_neq in Hav, Herr. by rewrite Hav, Herr.
Qed.

(** The first statements of [create_volume]: what the lookup of the image
    leaves is what the create task is built from. *)
Lemma create_volume_resolves fuel size wait timeout image kwargs kwargs'
    (s sr : state W) :
  image_resolved image kwargs kwargs' s sr →
  create_volume fuel size wait timeout image kwargs s
  = (let! volume := shade_exceptions (Some "Error in creating volume")
                      (submitTask
                         (VolumeCreate size (_get_volume_kwargs kwargs'))) in
     run! invalidate "list_volumes" in
     if String.eqb (status volume) "error" then
       raise (OpenStackCloudException "Error in creating volume")
     else
       let! waited :=
         (if wait then
            _iterate_timeout fuel timeout
              "Timeout waiting for the volume to be available." 2
              (create_volume_wait_body (id volume)) tt
          else ret (inl tt)) in
       match waited with
       | inr v => ret v
       | inl _ => first (normalize_volumes [volume])
       end) sr.
Proof.
  intros Hres. unfold create_volume. unfold bind at 1.
  destruct image as [[|a rest]|]; simpl in Hres.
  - by destruct Hres as [-> ->].
  - destruct Hres as (image_obj & Hget & ->).
    unfold bind at 1. by rewrite Hget.
  - by destruct Hres as [-> ->].
Qed.

(** With [wait=True], whatever image is passed, once the create task has
    answered with a volume that is not in status [error] and the volume list
    is invalidated, [create_volume] is its wait loop. *)
Lemma create_volume_enters_loop fuel size timeout image kwargs kwargs'
    (s sr s0 s1 : state W) vol :
  image_resolved image kwargs kwargs' s sr →
  shade_exceptions (Some "Error in creating volume")
    (submitTask (VolumeCreate size (_get_volume_kwargs kwargs'))) sr
  = (Ok vol, s0) →
  invalidate "list_volumes" s0 = (Ok (), s1) →
  status vol ≠ "error" →
  create_volume fuel size true timeout image kwargs s
  = (let! waited :=
       create_volume_poll fuel 0
         (Z.add (time_time (world s1)) <$> timeout) (id vol) in
     match waited with
     | inr v => ret v
     | inl _ => first (normalize_volumes [vol])
     end) s1.
Proof.
  intros Hres Hsub Hinv Hst.
  rewrite (create_volume_resolves _ _ _ _ _ _ _ _ _ Hres).
  unfold bind at 1. rewrite Hsub.
  unfold bind at 1. rewrite Hinv.
  apply String.eqb_neq in Hst. rewrite Hst.
  unfold _iterate_timeout, create_volume_poll.
  unfold bind, now. reflexivity.
Qed.

(** Unsettled passes are gone through one by one. *)
Lemma create_volume_poll_pending deadline vol_id count (s : state W) n
    (sn : state W) :
  pending_passes deadline vol_id count s n sn →
  ∀ fuel,
    create_volume_poll (n + fuel) count deadline vol_id s
    = create_volume_poll fuel (n + count) deadline vol_id sn.
Proof.
  induction 1 as [|count s sa found n sn Hexp Hget Hpend _ IH]; [done|].
  intros fuel. cbn [Nat.add]. unfold create_volume_poll.
  erewrite iterate_timeout_continue; [|done|].
  2:{ by eapply create_volume_body_pending. }
  fold (create_volume_poll (n + fuel) (S count) deadline vol_id
          (slept sa 2)).
  rewrite IH. by rewrite Nat.add_succ_r.
Qed.

End CreateVolume.

Section CreateVolumeClaim.
Context {W : Type} `{Env W}.

(** C4: [create_volume] with [wait=True], for whatever [image] and keyword
    arguments: once the image, if one is named, has been resolved, the create
    task has answered with a volume that is not in status [error] and the
    volume list has been invalidated, the verb re-reads the volume by id on
    every pass.  After any number [n] of passes that found the volume missing
    or in a status other than [available] and [error], each followed by a
    sleep of 2 seconds, pass [n + 1] decides: (a) a volume in status
    [available] is returned at once, from the state that poll left; (b) a
    volume in status [error] raises; (c) a missing volume or any other status
    makes the verb sleep and go on with pass [n + 2]; (d) a pass that starts
    at or after the deadline raises the timeout error without polling.  So
    (e) when the reads of the volume give [creating] and then [available],
    both before the deadline, the verb returns the second descriptor from
    the state its second poll left: two polls, and none after. *)
Theorem create_volume_convergence (fuel : nat) (size : Z)
    (timeout : option Z) (image : option string)
    (kwargs kwargs' : list (string * pyval)) (s sr s0 s1 : state W)
    (vol : resource) :
  image_resolved image kwargs kwargs' s sr →
  shade_exceptions (Some "Error in creating volume")
    (submitTask (VolumeCreate size (_get_volume_kwargs kwargs'))) sr
  = (Ok vol, s0) →
  invalidate "list_volumes" s0 = (Ok (), s1) →
  status vol ≠ "error" →
  (∀ n sn,
     pending_passes (Z.add (time_time (world s1)) <$> timeout) (id vol)
       0 s1 n sn →
     (∀ v s',
        expired (Z.add (time_time (world s1)) <$> timeout)
          (time_time (world sn)) = false →
        get_volume (id vol) (yielded sn (S n)) = (Ok (Some v), s') →
        status v = "available" →
        create_volume (n + S fuel) size true timeout image kwargs s
        = (Ok v, s'))
     ∧ (∀ v s',
          expired (Z.add (time_time (world s1)) <$> timeout)
            (time_time (world sn)) = false →
          get_volume (id vol) (yielded sn (S n)) = (Ok (Some v), s') →
          status v = "error" →
          create_volume (n + S fuel) size true timeout image kwargs s
          = (Raise (OpenStackCloudException
                      "Error in creating volume, please check logs"), s'))
     ∧ (∀ found sa,
          expired (Z.add (time_time (world s1)) <$> timeout)
            (time_time (world sn)) = false →
          get_volume (id vol) (yielded sn (S n)) = (Ok found, sa) →
          (∀ v, found = Some v →
                status v ≠ "available" ∧ status v ≠ "error") →
          create_volume (n + S fuel) size true timeout image kwargs s
          = (let! waited :=
               create_volume_poll fuel (S n)
                 (Z.add (time_time (world s1)) <$> timeout) (id vol) in
             match waited with
             | inr v => ret v
             | inl _ => first (normalize_volumes [vol])
             end) (slept sa 2))
     ∧ (expired (Z.add (time_time (world s1)) <$> timeout)
          (time_time (world sn)) = true →
        create_volume (n + S fuel) size true timeout image kwargs s
        = (Raise (OpenStackCloudTimeout
                    "Timeout waiting for the volume to be available."),
           sn)))
  ∧ (∀ sa sb v1 v2,
       expired (Z.add (time_time (world s1)) <$> timeout)
         (time_time (world s1)) = false →
       get_volume (id vol) (yielded s1 1) = (Ok (Some v1), sa) →
       status v1 = "creating" →
       expired (Z.add (time_time (world s1)) <$> timeout)
         (time_time (world (slept sa 2))) = false →
       get_volume (id vol) (yielded (slept sa 2) 2) = (Ok (Some v2), sb) →
       status v2 = "available" →
       create_volume (S (S fuel)) size true timeout image kwargs s
       = (Ok v2, sb)).
Proof.
  intros Hres Hsub Hinv Hvol.
  assert (∀ n sn,
            pending_passes (Z.add (time_time (world s1)) <$> timeout)
              (id vol) 0 s1 n sn →
            create_volume (n + S fuel) size true timeout image kwargs s
            = (let! waited :=
                 create_volume_poll (S fuel) n
                   (Z.add (time_time (world s1)) <$> timeout) (id vol) in
               match waited with
               | inr v => ret v
               | inl _ => first (normalize_volumes [vol])
               end) sn) as Hloop.
  { intros n sn Hpend.
    rewrite (create_volume_enters_loop _ _ _ _ _ _ s sr s0 s1 vol) by done.
    unfold bind.
    rewrite (create_volume_poll_pending _ _ _ _ _ _ Hpend).
    by rewrite Nat.add_0_r. }
  split.
  - intros n sn Hpend. rewrite (Hloop n sn Hpend).
    unfold bind, create_volume_poll. split; [|split; [|split]].
    + intros v s' Hexp Hget Hst.
      erewrite iterate_timeout_return; [reflexivity|done|].
      by eapply create_volume_body_available.
    + intros v s' Hexp Hget Hst.
      erewrite iterate_timeout_raise; [reflexivity|done|].
      by eapply create_volume_body_error.
    + intros found sa Hexp Hget Hst.
      erewrite iterate_timeout_continue; [reflexivity|done|].
      by eapply create_volume_body_pending.
    + intros Hexp. by rewrite iterate_timeout_expired.
  - intros sa sb v1 v2 Hexp1 Hget1 Hst1 Hexp2 Hget2 Hst2.
    change (S (S fuel)) with (1 + S fuel)%nat.
    rewrite (Hloop 1%nat (slept sa 2)).
    + unfold bind, create_volume_poll.
      erewrite iterate_timeout_return; [reflexivity|done|].
      by eapply create_volume_body_available.
    + eapply pending_more; [exact Hexp1|exact Hget1| |apply pending_none].
      intros v [= <-]. rewrite Hst1. split; discriminate.
Qed.

End CreateVolumeClaim.

(** [create_volume(1, wait=True, timeout=5, image='cirros')] against the
    scripted world that holds the image and reports the volume as [creating]
    once and as [available] from then on: the volume comes back [available],
    and the trace shows the lookup of the image, the create task with its
    [imageRef], two passes of the loop and one [VolumeList] in each. *)
Lemma create_volume_convergence_witness :
  create_volume 2 1 true (Some 5%Z) (Some "cirros") []
    (Fixtures.start Fixtures.region_one
       (Fixtures.set_images (Fixtures.creating_then_available 100)
          [Fixtures.cirros]))
  = (Ok (Fixtures.volume "available"),
     (get_volume "vol-1"
        (yielded
           (slept
              (get_volume "vol-1"
                 (yielded
                    (invalidate "list_volumes"
                       (submitTask
                          (VolumeCreate 1 [("imageRef", PyStr "img-1")])
                          (get_image "cirros"
                             (Fixtures.start Fixtures.region_one
                                (Fixtures.set_images
                                   (Fixtures.creating_then_available 100)
                                   [Fixtures.cirros]))).2).2).2
                    1)).2
              2)
           2)).2)
  ∧ trace
      (create_volume 2 1 true (Some 5%Z) (Some "cirros") []
         (Fixtures.start Fixtures.region_one
            (Fixtures.set_images (Fixtures.creating_then_available 100)
               [Fixtures.cirros]))).2
    = [EvSubmit GlanceImageList;
       EvSubmit (VolumeCreate 1 [("imageRef", PyStr "img-1")]);
       EvYield 1; EvSubmit VolumeList; EvYield 2; EvSubmit VolumeList].
Proof.
  split; [|vm_compute; reflexivity].
  eapply (create_volume_convergence 0 1 (Some 5%Z) (Some "cirros") []
            [("imageRef", PyStr "img-1")]).
  - eexists. split; [vm_compute; reflexivity|reflexivity].
  - vm_compute. reflexivity.
  - vm_compute. reflexivity.
  - discriminate.
  - vm_compute. reflexivity.
  - vm_compute. reflexivity.
  - reflexivity.
  - vm_compute. reflexivity.
  - vm_compute. reflexivity.
  - reflexivity.
Defined.

(** ** Delete verbs *)

Section Deletes.
Context {W : Type} `{Env W}.

(** The siblings of [delete_image] answer [False] for a target that is not
    there. *)
Lemma delete_volume_absent fuel name_or_id wait timeout (s s0 s1 : state W) :
  invalidate "list_volumes" s = (Ok (), s0) →
  get_volume name_or_id s0 = (Ok None, s1) →
  delete_volume fuel name_or_id wait timeout s
  = (Ok false, logged s1 ("Volume " ++ name_or_id ++ " does not exist")).
Proof.
  intros Hinv Hget. unfold delete_volume.
  unfold bind at 1. rewrite Hinv. unfold bind at 1. rewrite Hget.
  reflexivity.
Qed.

Lemma delete_stack_absent name_or_id (s s1 : state W) :
  get_stack name_or_id s = (Ok None, s1) →
  delete_stack name_or_id s
  = (Ok false,
     logged s1 ("Stack " ++ name_or_id ++ " not found for deleting")).
Proof.
  intros Hget. unfold delete_stack. unfold bind at 1. rewrite Hget.
  reflexivity.
Qed.

Lemma delete_server_absent fuel name_or_id wait timeout delete_ips
    (s s1 : state W) :
  get_server name_or_id false s = (Ok None, s1) →
  delete_server fuel name_or_id wait timeout delete_ips s = (Ok false, s1).
Proof.
  intros Hget. unfold delete_server. unfold bind. by rewrite Hget.
Qed.

(** [delete_image] on a target that is not there, under glance v1 or v2:
    [image.id] fails on [None] inside [shade_exceptions], and what leaves
    the [with] block is raised. *)
Lemma delete_image_absent fuel name_or_id wait timeout (s s1 : state W) :
  get_image name_or_id s = (Ok None, s1) →
  get_api_version "image" = "2" ∨ get_api_version "image" = "1" →
  delete_image fuel name_or_id wait timeout s
  = (Raise (shade_exceptions_exit (Some "Error in deleting image")
              (AttributeError "'NoneType' object has no attribute 'id'")),
     s1).
Proof.
  intros Hget Hver. unfold delete_image.
  unfold bind at 1. rewrite Hget.
  destruct Hver as [-> | ->]; reflexivity.
Qed.

(** [delete_image] never answers [True] or [False]. *)
Lemma delete_image_returns_None fuel name_or_id wait timeout (s s' : state W)
    (r : option bool) :
  delete_image fuel name_or_id wait timeout s = (Ok r, s') → r = None.
Proof.
  unfold delete_image. unfold bind at 1.
  destruct (get_image name_or_id s) as [[image|e|w] s1]; [|done..].
  unfold bind at 1.
  destruct (shade_exceptions _ _ s1) as [[[]|e|w] s2]; [|done..].
  destruct wait; [|by intros [= <- _]].
  unfold bind.
  destruct (_iterate_timeout _ _ _ _ _ _ s2) as [[x|e|w] s3]; [|done..].
  by intros [= <- _].
Qed.

End Deletes.

(** C5 fails for [delete_image]: deleting the image [cirros] that exists
    answers [None] rather than [True], and deleting it again raises rather
    than answering [False].  [delete_volume] called twice in the same way
    answers [True] and then [False]; [delete_stack], which leaves the cached
    stack list in place, finds the deleted stack there on the second call and
    submits the delete again, which the backend refuses. *)
Theorem delete_image_not_boolean :
  (delete_image 5 "cirros" false None
     (Fixtures.start Fixtures.region_one (Fixtures.with_image 100))).1
  = Ok None
  ∧ (delete_image 5 "cirros" false None
       (delete_image 5 "cirros" false None
          (Fixtures.start Fixtures.region_one (Fixtures.with_image 100))).2).1
    = Raise (OpenStackCloudException "Error in deleting image")
  ∧ (delete_volume 5 "vol-1" true None
       (Fixtures.start Fixtures.region_one (Fixtures.with_volume 100))).1
    = Ok true
  ∧ (delete_volume 5 "vol-1" true None
       (delete_volume 5 "vol-1" true None
          (Fixtures.start Fixtures.region_one
             (Fixtures.with_volume 100))).2).1
    = Ok false
  ∧ (delete_stack "app"
       (Fixtures.start Fixtures.region_one (Fixtures.with_stack 100))).1
    = Ok true
  ∧ (delete_stack "app"
       (delete_stack "app"
          (Fixtures.start Fixtures.region_one (Fixtures.with_stack 100))).2).1
    = Raise (OpenStackCloudException "Failed to delete stack stack-1").
Proof. repeat split; vm_compute; reflexivity. Qed.

(** ** Invalidation by the mutation verbs *)

Section Invalidation.
Context {W : Type} `{Env W}.

Lemma invalidate_effect (fname : string) (s : state W) :
  (invalidate fname s).1 = Ok ()
  ∧ world (invalidate fname s).2 = world s
  ∧ trace (invalidate fname s).2 = trace s
  ∧ (cache_enabled (_cache (self s)) = true →
     cache_enabled (_cache (self (invalidate fname s).2)) = true
     ∧ entries (_cache (self (invalidate fname s).2))
         !! invalidated_key (self s) fname = None).
Proof.
  unfold invalidate. unfold_monad. simpl.
  destruct (cache_enabled (_cache (self s))) eqn:Hen; simpl.
  - split; [done|split; [done|split; [done|]]].
    intros _. split; [done|]. apply lookup_delete_eq.
  - split; [done|split; [done|split; [done|]]]. done.
Qed.

Lemma invalidate_pair (fname : string) (s : state W) :
  invalidate fname s = (Ok (), (invalidate fname s).2).
Proof.
  destruct (invalidate fname s) as [r s1] eqn:Hinv.
  pose proof (proj1 (invalidate_effect fname s)) as Hr.
  rewrite Hinv in Hr. simpl in *. by rewrite Hr.
Qed.




(** *** What leaves the time stamp of the snapshot alone *)



























End Invalidation.


Section InvalidationClaim.
Context {W : Type} `{Env W}.


End InvalidationClaim.


(** ** The import task and its transient failure *)

Section ImageImport.
Context {W : Type} `{Env W}.

(** A pass whose poll reports [failure] with the message of error 396
    submits the import task once more, invalidates the image list and goes
    on with the new task. *)
Lemma upload_body_396 container image_name count vars (s : state W)
    st w1 gt w2 :
  iv_image_id vars = None →
  respond (ImageTaskGet (task_id (iv_glance_task vars))) (world s)
  = (Ok st, w1) →
  ts_status st = "failure" →
  ts_message st = IMAGE_ERROR_396 →
  respond (ImageTaskCreate (container ++ "/" ++ image_name) image_name) w1
  = (Ok gt, w2) →
  upload_wait_body container image_name count vars s
  = (Ok (Continue {| iv_glance_task := gt; iv_image_id := None;
                     iv_status := Some st |}),
     (invalidate "list_images"
        (submitted s
           [ImageTaskGet (task_id (iv_glance_task vars));
            ImageTaskCreate (container ++ "/" ++ image_name) image_name]
           w2)).2).
Proof.
  intros Hid Hget Hst Hmsg Hcreate.
  unfold upload_wait_body, or_continue. rewrite Hid.
  unfold bind at 1. unfold submitTask at 1. rewrite Hget. simpl.
  rewrite Hst, Hmsg. simpl.
  unfold bind at 1. unfold submitTask at 1. simpl. rewrite Hcreate.
  unfold bind. rewrite invalidate_pair. unfold ret, submitted. simpl.
  by rewrite <- app_assoc.
Qed.

(** A pass whose poll reports [failure] with any other message raises, and
    the poll is the only task it submitted. *)
Lemma upload_body_failure container image_name count vars (s : state W)
    st w1 :
  iv_image_id vars = None →
  respond (ImageTaskGet (task_id (iv_glance_task vars))) (world s)
  = (Ok st, w1) →
  ts_status st = "failure" →
  ts_message st ≠ IMAGE_ERROR_396 →
  upload_wait_body container image_name count vars s
  = (Raise (OpenStackCloudException
              ("Image creation failed: " ++ ts_message st)),
     submitted s [ImageTaskGet (task_id (iv_glance_task vars))] w1).
Proof.
  intros Hid Hget Hst Hmsg.
  unfold upload_wait_body, or_continue. rewrite Hid.
  unfold bind at 1. unfold submitTask at 1. rewrite Hget. simpl.
  rewrite Hst. simpl.
  apply String.eqb_neq in Hmsg. by rewrite Hmsg.
Qed.

End ImageImport.

(** C7, as the specification states it, fails: after one resubmission a
    failure is not terminal.  With two polls in a row reporting error 396 and
    a third reporting success, [_upload_image_task] submits the import task
    three times, the first submission and two resubmissions, and returns the
    image without any error. *)
Lemma import_retry_not_bounded :
  let r := _upload_image_task 6 "cirros" "images" None true (Some 60%Z)
             (Fixtures.start Fixtures.region_one
                (Fixtures.importing 100
                   [Fixtures.failed_396; Fixtures.failed_396;
                    Fixtures.imported])) in
  r.1 = Ok (inr (Some Fixtures.cirros)) ∧ imports (trace r.2) = 3%nat.
Proof. vm_compute. split; reflexivity. Qed.

Section ImageImportClaim.
Context {W : Type} `{Env W}.

(** C7, amended: in the wait loop of [_upload_image_task], every pass whose
    poll reports [failure] with the message [IMAGE_ERROR_396] submits the
    import task once more, invalidates the image list, sleeps and enters the
    next pass with the new task and no image id, where the same holds again:
    the resubmissions are bounded by the timeout only.  A pass whose poll
    reports [failure] with another message raises
    [OpenStackCloudException] at once, the poll being the only task it
    submitted. *)
Theorem import_retry_per_failure :
  (∀ fuel count deadline container image_name vars (s : state W)
     st w1 gt w2,
     expired deadline (time_time (world s)) = false →
     iv_image_id vars = None →
     respond (ImageTaskGet (task_id (iv_glance_task vars))) (world s)
     = (Ok st, w1) →
     ts_status st = "failure" →
     ts_message st = IMAGE_ERROR_396 →
     respond (ImageTaskCreate (container ++ "/" ++ image_name) image_name)
       w1
     = (Ok gt, w2) →
     upload_poll (S fuel) count deadline container image_name vars s
     = upload_poll fuel (S count) deadline container image_name
         {| iv_glance_task := gt; iv_image_id := None;
            iv_status := Some st |}
         (slept
            (invalidate "list_images"
               (submitted (yielded s (S count))
                  [ImageTaskGet (task_id (iv_glance_task vars));
                   ImageTaskCreate (container ++ "/" ++ image_name)
                     image_name]
                  w2)).2
            2))
  ∧ (∀ fuel count deadline container image_name vars (s : state W) st w1,
       expired deadline (time_time (world s)) = false →
       iv_image_id vars = None →
       respond (ImageTaskGet (task_id (iv_glance_task vars))) (world s)
       = (Ok st, w1) →
       ts_status st = "failure" →
       ts_message st ≠ IMAGE_ERROR_396 →
       upload_poll (S fuel) count deadline container image_name vars s
       = (Raise (OpenStackCloudException
                   ("Image creation failed: " ++ ts_message st)),
          submitted (yielded s (S count))
            [ImageTaskGet (task_id (iv_glance_task vars))] w1)).
Proof.
  split.
  - intros fuel count deadline container image_name vars s st w1 gt w2
      Hexp Hid Hget Hst Hmsg Hcreate.
    unfold upload_poll. apply iterate_timeout_continue; [done|].
    by apply (upload_body_396 _ _ _ _ _ st w1 gt w2).
  - intros fuel count deadline container image_name vars s st w1
      Hexp Hid Hget Hst Hmsg.
    unfold upload_poll. apply iterate_timeout_raise; [done|].
    by apply (upload_body_failure _ _ _ _ _ st w1).
Qed.

End ImageImportClaim.

(** On a world whose next polls report error 396 and then another failure,
    the first pass polls, submits the import task again and enters the next
    pass; on a world whose next poll reports the other failure, the pass
    raises after the poll alone. *)
Lemma import_retry_per_failure_witness :
  upload_poll 3 0 (Some 160%Z) "images" "cirros"
    {| iv_glance_task := {| task_id := "task-1" |}; iv_image_id := None;
       iv_status := None |}
    (Fixtures.start Fixtures.region_one
       (Fixtures.importing 100
          [Fixtures.failed_396; Fixtures.failed_other]))
  = upload_poll 2 1 (Some 160%Z) "images" "cirros"
      {| iv_glance_task := {| task_id := "task-1" |}; iv_image_id := None;
         iv_status := Some Fixtures.failed_396 |}
      (slept
         (invalidate "list_images"
            (submitted
               (yielded
                  (Fixtures.start Fixtures.region_one
                     (Fixtures.importing 100
                        [Fixtures.failed_396; Fixtures.failed_other]))
                  1)
               [ImageTaskGet "task-1";
                ImageTaskCreate ("images" ++ "/" ++ "cirros") "cirros"]
               (Fixtures.importing 100 [Fixtures.failed_other]))).2
         2)
  ∧ upload_poll 2 1 (Some 160%Z) "images" "cirros"
      {| iv_glance_task := {| task_id := "task-1" |}; iv_image_id := None;
         iv_status := Some Fixtures.failed_396 |}
      (Fixtures.start Fixtures.region_one
         (Fixtures.importing 102 [Fixtures.failed_other]))
    = (Raise (OpenStackCloudException
                ("Image creation failed: " ++ "Image cannot be imported.")),
       submitted
         (yielded
            (Fixtures.start Fixtures.region_one
               (Fixtures.importing 102 [Fixtures.failed_other]))
            2)
         [ImageTaskGet "task-1"]
         (Fixtures.importing 102 [Fixtures.failed_other])).
Proof.
  destruct (import_retry_per_failure (W := Fixtures.fake))
    as [Hretry Hfail].
  split.
  - apply (Hretry 2%nat 0%nat (Some 160%Z) "images" "cirros"
             {| iv_glance_task := {| task_id := "task-1" |};
                iv_image_id := None; iv_status := None |}
             (Fixtures.start Fixtures.region_one
                (Fixtures.importing 100
                   [Fixtures.failed_396; Fixtures.failed_other]))
             Fixtures.failed_396
             (Fixtures.importing 100 [Fixtures.failed_other])
             {| task_id := "task-1" |}
             (Fixtures.importing 100 [Fixtures.failed_other]));
      vm_compute; reflexivity.
  - apply (Hfail 1%nat 1%nat (Some 160%Z) "images" "cirros"
             {| iv_glance_task := {| task_id := "task-1" |};
                iv_image_id := None;
                iv_status := Some Fixtures.failed_396 |}
             (Fixtures.start Fixtures.region_one
                (Fixtures.importing 102 [Fixtures.failed_other]))
             Fixtures.failed_other
             (Fixtures.importing 102 [Fixtures.failed_other]));
      try (vm_compute; reflexivity).
    vm_compute. intros Heq. discriminate Heq.
Defined.

(** * Properties of the further methods *)

(** ** Range searches *)

Section RangeSearchFacts.
Context {D : Type} `{EqDecision D}.
Variable range_filter : list D → string → string → exn + list D.
Implicit Types (data acc out : list D).
Implicit Types (filters pre post : list (string * string)).

Lemma elem_of_common (results filtered : list D) r :
  r ∈ common results filtered ↔ r ∈ results ∧ r ∈ filtered.
Proof.
  unfold common. rewrite list_elem_of_bind. split.
  - intros (x & Hx & Hin).
    apply list_elem_of_bind in Hx as (f & Hf & Hfin).
    case_bool_decide; [|by apply elem_of_nil in Hf].
    apply list_elem_of_singleton in Hf. by subst.
  - intros [Hr Hf]. exists r. split; [|done].
    apply list_elem_of_bind. exists r. split; [|done].
    rewrite bool_decide_eq_true_2 by done. by apply list_elem_of_singleton.
Qed.

Lemma range_search_from_app data acc pre post :
  range_search_from range_filter data acc (pre ++ post)%list
  = match range_search_from range_filter data acc pre with
    | inl e => inl e
    | inr acc' => range_search_from range_filter data acc' post
    end.
Proof.
  revert acc. induction pre as [|[k v] pre IH]; intros acc; simpl; [done|].
  destruct (range_filter data k v); [done|]. apply IH.
Qed.

(** From a list [acc] that is not empty, and with no empty list in between,
    the loop keeps the members of [acc] that every filter returns. *)
Lemma range_search_from_all data filters :
  ∀ acc out,
    acc ≠ [] →
    (∀ pre post, filters = (pre ++ post)%list → post ≠ [] →
       range_search_from range_filter data acc pre ≠ inr []) →
    range_search_from range_filter data acc filters = inr out →
    ∀ r, r ∈ out ↔
         r ∈ acc ∧
         ∀ k v, (k, v) ∈ filters →
                ∃ res, range_filter data k v = inr res ∧ r ∈ res.
Proof.
  induction filters as [|[k v] rest IH]; intros acc out Hacc Hmid Hout r.
  - simpl in Hout. injection Hout as <-. split; [|by intros [? _]].
    intros Hr. split; [done|]. intros k v Hin. by apply elem_of_nil in Hin.
  - simpl in Hout. destruct (range_filter data k v) as [e|res] eqn:Hres;
      [done|].
    destruct acc as [|a acc]; [done|].
    set (acc' := common res (a :: acc)) in *.
    destruct rest as [|kv rest].
    + simpl in Hout. injection Hout as <-. unfold acc'.
      rewrite elem_of_common. split.
      * intros [Hr Ha]. split; [done|]. intros k' v' Hin.
        apply list_elem_of_singleton in Hin. injection Hin as -> ->.
        by exists res.
      * intros [Ha Hall].
        destruct (Hall k v) as (res' & Hres' & Hr);
          [by apply list_elem_of_singleton|].
        rewrite Hres in Hres'. injection Hres' as <-. by split.
    + assert (acc' ≠ []) as Hacc'.
      { intros Hnil. apply (Hmid [(k, v)] (kv :: rest)); [done..|].
        simpl. rewrite Hres. by f_equal. }
      rewrite (IH acc' out Hacc'); [|
        intros pre post Heq Hpost;
        specialize (Hmid ((k, v) :: pre) post);
        simpl in Hmid; rewrite Hres in Hmid;
        apply Hmid; [by rewrite Heq|done] | done].
      unfold acc'. rewrite elem_of_common. split.
      * intros [[Hr Ha] Hall]. split; [done|]. intros k' v' Hin.
        apply elem_of_cons in Hin as [Heq|Hin]; [|by apply Hall].
        injection Heq as -> ->. by exists res.
      * intros [Ha Hall]. split.
        -- destruct (Hall k v) as (res' & Hres' & Hr);
             [by apply elem_of_cons; left|].
           rewrite Hres in Hres'. injection Hres' as <-. by split.
        -- intros k' v' Hin. apply Hall. by apply elem_of_cons; right.
Qed.

(** X1: when the filters applied so far leave nothing, [range_search] starts
    afresh: the result of [pre] followed by [post] is the result of [post]
    alone, so members that no filter of [pre] returns come back. *)
Theorem range_search_restart data pre post :
  range_search range_filter data pre = inr [] →
  range_search range_filter data (pre ++ post)%list
  = range_search range_filter data post.
Proof.
  intros Hpre. unfold range_search in *.
  by rewrite range_search_from_app, Hpre.
Qed.

(** X2: when no filter but the last leaves the list empty, the result of
    [range_search] holds exactly the members that every filter returns. *)
Theorem range_search_all_filters data filters out :
  filters ≠ [] →
  (∀ pre post, filters = (pre ++ post)%list → pre ≠ [] → post ≠ [] →
     range_search range_filter data pre ≠ inr []) →
  range_search range_filter data filters = inr out →
  ∀ r, r ∈ out ↔
       ∀ k v, (k, v) ∈ filters →
              ∃ res, range_filter data k v = inr res ∧ r ∈ res.
Proof.
  intros Hne Hmid Hout r. destruct filters as [|[k v] rest]; [done|].
  unfold range_search in Hout. simpl in Hout.
  destruct (range_filter data k v) as [e|res] eqn:Hres; [done|].
  destruct rest as [|kv rest].
  - simpl in Hout. injection Hout as <-. split.
    + intros Hr k' v' Hin. apply list_elem_of_singleton in Hin.
      injection Hin as -> ->. by exists res.
    + intros Hall. destruct (Hall k v) as (res' & Hres' & Hr);
        [by apply list_elem_of_singleton|].
      rewrite Hres in Hres'. by injection Hres' as <-.
  - assert (res ≠ []) as Hacc.
    { intros Hnil. apply (Hmid [(k, v)] (kv :: rest)); [done..|].
      unfold range_search. simpl. rewrite Hres. by f_equal. }
    rewrite (range_search_from_all data (kv :: rest) res out Hacc); [|
      intros pre post Heq Hpost;
      specialize (Hmid ((k, v) :: pre) post);
      unfold range_search in Hmid; simpl in Hmid; rewrite Hres in Hmid;
      apply Hmid; [by rewrite Heq|done..] | done].
    split.
    + intros [Hr Hall] k' v' Hin.
      apply elem_of_cons in Hin as [Heq|Hin]; [|by apply Hall].
      injection Heq as -> ->. by exists res.
    + intros Hall. split.
      * destruct (Hall k v) as (res' & Hres' & Hr);
          [by apply elem_of_cons; left|].
        rewrite Hres in Hres'. by injection Hres' as <-.
      * intros k' v' Hin. apply Hall. by apply elem_of_cons; right.
Qed.

End RangeSearchFacts.

(** A filter on [vcpus] that nothing passes, followed by one on [ram]: the
    result is that of the filter on [ram] alone. *)
Lemma range_search_restart_witness :
  range_search Samples.range_filter
    [Samples.small; Samples.medium; Samples.large]
    ([("vcpus", ">100")] ++ [("ram", "<=2048")])%list
  = range_search Samples.range_filter
      [Samples.small; Samples.medium; Samples.large] [("ram", "<=2048")].
Proof. apply range_search_restart. vm_compute. reflexivity. Defined.

(** At most two CPUs and at least 1024 MB: the medium flavor is in the
    result because both filters return it. *)
Lemma range_search_all_filters_witness :
  Samples.medium ∈ [Samples.medium] ↔
  ∀ k v, (k, v) ∈ [("vcpus", "<=2"); ("ram", ">=1024")] →
         ∃ res,
           Samples.range_filter
             [Samples.small; Samples.medium; Samples.large] k v = inr res
           ∧ Samples.medium ∈ res.
Proof.
  apply (range_search_all_filters Samples.range_filter
           [Samples.small; Samples.medium; Samples.large]
           [("vcpus", "<=2"); ("ram", ">=1024")] [Samples.medium]).
  - discriminate.
  - intros pre post Heq Hpre Hpost.
    destruct pre as [|p1 [|p2 pre]]; [done| |].
    + injection Heq as <- _. vm_compute. discriminate.
    + injection Heq as _ _ Heq. symmetry in Heq.
      apply app_eq_nil in Heq as [_ Heq]. done.
  - vm_compute. reflexivity.
Defined.

(** ** Flavors *)

Section SortedFacts.
Context {A : Type} (key : A → Z).

Lemma insert_by_Permutation x (l : list A) : insert_by key x l ≡ₚ x :: l.
Proof.
  induction l as [|y l IH]; simpl; [done|].
  destruct (key x <=? key y)%Z; [done|].
  rewrite IH. apply Permutation_swap.
Qed.

Lemma sorted_Permutation (l : list A) : sorted key l ≡ₚ l.
Proof.
  induction l as [|x l IH]; simpl; [done|].
  by rewrite insert_by_Permutation, IH.
Qed.

Lemma insert_by_sorted x (l : list A) :
  StronglySorted (fun a b => (key a ≤ key b)%Z) l →
  StronglySorted (fun a b => (key a ≤ key b)%Z) (insert_by key x l).
Proof.
  induction 1 as [|y l Hl IH Hy]; simpl.
  - repeat constructor.
  - destruct (Z.leb_spec (key x) (key y)) as [Hle|Hlt].
    + constructor; [by constructor|]. constructor; [done|].
      eapply Forall_impl; [exact Hy|]. simpl. intros z Hz. lia.
    + constructor; [done|]. rewrite insert_by_Permutation.
      constructor; [lia|done].
Qed.

Lemma sorted_sorted (l : list A) :
  StronglySorted (fun a b => (key a ≤ key b)%Z) (sorted key l).
Proof.
  induction l as [|x l IH]; simpl; [constructor|]. by apply insert_by_sorted.
Qed.

(** In a sorted list the first member that passes [p] has the least key of
    those that pass. *)
Lemma find_sorted_least (p : A → bool) (l : list A) f :
  StronglySorted (fun a b => (key a ≤ key b)%Z) l →
  List.find p l = Some f →
  f ∈ l ∧ p f = true ∧ ∀ g, g ∈ l → p g = true → (key f ≤ key g)%Z.
Proof.
  induction 1 as [|a l Hl IH Ha]; simpl; [done|].
  destruct (p a) eqn:Hpa.
  - intros [= <-]. split; [by left|]. split; [done|].
    intros g Hg _. apply elem_of_cons in Hg as [->|Hg]; [lia|].
    rewrite Forall_forall in Ha. by apply Ha.
  - intros Hfind. destruct (IH Hfind) as (Hin & Hpf & Hleast).
    split; [by right|]. split; [done|].
    intros g Hg Hpg. apply elem_of_cons in Hg as [->|Hg]; [congruence|].
    by apply Hleast.
Qed.

Lemma find_None_all (p : A → bool) (l : list A) :
  List.find p l = None → ∀ g, g ∈ l → p g = false.
Proof.
  induction l as [|a l IH]; simpl; intros Hfind g Hg.
  - by apply elem_of_nil in Hg.
  - destruct (p a) eqn:Hpa; [done|].
    apply elem_of_cons in Hg as [->|Hg]; [done|]. by apply IH.
Qed.

End SortedFacts.

Section FlavorFacts.
Context {W : Type} `{Env W} `{Nova W}.

(** X3: [get_flavor_by_ram] answers with a listed flavor that has at least
    the RAM asked for and the wanted name, and no listed flavor that
    qualifies has less RAM; it raises exactly when no listed flavor
    qualifies. *)
Theorem get_flavor_by_ram_least (ram : Z) (include : option string)
    (s s1 : state W) (flavors : list flavor) :
  list_flavors s = (Ok flavors, s1) →
  (∃ f, get_flavor_by_ram ram include s = (Ok f, s1)
        ∧ f ∈ flavors ∧ fits ram include f = true
        ∧ ∀ g, g ∈ flavors → fits ram include g = true →
               (flavor_ram f ≤ flavor_ram g)%Z)
  ∨ (get_flavor_by_ram ram include s
     = (Raise (OpenStackCloudException
                 ("Could not find a flavor with " ++ pretty ram ++ " and '"
                  ++ default "None" include ++ "'")), s1)
     ∧ ∀ g, g ∈ flavors → fits ram include g = false).
Proof.
  intros Hlist. unfold get_flavor_by_ram, bind. rewrite Hlist.
  destruct (List.find (fits ram include) (sorted flavor_ram flavors))
    as [f|] eqn:Hfind.
  - left. exists f. split; [done|].
    destruct (find_sorted_least flavor_ram _ _ f
                (sorted_sorted flavor_ram flavors) Hfind)
      as (Hin & Hfits & Hleast).
    rewrite sorted_Permutation in Hin. split; [done|]. split; [done|].
    intros g Hg. apply Hleast. by rewrite sorted_Permutation.
  - right. split; [done|]. intros g Hg.
    apply (find_None_all _ _ Hfind). by rewrite sorted_Permutation.
Qed.

End FlavorFacts.

(** Among the flavors with 2048 MB or more, listed as 16384, 2048, 512 and
    2048 MB, the answer for 1024 MB has 2048 MB. *)
Lemma get_flavor_by_ram_least_witness :
  (∃ f, get_flavor_by_ram 1024 None
          (Fixtures.start Fixtures.region_one
             (Fixtures.quiet 100 Fixtures.NeutronUp))
        = (Ok f, Fixtures.start Fixtures.region_one
                   (Fixtures.quiet 100 Fixtures.NeutronUp))
        ∧ f ∈ [MoreFixtures.big; MoreFixtures.small; MoreFixtures.tiny;
               MoreFixtures.general]
        ∧ fits 1024 None f = true
        ∧ ∀ g, g ∈ [MoreFixtures.big; MoreFixtures.small;
                    MoreFixtures.tiny; MoreFixtures.general] →
               fits 1024 None g = true →
               (flavor_ram f ≤ flavor_ram g)%Z)
  ∨ (get_flavor_by_ram 1024 None
       (Fixtures.start Fixtures.region_one
          (Fixtures.quiet 100 Fixtures.NeutronUp))
     = (Raise (OpenStackCloudException
                 ("Could not find a flavor with " ++ pretty 1024%Z
                  ++ " and '" ++ default "None" None ++ "'")),
        Fixtures.start Fixtures.region_one
          (Fixtures.quiet 100 Fixtures.NeutronUp))
     ∧ ∀ g, g ∈ [MoreFixtures.big; MoreFixtures.small; MoreFixtures.tiny;
                 MoreFixtures.general] →
            fits 1024 None g = false).
Proof. apply get_flavor_by_ram_least. reflexivity. Defined.

(** ** Routers *)

Section RouterFacts.
Context {W : Type} `{Env W} `{Neutron W}.

Lemma filtered_ports_internal ext_fixed (ports : list port) :
  filtered_ports "internal" ext_fixed ports
  = List.filter (fun p => negb (matched_ext ext_fixed p)) ports.
Proof.
  induction ports as [|p rest IH]; simpl; [done|].
  destruct (matched_ext ext_fixed p); simpl; by rewrite IH.
Qed.

Lemma filtered_ports_external ext_fixed (ports : list port) :
  filtered_ports "external" ext_fixed ports
  = List.filter (matched_ext ext_fixed) ports.
Proof.
  induction ports as [|p rest IH]; simpl; [done|].
  destruct (matched_ext ext_fixed p); simpl; by rewrite IH.
Qed.

Lemma filter_split {A} (p : A → bool) (l : list A) :
  (List.filter (fun x => negb (p x)) l ++ List.filter p l)%list ≡ₚ l.
Proof.
  induction l as [|x l IH]; simpl; [done|].
  destruct (p x); simpl.
  - rewrite <- Permutation_middle. by rewrite IH.
  - by rewrite IH.
Qed.

Lemma filter_all {A} (p : A → bool) (l : list A) :
  Forall (fun x => p x = true) (List.filter p l).
Proof.
  apply Forall_forall. intros x Hx. apply list_elem_of_In in Hx.
  by apply filter_In in Hx as [_ Hx].
Qed.

(** X4: the internal and the external interfaces of a router split its
    ports: the two lists together are the ports of the router, the internal
    ones share no entry of [fixed_ips] with the gateway of the router and
    each external one shares one. *)
Theorem list_router_interfaces_partition (r : router) (s s1 : state W)
    (ports : list port) :
  search_ports [("device_id", router_id r)] s = (Ok ports, s1) →
  ∃ internal external,
    list_router_interfaces r (Some "internal") s = (Ok internal, s1)
    ∧ list_router_interfaces r (Some "external") s = (Ok external, s1)
    ∧ (internal ++ external)%list ≡ₚ ports
    ∧ Forall (fun p => matched_ext (default [] (external_gateway_info r)) p
                       = false) internal
    ∧ Forall (fun p => matched_ext (default [] (external_gateway_info r)) p
                       = true) external.
Proof.
  intros Hports.
  set (ext_fixed := default [] (external_gateway_info r)).
  exists (filtered_ports "internal" ext_fixed ports),
         (filtered_ports "external" ext_fixed ports).
  unfold list_router_interfaces, bind. rewrite Hports.
  split; [done|]. split; [done|].
  rewrite filtered_ports_internal, filtered_ports_external.
  split; [apply filter_split|]. split; [|apply filter_all].
  eapply Forall_impl; [apply (filter_all (fun p => negb (matched_ext ext_fixed p)))|].
  simpl. intros p Hp. by apply negb_true_iff in Hp.
Qed.

(** X5: an interface type other than [internal] and [external] selects no
    port at all, whatever ports the router has. *)
Theorem list_router_interfaces_unknown_type (r : router) (s s1 : state W)
    (ports : list port) (interface_type : string) :
  search_ports [("device_id", router_id r)] s = (Ok ports, s1) →
  interface_type ≠ "" →
  interface_type ≠ "internal" →
  interface_type ≠ "external" →
  list_router_interfaces r (Some interface_type) s = (Ok [], s1).
Proof.
  intros Hports Hne Hint Hext.
  unfold list_router_interfaces, bind. rewrite Hports.
  destruct interface_type as [|a t]; [done|].
  apply String.eqb_neq in Hint, Hext.
  assert (∀ e l, filtered_ports (String a t) e l = []) as ->; [|done].
  intros e l. induction l as [|p rest IH]; [done|].
  cbn [filtered_ports]. by rewrite Hint, Hext.
Qed.

(** X6: [update_router] called with no name, no administrative state, no
    gateway network, no fixed addresses and [enable_snat] other than
    [False] changes nothing: it logs and returns [None] without looking the
    router up.  Asking only for [enable_snat=True] is such a call. *)
Theorem update_router_nothing_to_update (name_or_id : string)
    (name ext_gateway_net_id : option string) (enable_snat : option bool)
    (ext_fixed_ips : option (list fixed_ip)) (s : state W) :
  truthy name = false →
  truthy ext_gateway_net_id = false →
  enable_snat ≠ Some false →
  ext_fixed_ips = None ∨ ext_fixed_ips = Some [] →
  update_router name_or_id name None ext_gateway_net_id enable_snat
    ext_fixed_ips s
  = (Ok None, logged s "No router data to update").
Proof.
  intros Hname Hnet Hsnat Hfixed. unfold update_router. simpl.
  unfold _build_external_gateway_info. rewrite Hname, Hnet.
  assert (match enable_snat with Some false => Some false | _ => None end
          = None) as ->.
  { by destruct enable_snat as [[]|]. }
  by destruct Hfixed as [-> | ->].
Qed.

End RouterFacts.

(** The router [router-1] has the port on its gateway address as its
    external interface and the other port as its internal one. *)
Lemma list_router_interfaces_partition_witness :
  ∃ internal external,
    list_router_interfaces MoreFixtures.edge (Some "internal")
      (Fixtures.start Fixtures.region_one
         (Fixtures.quiet 100 Fixtures.NeutronUp))
    = (Ok internal, Fixtures.start Fixtures.region_one
                      (Fixtures.quiet 100 Fixtures.NeutronUp))
    ∧ list_router_interfaces MoreFixtures.edge (Some "external")
        (Fixtures.start Fixtures.region_one
           (Fixtures.quiet 100 Fixtures.NeutronUp))
      = (Ok external, Fixtures.start Fixtures.region_one
                        (Fixtures.quiet 100 Fixtures.NeutronUp))
    ∧ (internal ++ external)%list
      ≡ₚ [MoreFixtures.inside_port; MoreFixtures.gateway_port]
    ∧ Forall (fun p => matched_ext
                         (default [] (external_gateway_info MoreFixtures.edge))
                         p = false) internal
    ∧ Forall (fun p => matched_ext
                         (default [] (external_gateway_info MoreFixtures.edge))
                         p = true) external.
Proof. apply list_router_interfaces_partition. reflexivity. Defined.

(** Asked for the interfaces of type [public], the router with two ports
    has none. *)
Lemma list_router_interfaces_unknown_type_witness :
  list_router_interfaces MoreFixtures.edge (Some "public")
    (Fixtures.start Fixtures.region_one
       (Fixtures.quiet 100 Fixtures.NeutronUp))
  = (Ok [], Fixtures.start Fixtures.region_one
              (Fixtures.quiet 100 Fixtures.NeutronUp)).
Proof.
  apply (list_router_interfaces_unknown_type MoreFixtures.edge _ _
           [MoreFixtures.inside_port; MoreFixtures.gateway_port]);
    [reflexivity|discriminate..].
Defined.

(** [update_router('router-1', enable_snat=True)] only logs. *)
Lemma update_router_nothing_to_update_witness :
  update_router "router-1" None None None (Some true) None
    (Fixtures.start Fixtures.region_one
       (Fixtures.quiet 100 Fixtures.NeutronUp))
  = (Ok None,
     logged (Fixtures.start Fixtures.region_one
               (Fixtures.quiet 100 Fixtures.NeutronUp))
       "No router data to update").
Proof.
  apply update_router_nothing_to_update;
    [reflexivity|reflexivity|discriminate|by left].
Defined.

(** ** Security groups *)

Section SecurityGroupFacts.
Context {W : Type} `{Env W} `{SecurityGroups W}.

(** X7: on a cloud whose security groups come from nova, leaving both
    ports out means [-1] and [-1] for ICMP and the full range 1 to 65535
    for TCP and UDP: the call without ports is the call with those ports. *)
Theorem create_security_group_rule_nova_ports (group : string)
    (remote_ip_prefix remote_group_id : option string)
    (direction ethertype : string) (s : state W) :
  secgroup_source = "nova" →
  create_security_group_rule group None None (Some "icmp") remote_ip_prefix
    remote_group_id direction ethertype s
  = create_security_group_rule group (Some (-1)%Z) (Some (-1)%Z)
      (Some "icmp") remote_ip_prefix remote_group_id direction ethertype s
  ∧ create_security_group_rule group None None (Some "tcp") remote_ip_prefix
      remote_group_id direction ethertype s
    = create_security_group_rule group (Some 1%Z) (Some 65535%Z)
        (Some "tcp") remote_ip_prefix remote_group_id direction ethertype s
  ∧ create_security_group_rule group None None (Some "udp") remote_ip_prefix
      remote_group_id direction ethertype s
    = create_security_group_rule group (Some 1%Z) (Some 65535%Z)
        (Some "udp") remote_ip_prefix remote_group_id direction ethertype s.
Proof.
  intros Hsrc. unfold create_security_group_rule. rewrite Hsrc.
  repeat split.
Qed.

(** X8: on such a cloud a rule without a protocol and a rule for outgoing
    traffic are refused once the group is found, before any rule task: the
    state is the one the lookup left, but for the log line of the second. *)
Theorem create_security_group_rule_nova_refuses (group : string)
    (port_range_min port_range_max : option Z) (protocol : option string)
    (remote_ip_prefix remote_group_id : option string)
    (direction ethertype : string) (s s1 : state W) (sg : resource) :
  secgroup_source = "nova" →
  get_security_group group s = (Ok (Some sg), s1) →
  create_security_group_rule group port_range_min port_range_max None
    remote_ip_prefix remote_group_id direction ethertype s
  = (Raise (OpenStackCloudException "Protocol must be specified"), s1)
  ∧ (protocol ≠ None →
     create_security_group_rule group port_range_min port_range_max protocol
       remote_ip_prefix remote_group_id "egress" ethertype s
     = (Raise (OpenStackCloudException "No support for egress rules"),
        logged s1 "Rule creation failed: Nova does not support egress rules")).
Proof.
  intros Hsrc Hget. unfold create_security_group_rule, bind.
  rewrite Hget, Hsrc. split; [done|].
  intros Hproto. by destruct protocol.
Qed.

(** X9: on a cloud whose [secgroup_source] is neither [neutron] nor [nova],
    listing, deleting a group, creating a rule and deleting a rule all raise
    [OpenStackCloudUnavailableFeature] and leave the state as it was; in
    particular deleting a group that does not exist raises instead of
    answering [False]. *)
Theorem security_groups_unavailable (name_or_id : string)
    (port_range_min port_range_max : option Z) (protocol : option string)
    (remote_ip_prefix remote_group_id : option string)
    (direction ethertype : string) (s : state W) :
  secgroup_source ≠ "neutron" →
  secgroup_source ≠ "nova" →
  list_security_groups s
  = (Raise (OpenStackCloudUnavailableFeature
              "Unavailable feature: security groups"), s)
  ∧ delete_security_group name_or_id s
    = (Raise (OpenStackCloudUnavailableFeature
                "Unavailable feature: security groups"), s)
  ∧ create_security_group_rule name_or_id port_range_min port_range_max
      protocol remote_ip_prefix remote_group_id direction ethertype s
    = (Raise (OpenStackCloudUnavailableFeature
                "Unavailable feature: security groups"), s)
  ∧ delete_security_group_rule name_or_id s
    = (Raise (OpenStackCloudUnavailableFeature
                "Unavailable feature: security groups"), s).
Proof.
  intros Hneutron Hnova. apply String.eqb_neq in Hneutron, Hnova.
  assert (list_security_groups s
          = (Raise (OpenStackCloudUnavailableFeature
                      "Unavailable feature: security groups"), s)) as Hlist.
  { unfold list_security_groups. by rewrite Hneutron, Hnova. }
  split; [done|].
  unfold delete_security_group, create_security_group_rule,
    delete_security_group_rule, get_security_group, _get_entity,
    search_security_groups, bind.
  rewrite Hlist, Hneutron, Hnova. done.
Qed.

End SecurityGroupFacts.

(** On the nova cloud of the examples a TCP rule for the group [web] without
    ports is the rule for the ports 1 to 65535, and so on. *)
Lemma create_security_group_rule_nova_ports_witness :
  @create_security_group_rule _ _ SecurityGroupFixtures.nova_groups
    "web" None None (Some "icmp") None None "ingress" "IPv4"
    SecurityGroupFixtures.quiet_start
  = @create_security_group_rule _ _ SecurityGroupFixtures.nova_groups
      "web" (Some (-1)%Z) (Some (-1)%Z) (Some "icmp") None None "ingress"
      "IPv4" SecurityGroupFixtures.quiet_start
  ∧ @create_security_group_rule _ _ SecurityGroupFixtures.nova_groups
      "web" None None (Some "tcp") None None "ingress" "IPv4"
      SecurityGroupFixtures.quiet_start
    = @create_security_group_rule _ _ SecurityGroupFixtures.nova_groups
        "web" (Some 1%Z) (Some 65535%Z) (Some "tcp") None None "ingress"
        "IPv4" SecurityGroupFixtures.quiet_start
  ∧ @create_security_group_rule _ _ SecurityGroupFixtures.nova_groups
      "web" None None (Some "udp") None None "ingress" "IPv4"
      SecurityGroupFixtures.quiet_start
    = @create_security_group_rule _ _ SecurityGroupFixtures.nova_groups
        "web" (Some 1%Z) (Some 65535%Z) (Some "udp") None None "ingress"
        "IPv4" SecurityGroupFixtures.quiet_start.
Proof.
  apply (@create_security_group_rule_nova_ports _ _
           SecurityGroupFixtures.nova_groups).
  reflexivity.
Defined.

(** On the nova cloud of the examples, a rule for the group [web] without a
    protocol, and a TCP rule for outgoing traffic. *)
Lemma create_security_group_rule_nova_refuses_witness :
  @create_security_group_rule _ _ SecurityGroupFixtures.nova_groups
    "web" (Some 80%Z) (Some 80%Z) None None None "ingress" "IPv4"
    SecurityGroupFixtures.quiet_start
  = (Raise (OpenStackCloudException "Protocol must be specified"),
     SecurityGroupFixtures.quiet_start)
  ∧ (Some "tcp" ≠ None →
     @create_security_group_rule _ _ SecurityGroupFixtures.nova_groups
       "web" (Some 80%Z) (Some 80%Z) (Some "tcp") None None "egress" "IPv4"
       SecurityGroupFixtures.quiet_start
     = (Raise (OpenStackCloudException "No support for egress rules"),
        logged SecurityGroupFixtures.quiet_start
          "Rule creation failed: Nova does not support egress rules")).
Proof.
  apply (@create_security_group_rule_nova_refuses _ _
           SecurityGroupFixtures.nova_groups "web" (Some 80%Z) (Some 80%Z)
           (Some "tcp") None None "ingress" "IPv4"
           SecurityGroupFixtures.quiet_start
           SecurityGroupFixtures.quiet_start
           SecurityGroupFixtures.web_group);
    reflexivity.
Defined.

(** On a cloud without security groups, deleting the group [nothing], which
    does not exist, raises. *)
Lemma security_groups_unavailable_witness :
  @delete_security_group _ _ SecurityGroupFixtures.no_groups "nothing"
    SecurityGroupFixtures.quiet_start
  = (Raise (OpenStackCloudUnavailableFeature
              "Unavailable feature: security groups"),
     SecurityGroupFixtures.quiet_start).
Proof.
  destruct (@security_groups_unavailable _ _ SecurityGroupFixtures.no_groups
              "nothing" None None None None None "ingress" "IPv4"
              SecurityGroupFixtures.quiet_start)
    as (_ & Hdelete & _); [discriminate..|].
  exact Hdelete.
Defined.

(** ** The service catalogue and the image list *)

Section CatalogueFacts.
Context {W : Type} `{Env W}.

(** X10: [has_service] always answers: whatever the endpoint lookup returns
    or raises, the result is a boolean and neither the connection nor the
    backends change; the answer is [True] exactly when the configuration
    does not disable the service and the lookup returns a non-empty
    endpoint. *)
Theorem has_service_never_raises (service_key : string) (s : state W) :
  (∀ why, session_endpoint service_key (world s) ≠ Stuck why) →
  ∃ b s',
    has_service service_key s = (Ok b, s')
    ∧ self s' = self s ∧ world s' = world s
    ∧ (b = true ↔
       config_has service_key = true
       ∧ ∃ a t, session_endpoint service_key (world s)
                = Ok (Some (String a t))).
Proof.
  intros Hstuck. unfold has_service.
  destruct (config_has service_key) eqn:Hcfg; simpl.
  - unfold get_session_endpoint, catch, bind, get_self, log_debug, emit, ret,
      raise, block.
    simpl.
    destruct (session_endpoint service_key (world s)) as [ep|e|why] eqn:Hep.
    + simpl. exists (truthy ep), s.
      split; [done|]. split; [done|]. split; [done|]. split.
      * intros Ht. split; [done|].
        destruct ep as [[|a t]|]; try done. by exists a, t.
      * intros (_ & a & t & [= ->]). done.
    + assert (∀ s', self s' = self s → world s' = world s →
                ∃ (b : bool) (s'' : state W),
                  (Ok false, s') = (Ok b, s'')
                  ∧ self s'' = self s ∧ world s'' = world s
                  ∧ (b = true ↔
                     true = true ∧
                     ∃ a t, @Raise (option string) e
                            = Ok (Some (String a t)))) as Hfalse.
      { intros s' Hself Hworld. exists false, s'.
        split; [done|]. split; [done|]. split; [done|].
        split; [done|]. by intros (_ & a & t & ?). }
      destruct e; simpl; by apply Hfalse.
    + by destruct (Hstuck why).
  - unfold_monad. exists false, (logged s ("Disabling " ++ service_key
                                           ++ " entry in catalog per config")).
    split; [done|]. split; [done|]. split; [done|].
    split; [done|]. by intros [? _].
Qed.

(** X11: [list_images] asks nova only when glance answers with an internal
    server error; any other failure of glance that is not a cloud exception
    is raised as [OpenStackCloudException] and nova is not asked. *)
Theorem list_images_nova_fallback (filter_deleted : option bool)
    (s : state W) (w1 : W) :
  (∀ l w2,
     respond GlanceImageList (world s)
     = (Raise GlanceHTTPInternalServerError, w1) →
     respond NovaImageList w1 = (Ok l, w2) →
     list_images_body filter_deleted s
     = (Ok (filter_images (default true filter_deleted) l),
        submitted s [GlanceImageList; NovaImageList] w2))
  ∧ (∀ e,
       respond GlanceImageList (world s) = (Raise e, w1) →
       e ≠ GlanceHTTPInternalServerError →
       is_cloud_exception e = false →
       list_images_body filter_deleted s
       = (Raise (OpenStackCloudException
                   ("Error fetching image list: " ++ exn_str e)),
          submitted s [GlanceImageList] w1)).
Proof.
  split.
  - intros l w2 Hglance Hnova. unfold list_images_body.
    unfold bind, catch. unfold submitTask at 1. rewrite Hglance.
    unfold shade_exceptions, catch, submitTask. simpl. rewrite Hnova.
    unfold ret, submitted. simpl. by rewrite <- app_assoc.
  - intros e Hglance Hne Hcloud. unfold list_images_body.
    unfold bind, catch. unfold submitTask at 1. rewrite Hglance.
    destruct e; try done; simpl in Hcloud; try done.
Qed.

(** X12: what the staleness predicate of [list_images] sees.  With
    [filter_deleted] the list may be cached when every image the backend
    returned is [active], [deleted], [killed] or [DELETED]; without it one
    image in status [DELETED] keeps the list out of the cache. *)
Theorem list_images_cacheable (image_list : list resource) :
  (_no_pending_images (filter_images true image_list) = true ↔
   ∀ image, image ∈ image_list →
            status image ∈ ["active"; "deleted"; "killed"; "DELETED"])
  ∧ (_no_pending_images (filter_images false image_list) = true ↔
     ∀ image, image ∈ image_list →
              status image ∈ ["active"; "deleted"; "killed"]).
Proof.
  assert (∀ l, _no_pending_images l = true ↔
               Forall (fun r => status r ∈ ["active"; "deleted"; "killed"]) l)
    as Hpred.
  { intros l. rewrite Forall_forall.
    rewrite (no_pending_forall
               (fun st => in_tuple st ["active"; "deleted"; "killed"])
               _no_pending_images); [|done|intros r l'; reflexivity].
    split; intros Hall r Hr; specialize (Hall r Hr);
      rewrite in_tuple_elem in *.
    - by apply bool_decide_eq_true_1 in Hall.
    - by apply bool_decide_eq_true_2. }
  assert (∀ st, st ∈ ["active"; "deleted"; "killed"; "DELETED"] ↔
                st ∈ ["active"; "deleted"; "killed"] ∨ st = "DELETED")
    as Hmem.
  { intros st. rewrite !elem_of_cons, !elem_of_nil. tauto. }
  rewrite !Hpred, <- !Forall_forall. split.
  - induction image_list as [|image rest IH]; [done|].
    cbn [filter_images negb]. rewrite Forall_cons, Hmem.
    destruct (String.eqb_spec (status image) "DELETED") as [Hdel|Hne];
      cbn [negb].
    + rewrite IH. tauto.
    + rewrite Forall_cons, IH. tauto.
  - assert (filter_images false image_list = image_list) as ->; [|done].
    induction image_list as [|image rest IH]; simpl; [done|].
    by rewrite IH.
Qed.

End CatalogueFacts.

(** With neutron missing from the catalogue the endpoint lookup raises, and
    [has_service('network')] answers. *)
Lemma has_service_never_raises_witness :
  ∃ b s',
    has_service "network"
      (Fixtures.start Fixtures.region_one
         (Fixtures.quiet 100 Fixtures.NeutronAbsent))
    = (Ok b, s')
    ∧ self s' = Fixtures.region_one
    ∧ world s' = Fixtures.quiet 100 Fixtures.NeutronAbsent
    ∧ (b = true ↔
       config_has (W := Fixtures.fake) "network" = true
       ∧ ∃ a t, session_endpoint "network"
                  (Fixtures.quiet 100 Fixtures.NeutronAbsent)
                = Ok (Some (String a t))).
Proof.
  apply (has_service_never_raises "network"
           (Fixtures.start Fixtures.region_one
              (Fixtures.quiet 100 Fixtures.NeutronAbsent))).
  intros why. vm_compute. discriminate.
Defined.

(** With glance answering 500 the image list comes from nova; with glance
    answering 504 the call fails and nova is not asked. *)
Lemma list_images_nova_fallback_witness :
  list_images_body None
    (FlakyFixtures.start FlakyFixtures.glance_500 (Fixtures.with_image 100))
  = (Ok [Fixtures.cirros],
     submitted
       (FlakyFixtures.start FlakyFixtures.glance_500
          (Fixtures.with_image 100))
       [GlanceImageList; NovaImageList]
       {| FlakyFixtures.failing := FlakyFixtures.glance_500;
          FlakyFixtures.base := Fixtures.with_image 100 |})
  ∧ list_images_body None
      (FlakyFixtures.start FlakyFixtures.glance_504
         (Fixtures.with_image 100))
    = (Raise (OpenStackCloudException
                ("Error fetching image list: "
                 ++ exn_str (BackendException "504 Gateway Timeout"))),
       submitted
         (FlakyFixtures.start FlakyFixtures.glance_504
            (Fixtures.with_image 100))
         [GlanceImageList]
         {| FlakyFixtures.failing := FlakyFixtures.glance_504;
            FlakyFixtures.base := Fixtures.with_image 100 |}).
Proof.
  split.
  - destruct (list_images_nova_fallback None
                (FlakyFixtures.start FlakyFixtures.glance_500
                   (Fixtures.with_image 100))
                {| FlakyFixtures.failing := FlakyFixtures.glance_500;
                   FlakyFixtures.base := Fixtures.with_image 100 |})
      as [Hnova _].
    apply (Hnova [Fixtures.cirros]); reflexivity.
  - destruct (list_images_nova_fallback None
                (FlakyFixtures.start FlakyFixtures.glance_504
                   (Fixtures.with_image 100))
                {| FlakyFixtures.failing := FlakyFixtures.glance_504;
                   FlakyFixtures.base := Fixtures.with_image 100 |})
      as [_ Hother].
    apply Hother; [reflexivity|discriminate|reflexivity].
Defined.

(** ** Volumes and servers *)

Section VolumeFacts.
Context {W : Type} `{Env W} `{Cinder W}.

Lemma elem_of_copies (v v' : resource) (atts : list attachment) sid :
  v' ∈ copies v atts sid ↔ v' = v ∧ attach_device atts sid ≠ None.
Proof.
  induction atts as [|a atts IH]; simpl.
  - rewrite elem_of_nil. by split; [|intros [_ ?]].
  - rewrite (String.eqb_sym sid).
    destruct (String.eqb (att_server_id a) sid).
    + rewrite elem_of_cons, IH. split; [|by intros [-> _]; left].
      by intros [->|[-> _]].
    + apply IH.
Qed.

(** X13: [attach_volume] refuses, before any task is submitted, a volume
    that is attached to the server already, and a volume whose status is
    not [available]. *)
Theorem attach_volume_refuses (fuel : nat) (srv : server) (volume : resource)
    (device : option string) (wait : bool) (timeout : option Z)
    (s : state W) :
  (∀ dev,
     get_volume_attach_device volume (server_id srv) = Some dev →
     dev ≠ "" →
     attach_volume fuel srv volume device wait timeout s
     = (Raise (OpenStackCloudException
                 ("Volume " ++ id volume ++ " already attached to server "
                  ++ server_id srv ++ " on device " ++ dev)), s))
  ∧ (truthy (get_volume_attach_device volume (server_id srv)) = false →
     status volume ≠ "available" →
     attach_volume fuel srv volume device wait timeout s
     = (Raise (OpenStackCloudException
                 ("Volume " ++ id volume ++ " is not available. Status is '"
                  ++ status volume ++ "'")), s)).
Proof.
  split.
  - intros dev Hdev Hne. unfold attach_volume. rewrite Hdev.
    by destruct dev.
  - intros Hdev Hst. unfold attach_volume.
    apply String.eqb_neq in Hst.
    destruct (get_volume_attach_device volume (server_id srv))
      as [[|a t]|]; try done; by rewrite Hst.
Qed.

(** X14: [detach_volume] refuses, before any task is submitted, a volume
    for which [get_volume_attach_device] finds no device on the server. *)
Theorem detach_volume_not_attached (fuel : nat) (srv : server)
    (volume : resource) (wait : bool) (timeout : option Z) (s : state W) :
  truthy (get_volume_attach_device volume (server_id srv)) = false →
  detach_volume fuel srv volume wait timeout s
  = (Raise (OpenStackCloudException
              ("Volume " ++ id volume ++ " is not attached to server "
               ++ server_id srv)), s).
Proof. intros Hdev. unfold detach_volume. by rewrite Hdev. Qed.

(** X15: [get_volumes] returns the listed volumes for which
    [get_volume_attach_device] finds an attachment to the server. *)
Theorem get_volumes_attached (srv : server) (cache : bool) (s s1 : state W)
    (listed : list resource) :
  list_volumes (Some cache) s = (Ok listed, s1) →
  ∃ found,
    get_volumes srv cache s = (Ok found, s1)
    ∧ ∀ v, v ∈ found ↔
           v ∈ listed
           ∧ get_volume_attach_device v (server_id srv) ≠ None.
Proof.
  intros Hlist. eexists. unfold get_volumes, bind. rewrite Hlist.
  split; [reflexivity|]. intros v. rewrite list_elem_of_bind.
  unfold get_volume_attach_device. split.
  - intros (v' & Hin & Hv'). apply elem_of_copies in Hin as [-> Hdev]. done.
  - intros [Hv Hdev]. exists v. split; [|done]. by apply elem_of_copies.
Qed.

End VolumeFacts.

(** The volume [vol-1] is attached to [srv-1] already; the volume [vol-2]
    is still being created. *)
Lemma attach_volume_refuses_witness :
  attach_volume 3 Fixtures.web (Fixtures.volume "in-use") None true None
    SecurityGroupFixtures.quiet_start
  = (Raise (OpenStackCloudException
              ("Volume " ++ "vol-1" ++ " already attached to server "
               ++ "srv-1" ++ " on device " ++ "/dev/vdb")),
     SecurityGroupFixtures.quiet_start)
  ∧ attach_volume 3 Fixtures.web VolumeFixtures.data None true None
      SecurityGroupFixtures.quiet_start
    = (Raise (OpenStackCloudException
                ("Volume " ++ "vol-2" ++ " is not available. Status is '"
                 ++ "creating" ++ "'")),
       SecurityGroupFixtures.quiet_start).
Proof.
  split.
  - destruct (attach_volume_refuses 3 Fixtures.web (Fixtures.volume "in-use")
                None true None SecurityGroupFixtures.quiet_start)
      as [Hattached _].
    apply (Hattached "/dev/vdb"); [reflexivity|discriminate].
  - destruct (attach_volume_refuses 3 Fixtures.web VolumeFixtures.data
                None true None SecurityGroupFixtures.quiet_start)
      as [_ Hstatus].
    apply Hstatus; [reflexivity|discriminate].
Defined.

(** The volume [vol-2] is not attached to [srv-1]. *)
Lemma detach_volume_not_attached_witness :
  detach_volume 3 Fixtures.web VolumeFixtures.data true None
    SecurityGroupFixtures.quiet_start
  = (Raise (OpenStackCloudException
              ("Volume " ++ "vol-2" ++ " is not attached to server "
               ++ "srv-1")),
     SecurityGroupFixtures.quiet_start).
Proof. apply detach_volume_not_attached. reflexivity. Defined.

(** Of the two listed volumes the server [srv-1] has [vol-1]. *)
Lemma get_volumes_attached_witness :
  ∃ found,
    get_volumes Fixtures.web true
      (Fixtures.start Fixtures.region_one (VolumeFixtures.two_volumes 100))
    = (Ok found,
       (list_volumes (Some true)
          (Fixtures.start Fixtures.region_one
             (VolumeFixtures.two_volumes 100))).2)
    ∧ ∀ v, v ∈ found ↔
           v ∈ [Fixtures.volume "in-use"; VolumeFixtures.data]
           ∧ get_volume_attach_device v "srv-1" ≠ None.
Proof.
  apply (get_volumes_attached Fixtures.web true
           (Fixtures.start Fixtures.region_one
              (VolumeFixtures.two_volumes 100))).
  vm_compute. reflexivity.
Defined.

(** ** The external networks *)

Section NetworkMemoFacts.
Context {W : Type} `{Env W} `{Networks W}.

(** X16: once [get_external_networks] has returned, every later call
    returns the same list and touches neither the connection nor the
    backends; an empty answer, be it because the search failed, is
    remembered like any other. *)
Theorem get_external_networks_remembers (m m1 : network_memo)
    (s s1 : state W) (networks : list resource) :
  NetworkMemo.get_external_networks m s = (Ok (networks, m1), s1) →
  NetworkMemo.get_external_networks m1 s1 = (Ok (networks, m1), s1).
Proof.
  unfold NetworkMemo.get_external_networks, bind.
  destruct (NetworkMemo._get_network _ _ _ _ _ s) as [[nets| |] s'] eqn:Hget;
    [|done..].
  unfold ret. intros [= <- <- <-]. simpl.
  unfold NetworkMemo._get_network in *.
  destruct (nm_use m); simpl in *.
  - destruct nets as [|n nets]; [done|]. done.
  - injection Hget as <- <-. done.
Qed.

(** X17: with an external network named in the configuration, the first
    call of [get_external_networks] on a cloud with neutron returns the
    empty list when that network exists, and raises when it does not. *)
Theorem get_external_networks_named (m : network_memo) (s s1 s2 : state W)
    (network : string) (found : option string) :
  nm_use m = true → nm_networks m = [] → nm_stamp m = false →
  nm_name_or_id m = Some network → network ≠ "" →
  has_service "network" s = (Ok true, s1) →
  get_network network s1 = (Ok found, s2) →
  NetworkMemo.get_external_networks m s
  = match found with
    | Some _ =>
      (Ok ([], {| nm_name_or_id := Some network; nm_use := true;
                  nm_networks := []; nm_stamp := true |}), s2)
    | None =>
      (Raise (OpenStackCloudException
                ("Network " ++ network ++ " was provided for"
                 ++ " external access and that network could not be"
                 ++ " found")), s2)
    end.
Proof.
  intros Huse Hnets Hstamp Hname Hne Hsvc Hnet.
  unfold NetworkMemo.get_external_networks, NetworkMemo._get_network.
  rewrite Huse, Hnets, Hstamp, Hname. simpl.
  destruct network as [|a t]; [done|].
  unfold bind. rewrite Hsvc. simpl. rewrite Hnet.
  by destruct found.
Qed.

End NetworkMemoFacts.

(** The search for external networks fails on the first call; the second
    call answers with the same empty list and asks nobody. *)
Lemma get_external_networks_remembers_witness :
  NetworkMemo.get_external_networks
    {| nm_name_or_id := None; nm_use := true; nm_networks := [];
       nm_stamp := true |}
    (NetworkMemo.get_external_networks (NetworkFixtures.fresh None)
       SecurityGroupFixtures.quiet_start).2
  = (Ok ([], {| nm_name_or_id := None; nm_use := true; nm_networks := [];
                nm_stamp := true |}),
     (NetworkMemo.get_external_networks (NetworkFixtures.fresh None)
        SecurityGroupFixtures.quiet_start).2).
Proof.
  apply (get_external_networks_remembers (NetworkFixtures.fresh None) _
           SecurityGroupFixtures.quiet_start).
  vm_compute. reflexivity.
Defined.

(** With [external_network] set to [public], a network that exists, the
    external networks are the empty list. *)
Lemma get_external_networks_named_witness :
  NetworkMemo.get_external_networks (NetworkFixtures.fresh (Some "public"))
    SecurityGroupFixtures.quiet_start
  = (Ok ([], {| nm_name_or_id := Some "public"; nm_use := true;
                nm_networks := []; nm_stamp := true |}),
     SecurityGroupFixtures.quiet_start).
Proof.
  apply (get_external_networks_named (NetworkFixtures.fresh (Some "public"))
           SecurityGroupFixtures.quiet_start
           SecurityGroupFixtures.quiet_start
           SecurityGroupFixtures.quiet_start "public" (Some "public"));
    try reflexivity.
  discriminate.
Defined.

(** ** Floating IPs for a server *)

Section AddressFacts.
Context {W : Type} `{Env W} `{Nova W} `{FloatingIPs W}.

(** X18: on a cloud with neutron, [available_floating_ip] creates nothing
    when the project has a free address on the first external network: it
    returns the first free address, and the last thing it did was to list
    the addresses. *)
Theorem available_floating_ip_reuses (network : option string)
    (srv : option server) (s s1 s2 s3 s4 : state W) (project net : string)
    (nets : list string) (ips : list floating_ip) (free g : floating_ip)
    (rest grest : list floating_ip) :
  has_service "network" s = (Ok true, s1) →
  get_project_id s1 = (Ok project, s2) →
  get_external_networks s2 = (Ok (net :: nets), s3) →
  _neutron_list_floating_ips s3 = (Ok ips, s4) →
  filter_free_neutron ips net project = free :: rest →
  normalize_neutron_floating_ips (free :: rest) = g :: grest →
  available_floating_ip network srv s = (Ok g, s4).
Proof.
  intros Hsvc Hproject Hnets Hlist Hfree Hnorm.
  unfold available_floating_ip, bind at 1. rewrite Hsvc.
  unfold try_neutron, _neutron_available_floating_ips, neutron_exceptions,
    catch, bind.
  rewrite Hproject, Hnets, Hlist, Hfree. unfold ret. simpl.
  by rewrite Hnorm.
Qed.

(** X19: on a cloud without neutron, [detach_ip_from_server] never answers
    with a boolean: whatever [_nova_detach_ip_from_server] returns is
    dropped and the result is [None]. *)
Theorem detach_ip_from_server_nova (srv_id floating_ip_id : string)
    (s s1 : state W) :
  has_service "network" s = (Ok false, s1) →
  detach_ip_from_server srv_id floating_ip_id s
  = match _nova_detach_ip_from_server srv_id floating_ip_id s1 with
    | (Ok _, s') => (Ok None, s')
    | (Raise e, s') => (Raise e, s')
    | (Stuck why, s') => (Stuck why, s')
    end.
Proof.
  intros Hsvc. unfold detach_ip_from_server, bind. rewrite Hsvc. simpl.
  by destruct (_nova_detach_ip_from_server srv_id floating_ip_id s1)
    as [[| |] ?].
Qed.

(** X20: without a pool and without addresses to add,
    [add_ips_to_server] returns the server as it was given: at once when
    [auto_ip] is off, and after reading the public address when [auto_ip]
    is on and the server has one. *)
Theorem add_ips_to_server_nothing_to_do (fuel : nat) (srv : server)
    (ips : option ips_arg) (ip_pool : option string) (wait : bool)
    (timeout : option Z) (reuse : bool) (fixed_address : option string)
    (s : state W) :
  truthy ip_pool = false →
  ips = None ∨ ips = Some (IpList []) ∨ ips = Some (OneIp "") →
  add_ips_to_server fuel srv false ips ip_pool wait timeout reuse
    fixed_address s
  = (Ok (Some srv), s)
  ∧ ∀ a t s1,
      get_server_public_ip srv s = (Ok (Some (String a t)), s1) →
      add_ips_to_server fuel srv true ips ip_pool wait timeout reuse
        fixed_address s
      = (Ok (Some srv), s1).
Proof.
  intros Hpool Hips. unfold add_ips_to_server. rewrite Hpool.
  destruct Hips as [->|[->| ->]]; (split; [done|]);
    intros a t s1 Hpublic; unfold bind; by rewrite Hpublic.
Qed.

(** X21: [get_active_server] on a server that is [ACTIVE] without
    addresses logs that the server is being deleted, calls [_delete_server]
    on it with the caller's [wait] and [timeout] and without deleting
    addresses, and then raises from the state the deletion left: the plain
    complaint when the deletion returned, whatever it answered, and the
    complaint that carries the error when the deletion raised.  It never
    returns the server. *)
Theorem get_active_server_without_address (fuel : nat) (srv : server)
    (auto_ip : bool) (ips : option ips_arg) (ip_pool : option string)
    (reuse wait : bool) (timeout : option Z) (s : state W) :
  server_status srv = "ACTIVE" →
  server_has_addresses srv = false →
  get_active_server fuel srv auto_ip ips ip_pool reuse wait timeout s
  = match
      _delete_server fuel (Some srv) wait timeout false
        {| self := self s; world := world s;
           trace := trace s
                    ++ [EvLogDebug
                          ("Server " ++ server_id srv
                           ++ " reached ACTIVE state without"
                           ++ " being allocated an IP address."
                           ++ " Deleting server.")] |}
    with
    | (Ok _, s') =>
      (Raise (OpenStackCloudException
                ("Server reached ACTIVE state without being"
                 ++ " allocated an IP address.")), s')
    | (Raise e, s') =>
      (Raise (OpenStackCloudException
                ("Server reached ACTIVE state without being"
                 ++ " allocated an IP address AND then could not"
                 ++ " be deleted: " ++ exn_str e)), s')
    | (Stuck why, s') => (Stuck why, s')
    end.
Proof.
  intros Hstatus Haddr. unfold get_active_server.
  rewrite Hstatus, Haddr.
  change (String.eqb "ACTIVE" "ERROR") with false.
  change (String.eqb "ACTIVE" "ACTIVE") with true.
  cbv iota.
  unfold bind, log_debug, emit, delete_or_complain, catch, ret, raise.
  unfold bind.
  match goal with
  | |- context [_delete_server fuel (Some srv) wait timeout false ?st] =>
    destruct (_delete_server fuel (Some srv) wait timeout false st)
      as [[b|e|why] s']
  end; reflexivity.
Qed.

End AddressFacts.

(** With one free address in the project, that address is the answer and
    nothing follows the listing. *)
Lemma available_floating_ip_reuses_witness :
  available_floating_ip None None
    (Fixtures.start Fixtures.region_one
       (AddressFixtures.with_ips 100 Fixtures.NeutronUp))
  = (Ok AddressFixtures.free_ip,
     (_neutron_list_floating_ips
        (Fixtures.start Fixtures.region_one
           (AddressFixtures.with_ips 100 Fixtures.NeutronUp))).2).
Proof.
  apply (available_floating_ip_reuses None None
           (Fixtures.start Fixtures.region_one
              (AddressFixtures.with_ips 100 Fixtures.NeutronUp))
           (Fixtures.start Fixtures.region_one
              (AddressFixtures.with_ips 100 Fixtures.NeutronUp))
           (Fixtures.start Fixtures.region_one
              (AddressFixtures.with_ips 100 Fixtures.NeutronUp))
           (Fixtures.start Fixtures.region_one
              (AddressFixtures.with_ips 100 Fixtures.NeutronUp))
           _ "demo" "ext-net" []
           [Fixtures.web_ip; AddressFixtures.free_ip]
           AddressFixtures.free_ip AddressFixtures.free_ip [] []);
    reflexivity.
Defined.

(** Without neutron in the catalogue, detaching the address of [web]
    answers [None]. *)
Lemma detach_ip_from_server_nova_witness :
  (detach_ip_from_server "srv-1" "fip-1"
     (Fixtures.start Fixtures.region_one
        (AddressFixtures.with_ips 100 Fixtures.NeutronAbsent))).1
  = Ok None.
Proof.
  rewrite (detach_ip_from_server_nova "srv-1" "fip-1"
             (Fixtures.start Fixtures.region_one
                (AddressFixtures.with_ips 100 Fixtures.NeutronAbsent))
             (has_service "network"
                (Fixtures.start Fixtures.region_one
                   (AddressFixtures.with_ips 100 Fixtures.NeutronAbsent))).2);
    reflexivity.
Defined.

(** The server [web] has a public address: asked for an automatic address
    it comes back as it is. *)
Lemma add_ips_to_server_nothing_to_do_witness :
  add_ips_to_server 3 Fixtures.web true None None false (Some 60%Z) true None
    SecurityGroupFixtures.quiet_start
  = (Ok (Some Fixtures.web), SecurityGroupFixtures.quiet_start).
Proof.
  destruct (add_ips_to_server_nothing_to_do 3 Fixtures.web None None false
              (Some 60%Z) true None SecurityGroupFixtures.quiet_start)
    as [_ Hauto]; [reflexivity|by left|].
  eapply Hauto. reflexivity.
Defined.

(** The server [bare] is active without an address: the call logs, submits
    the deletion, which empties the server list, and raises. *)
Lemma get_active_server_without_address_witness :
  (get_active_server 3 AddressFixtures.bare true None None true false
     (Some 180%Z)
     (Fixtures.start Fixtures.region_one (AddressFixtures.with_bare 100))).1
  = Raise (OpenStackCloudException
             "Server reached ACTIVE state without being allocated an IP address.")
  ∧ trace
      (get_active_server 3 AddressFixtures.bare true None None true false
         (Some 180%Z)
         (Fixtures.start Fixtures.region_one
            (AddressFixtures.with_bare 100))).2
    = [EvLogDebug
         "Server srv-3 reached ACTIVE state without being allocated an IP address. Deleting server.";
       EvSubmit (ServerDelete "srv-3")]
  ∧ Fixtures.server_list
      (world
         (get_active_server 3 AddressFixtures.bare true None None true false
            (Some 180%Z)
            (Fixtures.start Fixtures.region_one
               (AddressFixtures.with_bare 100))).2)
    = [].
Proof.
  rewrite (get_active_server_without_address 3 AddressFixtures.bare true
             None None true false (Some 180%Z)
             (Fixtures.start Fixtures.region_one
                (AddressFixtures.with_bare 100)));
    [|reflexivity..].
  repeat split; vm_compute; reflexivity.
Defined.

(** ** Booting a server from volumes *)

Section BootFromVolumeFacts.
Context {W : Type} `{Env W}.





End BootFromVolumeFacts.


(** ** Object storage *)

Section ObjectStorageFacts.
Context {W : Type} `{Env W} `{Swift W}.

(** X23: with both hashes of the file given, [is_object_stale] reads no
    file and does nothing after the metadata fetch but log; it answers
    [False] exactly when the object has metadata and the stored md5 and
    sha256 are the given ones. *)
Theorem is_object_stale_hashes (container name filename md5 sha256 : string)
    (s s1 : state W) (metadata : option headers) :
  get_object_metadata container name s = (Ok metadata, s1) →
  ∃ b msg,
    is_object_stale container name filename (Some md5) (Some sha256) s
    = (Ok b, logged s1 msg)
    ∧ (b = false ↔
       ∃ m, metadata = Some m ∧ m ≠ ∅
            ∧ default "" (m !! OBJECT_MD5_KEY) = md5
            ∧ default "" (m !! OBJECT_SHA256_KEY) = sha256).
Proof.
  intros Hmeta. unfold is_object_stale, bind at 1. rewrite Hmeta.
  destruct metadata as [m|]; simpl.
  - case_bool_decide as Hempty.
    + eexists true, _. split; [reflexivity|]. split; [done|].
      by intros (m' & [= <-] & Hne & _).
    + unfold bind at 1, ret at 1.
      destruct (String.eqb_spec (default "" (m !! OBJECT_MD5_KEY)) md5)
        as [Hmd5|Hmd5]; simpl.
      * destruct (String.eqb_spec (default "" (m !! OBJECT_SHA256_KEY))
                    sha256) as [Hsha|Hsha]; simpl.
        -- eexists false, _. split; [reflexivity|]. split; [|done].
           intros _. by exists m.
        -- eexists true, _. split; [reflexivity|]. split; [done|].
           by intros (m' & [= <-] & _ & _ & ?).
      * eexists true, _. split; [reflexivity|]. split; [done|].
        by intros (m' & [= <-] & _ & ? & _).
  - eexists true, _. split; [reflexivity|]. split; [done|].
    by intros (m' & ? & _).
Qed.

Lemma access_of_acl_of (access acl : string) :
  acl_of OBJECT_CONTAINER_ACLS access = Some acl →
  access_of OBJECT_CONTAINER_ACLS acl = Some access.
Proof.
  unfold OBJECT_CONTAINER_ACLS. simpl.
  destruct (String.eqb_spec access "public") as [->|_].
  - by intros [= <-].
  - destruct (String.eqb_spec access "private") as [->|_]; [|done].
    by intros [= <-].
Qed.

(** X24: the access of a container reads back as it was set: when swift
    accepts the update that [set_container_access] sends and then returns
    the container with the read ACL it was sent, [get_container_access]
    answers with the access that was set, and remembers the container. *)
Theorem container_access_round_trip (name access acl : string)
    (cache : gmap string headers) (s : state W) (w1 w2 : W)
    (container : headers) :
  acl_of OBJECT_CONTAINER_ACLS access = Some acl →
  respond_ContainerUpdate name {[ "x-container-read" := acl ]} (world s)
  = (Ok (), w1) →
  respond_ContainerGet name w1 = (Ok container, w2) →
  container !! "x-container-read" = Some acl →
  (let! _ := set_container_access name access in
   get_container_access name cache) s
  = (Ok (access, <[name := container]> cache),
     {| self := self s; world := w2; trace := trace s |}).
Proof.
  intros Hacl Hupdate Hget Hread.
  unfold bind at 1, set_container_access. rewrite Hacl.
  unfold update_container, except_swift, catch, run. rewrite Hupdate.
  unfold get_container_access, bind at 1, get_container. simpl.
  unfold except_swift, catch, bind, run. simpl. rewrite Hget. simpl.
  case_bool_decide as Hempty.
  { subst container. by apply lookup_empty_Some in Hread. }
  rewrite Hread. simpl. by rewrite (access_of_acl_of access acl).
Qed.

(** X25: the segment size [get_object_segment_size] returns is the smaller
    of the size asked for (1 GB when none is given) and the largest file
    the server takes: the size the capabilities announce, 0 when they
    announce none, and the default maximum when swift answers the
    capabilities request with status 412. *)
Theorem get_object_segment_size_min (segment_size : option Z)
    (s s1 : state W) :
  (∀ caps,
     get_object_capabilities s = (Ok caps, s1) →
     get_object_segment_size segment_size s
     = (Ok (Z.min (default DEFAULT_OBJECT_SEGMENT_SIZE segment_size)
                  (default 0%Z caps)), s1))
  ∧ (∀ e,
       get_object_capabilities s = (Raise e, s1) →
       swift_http_status e = Some 412%Z →
       get_object_segment_size segment_size s
       = (Ok (Z.min (default DEFAULT_OBJECT_SEGMENT_SIZE segment_size)
                    DEFAULT_MAX_FILE_SIZE), s1)).
Proof.
  assert (∀ a b : Z, (if (b <? a)%Z then ret (W := W) b else ret a)
                     = ret (Z.min a b)) as Hmin.
  { intros a b. destruct (Z.ltb_spec b a).
    - by rewrite Z.min_r by lia.
    - by rewrite Z.min_l by lia. }
  split.
  - intros caps Hcaps. unfold get_object_segment_size, bind at 1.
    unfold except_swift, catch, bind. rewrite Hcaps. simpl.
    by rewrite Hmin.
  - intros e Hcaps Hstatus. unfold get_object_segment_size, bind at 1.
    unfold except_swift, catch, bind. rewrite Hcaps, Hstatus. simpl.
    by rewrite Hmin.
Qed.

End ObjectStorageFacts.

(** The stored object has the hashes [d41d] and [e3b0]: with these the
    object is up to date. *)
Lemma is_object_stale_hashes_witness :
  ∃ b msg,
    is_object_stale "images" "cirros" "cirros.img" (Some "d41d")
      (Some "e3b0") SecurityGroupFixtures.quiet_start
    = (Ok b, logged SecurityGroupFixtures.quiet_start msg)
    ∧ (b = false ↔
       ∃ m, Some SwiftFixtures.stored = Some m ∧ m ≠ ∅
            ∧ default "" (m !! OBJECT_MD5_KEY) = "d41d"
            ∧ default "" (m !! OBJECT_SHA256_KEY) = "e3b0").
Proof.
  apply (is_object_stale_hashes "images" "cirros" "cirros.img" "d41d" "e3b0"
           SecurityGroupFixtures.quiet_start
           SecurityGroupFixtures.quiet_start (Some SwiftFixtures.stored)).
  reflexivity.
Defined.

(** Setting the container [images] to [public] and reading the access
    back. *)
Lemma container_access_round_trip_witness :
  (let! _ := set_container_access "images" "public" in
   get_container_access "images" ∅) SecurityGroupFixtures.quiet_start
  = (Ok ("public", <["images" := SwiftFixtures.public_container]> ∅),
     SecurityGroupFixtures.quiet_start).
Proof.
  apply (container_access_round_trip "images" "public" ".r:*,.rlistings" ∅
           SecurityGroupFixtures.quiet_start
           (Fixtures.quiet 100 Fixtures.NeutronUp)
           (Fixtures.quiet 100 Fixtures.NeutronUp)
           SwiftFixtures.public_container);
    reflexivity.
Defined.

(** The server takes 5 GB: the default segment of 1 GB stands. *)
Lemma get_object_segment_size_min_witness :
  get_object_segment_size None SecurityGroupFixtures.quiet_start
  = (Ok (Z.min (default DEFAULT_OBJECT_SEGMENT_SIZE None)
               (default 0%Z (Some 5368709122%Z))),
     SecurityGroupFixtures.quiet_start).
Proof.
  destruct (get_object_segment_size_min None
              SecurityGroupFixtures.quiet_start
              SecurityGroupFixtures.quiet_start) as [Hcaps _].
  apply Hcaps. reflexivity.
Defined.

(** ** Keyword arguments of the volume tasks *)

Section VolumeKwargsFacts.
Context {W : Type} `{Env W}.
Import VolumeKwargs.

Lemma kw_get_del_eq k (l : list (string * pyval)) :
  kw_get k (kw_del k l) = None.
Proof.
  induction l as [|[k' v] l IH]; simpl; [done|].
  destruct (String.eqb k k') eqn:Hk; [done|]. simpl. by rewrite Hk.
Qed.

Lemma kw_get_del_ne k k' (l : list (string * pyval)) :
  k ≠ k' → kw_get k (kw_del k' l) = kw_get k l.
Proof.
  intros Hne. induction l as [|[k'' v] l IH]; simpl; [done|].
  destruct (String.eqb_spec k' k'') as [<-|Hk'].
  - rewrite IH. apply String.eqb_neq in Hne. by rewrite Hne.
  - simpl. by rewrite IH.
Qed.

Lemma kw_get_set_eq k v (l : list (string * pyval)) :
  kw_get k (kw_set k v l) = Some v.
Proof.
  induction l as [|[k' v'] l IH]; simpl.
  - by rewrite String.eqb_refl.
  - destruct (String.eqb k k') eqn:Hk; simpl.
    + by rewrite String.eqb_refl.
    + by rewrite Hk.
Qed.

Lemma kw_get_set_ne k k' v (l : list (string * pyval)) :
  k ≠ k' → kw_get k (kw_set k' v l) = kw_get k l.
Proof.
  intros Hne. apply String.eqb_neq in Hne.
  induction l as [|[k'' v'] l IH]; simpl.
  - by rewrite Hne.
  - destruct (String.eqb_spec k' k'') as [<-|Hk']; simpl.
    + by rewrite Hne.
    + by rewrite IH.
Qed.

(** X26: [_get_volume_kwargs] takes the name and the description under
    either spelling, [name] winning over [display_name] and [description]
    over [display_description], and hands them on under the spelling of
    the volume API in use only: the other spelling is never in the result,
    a value that is not truthy is dropped, and every other key keeps its
    value. *)
Theorem get_volume_kwargs_spelling (kwargs : list (string * pyval)) :
  let v2 := String.prefix "2" (get_api_version "volume") in
  let name :=
    default (default PyNone (kw_get "display_name" kwargs))
            (kw_get "name" kwargs) in
  let description :=
    default (default PyNone (kw_get "display_description" kwargs))
            (kw_get "description" kwargs) in
  let result := VolumeKwargs._get_volume_kwargs kwargs in
  kw_get (if v2 then "display_name" else "name") result = None
  ∧ kw_get (if v2 then "display_description" else "description") result
    = None
  ∧ kw_get (if v2 then "name" else "display_name") result
    = (if py_truthy name then Some name else None)
  ∧ kw_get (if v2 then "description" else "display_description") result
    = (if py_truthy description then Some description else None)
  ∧ ∀ k, k ∉ ["name"; "display_name"; "description"; "display_description"] →
         kw_get k result = kw_get k kwargs.
Proof.
  intros v2 name description result.
  unfold result, VolumeKwargs._get_volume_kwargs, kw_pop.
  rewrite (kw_get_del_ne "name" "display_name") by done.
  rewrite (kw_get_del_ne "description" "display_description") by done.
  rewrite (kw_get_del_ne "description" "name") by done.
  rewrite (kw_get_del_ne "description" "display_name") by done.
  rewrite (kw_get_del_ne "display_description" "name") by done.
  rewrite (kw_get_del_ne "display_description" "display_name") by done.
  fold name description v2.
  set (rest := kw_del "description"
                 (kw_del "display_description"
                    (kw_del "name" (kw_del "display_name" kwargs)))).
  assert (∀ k, kw_get k rest
               = if bool_decide (k ∈ ["name"; "display_name"; "description";
                                      "display_description"])
                 then None else kw_get k kwargs) as Hrest.
  { intros k. unfold rest. case_bool_decide as Hk.
    - repeat (apply elem_of_cons in Hk as [->|Hk]);
        [..|by apply elem_of_nil in Hk];
        repeat first [apply kw_get_del_eq
                     |rewrite kw_get_del_ne by done].
    - rewrite !elem_of_cons, elem_of_nil in Hk.
      rewrite !kw_get_del_ne; [done|naive_solver..]. }
  repeat split.
  - destruct v2, (py_truthy name), (py_truthy description);
      repeat (rewrite kw_get_set_ne by done); by rewrite Hrest.
  - destruct v2, (py_truthy name), (py_truthy description);
      repeat (rewrite kw_get_set_ne by done); by rewrite Hrest.
  - destruct v2, (py_truthy name), (py_truthy description);
      repeat first [rewrite kw_get_set_eq
                   |rewrite kw_get_set_ne by done];
      first [done|by rewrite Hrest].
  - destruct v2, (py_truthy name), (py_truthy description);
      repeat first [rewrite kw_get_set_eq
                   |rewrite kw_get_set_ne by done];
      first [done|by rewrite Hrest].
  - intros k Hk.
    assert (k ≠ "name" ∧ k ≠ "display_name" ∧ k ≠ "description"
            ∧ k ≠ "display_description") as (? & ? & ? & ?).
    { rewrite !elem_of_cons, elem_of_nil in Hk. naive_solver. }
    destruct v2, (py_truthy name), (py_truthy description);
      repeat (rewrite kw_get_set_ne by done);
      rewrite Hrest; by rewrite bool_decide_eq_false_2.
Qed.

End VolumeKwargsFacts.

(** ** Images by name, with an exclusion *)

Section ImageLookupFacts.
Context {W : Type} `{Env W}.

(** X27: [get_image_id] answers with the id of the first image found by
    [search_images] whose name does not contain the excluded string, and
    with [None] exactly when every image found is excluded; several
    matches are no error. *)
Theorem get_image_id_first (image_name : string) (exclude : option string)
    (s s1 : state W) (images : list resource) :
  search_images image_name s = (Ok images, s1) →
  ∃ r,
    get_image_id image_name exclude s = (Ok r, s1)
    ∧ (∀ i, r = Some i →
            ∃ before image after,
              images = (before ++ image :: after)%list
              ∧ id image = i
              ∧ not_excluded exclude image = true
              ∧ Forall (fun b => not_excluded exclude b = false) before)
    ∧ (r = None ↔
       Forall (fun b => not_excluded exclude b = false) images).
Proof.
  intros Hsearch. unfold get_image_id, get_image_exclude, bind.
  rewrite Hsearch. unfold ret. eexists. split; [reflexivity|].
  clear Hsearch. induction images as [|image rest [IHsome IHnone]]; simpl.
  - split; [done|]. split; [done|constructor].
  - destruct (not_excluded exclude image) eqn:Himage; simpl.
    + split.
      * intros i [= <-]. by exists [], image, rest.
      * split; [done|]. intros Hall. apply Forall_cons in Hall as [? _].
        congruence.
    + split.
      * intros i Hi.
        destruct (IHsome i Hi) as (before & im & after & -> & ? & ? & ?).
        exists (image :: before), im, after.
        split; [done|]. split; [done|]. split; [done|]. by constructor.
      * rewrite IHnone. split.
        -- intros Hall. by constructor.
        -- intros Hall. by apply Forall_cons in Hall as [_ ?].
Qed.

End ImageLookupFacts.

(** Of the two images found for [cirros], the id is that of the release
    when names with [test] are excluded. *)
Lemma get_image_id_first_witness :
  ∃ r,
    get_image_id "cirros" (Some "test")
      (Fixtures.start Fixtures.region_one (ImageFixtures.two_images 100))
    = (Ok r,
       (search_images "cirros"
          (Fixtures.start Fixtures.region_one
             (ImageFixtures.two_images 100))).2)
    ∧ (∀ i, r = Some i →
            ∃ before image after,
              [ImageFixtures.cirros_test; Fixtures.cirros]
              = (before ++ image :: after)%list
              ∧ id image = i
              ∧ not_excluded (Some "test") image = true
              ∧ Forall (fun b => not_excluded (Some "test") b = false)
                  before)
    ∧ (r = None ↔
       Forall (fun b => not_excluded (Some "test") b = false)
         [ImageFixtures.cirros_test; Fixtures.cirros]).
Proof.
  apply (get_image_id_first "cirros" (Some "test")
           (Fixtures.start Fixtures.region_one
              (ImageFixtures.two_images 100))).
  vm_compute. reflexivity.
Defined.

(** ** Creating a volume from an image that is not there *)

Section CreateVolumeFromImage.
Context {W : Type} `{Env W}.

(** X28: [create_volume] asked to build the volume from an image, named
    by a non-empty string, that [get_image] does not find raises, and no
    volume is created: the state is the one the image lookup left.  An empty
    image name is no image: nothing is looked up, and the call is the one
    without an image. *)
Theorem create_volume_unknown_image (fuel : nat) (size : Z) (wait : bool)
    (timeout : option Z) (image : string) (kwargs : list (string * pyval))
    (s s1 : state W) :
  (image ≠ "" →
   get_image image s = (Ok None, s1) →
   create_volume fuel size wait timeout (Some image) kwargs s
   = (Raise (OpenStackCloudException
               ("Image " ++ image ++ " was requested as the basis for a new"
                ++ " volume, but was not found on the cloud")), s1))
  ∧ create_volume fuel size wait timeout (Some "") kwargs s
    = create_volume fuel size wait timeout None kwargs s.
Proof.
  split; [|reflexivity].
  intros Hname Himage. destruct image as [|a rest]; [done|].
  unfold create_volume. unfold bind at 1. unfold bind at 1.
  by rewrite Himage.
Qed.

End CreateVolumeFromImage.

(** No image is called [fedora] in a world that holds [cirros] only. *)
Lemma create_volume_unknown_image_witness :
  create_volume 3 10 false None (Some "fedora") []
    (Fixtures.start Fixtures.region_one (Fixtures.with_image 100))
  = (Raise (OpenStackCloudException
              ("Image " ++ "fedora" ++ " was requested as the basis for a new"
               ++ " volume, but was not found on the cloud")),
     (get_image "fedora"
        (Fixtures.start Fixtures.region_one (Fixtures.with_image 100))).2).
Proof.
  apply (create_volume_unknown_image 3 10 false None "fedora" []);
    [discriminate|vm_compute; reflexivity].
Defined.
